(** * The event query and deduplication pipeline of the PR agent server

    A shallow embedding of the webhook-event tools of
    [projects/unit3/build-mcp-server/starter/server.py]:
    [get_recent_actions_events], [get_workflow_status], [get_unseen_events],
    [get_new_failures], [suggest_team_notification] and [mark_events_as_seen],
    and of its pull-request tools [analyze_file_changes], [get_pr_templates]
    and [suggest_template].

    Every tool of the server returns [json.dumps] of a Python value; the
    embedding stops at that value.  The three JSON files the tools work on
    are the fields of [world]; an uncaught Python exception is the [Raise]
    outcome of [py]. *)

From stdpp Require Import gmap strings list sorting pretty.
From Stdlib Require Import ZArith Lia Ascii.
From Stdlib Require SpecFloat.

Set Warnings "-clear-no-such-hyp".

Open Scope string_scope.
Open Scope list_scope.
Open Scope Z_scope.

(** ** Python values and built-ins used by the server *)

Module Py.

Inductive exc := ValueError | TypeError | OverflowError.

(** Outcome of a Python expression: a value or an uncaught exception. *)
Inductive py (A : Type) :=
| Ok (a : A)
| Raise (e : exc).
Arguments Ok {A} a.
Arguments Raise {A} e.

Definition bind {A B} (m : py A) (k : A → py B) : py B :=
  match m with
  | Ok a => k a
  | Raise e => Raise e
  end.

(** [l[start:]] for a list [l] and an integer [start]. *)
Definition slice_from {A} (l : list A) (start : Z) : list A :=
  let n := Z.of_nat (length l) in
  let lo := if start <? 0 then Z.max (start + n) 0 else Z.min start n in
  drop (Z.to_nat lo) l.

(** [s.replace('Z', '+00:00')]: every occurrence is replaced. *)
Fixpoint replace_Z (s : string) : string :=
  match s with
  | EmptyString => EmptyString
  | String c r =>
      if Ascii.eqb c "Z"%char then "+00:00" +:+ replace_Z r
      else String c (replace_Z r)
  end.

(** A Python float, an IEEE 754 binary64 value: [S754_finite s m e] is
    [m * 2^e], negated when [s] is set. *)
Definition float : Type := SpecFloat.spec_float.

Definition float_of_int (z : Z) : SpecFloat.spec_float :=
  match z with
  | Z0 => SpecFloat.S754_zero false
  | Zpos p => SpecFloat.S754_finite false p 0
  | Zneg p => SpecFloat.S754_finite true p 0
  end.

(** [a / b] for two ints, [b] not zero: the quotient of the two integers
    rounded once to the nearest float, ties to even.  (A quotient beyond
    the range of a float, which raises OverflowError in Python, is the
    infinity here; a ratio of microseconds to a million is far below.) *)
Definition truediv (a b : Z) : float :=
  SpecFloat.SFdiv 53 1024 (float_of_int a) (float_of_int b).

(** Truthiness of an optional string: [None] and [''] are falsy. *)
Definition truthy (o : option string) : bool :=
  match o with
  | None => false
  | Some s => negb (String.eqb s EmptyString)
  end.

(** [a > b] on values that are [None] or [str]; ordering is only defined
    between two strings. *)
Definition gt (a b : option string) : py bool :=
  match a, b with
  | Some x, Some y => Ok (String.ltb y x)
  | _, _ => Raise TypeError
  end.

End Py.

#[global] Instance py_bind : MBind Py.py := λ A B k m, Py.bind m k.

(** ** Points in time *)

(** A [datetime]: microseconds since the epoch, and whether it carries a UTC
    offset ("aware") or not ("naive"). *)
Record datetime := { micros : Z; aware : bool }.

(** ** Data model *)

Module Run.
(** The [workflow_run] object of an event. *)
Record t := {
  name : string;
  status : string;
  conclusion : option string;
  run_number : Z;
  updated_at : option string;
  html_url : string
}.
End Run.

Module Event.
Record t := {
  timestamp : string;
  event_type : string;
  repository : string;
  sender : string;
  workflow_run : option Run.t
}.
End Event.

Module State.
(** The document of [EVENTS_STATE_FILE].  [last_processed] is stored as
    the instant whose [isoformat()] the file holds. *)
Record t := {
  seen_event_ids : option (list string);
  last_processed : option datetime;
  manually_marked_count : option nat
}.
End State.

Module OnCall.
Record t := { primary : option string; secondary : option string }.
End OnCall.

Module TeamConfig.
(** The document of [TEAM_CONFIG_FILE]; each top-level key may be absent. *)
Record t := {
  repositories : option (gmap string (list string));
  expertise : option (gmap string (list string));
  on_call : option OnCall.t
}.
End TeamConfig.

(** The files the tools read and write, and the wall clock. *)
Record world := {
  EVENTS_FILE : option (list Event.t);
  EVENTS_STATE_FILE : option State.t;
  TEAM_CONFIG_FILE : option TeamConfig.t;
  now : Z
}.

(** [datetime.now(timezone.utc)] *)
Definition current_time (w : world) : datetime :=
  {| micros := now w; aware := true |}.

Definition write_state (w : world) (st : State.t) : world :=
  {| EVENTS_FILE := EVENTS_FILE w;
     EVENTS_STATE_FILE := Some st;
     TEAM_CONFIG_FILE := TEAM_CONFIG_FILE w;
     now := now w |}.

(** ** get_recent_actions_events *)

Definition get_recent_actions_events (w : world) (limit : Z) : list Event.t :=
  match EVENTS_FILE w with
  | None => []
  | Some events => Py.slice_from events (- limit)
  end.

(** ** get_unseen_events *)

Module Unseen.
(** [{**event, "event_id": event_id}] *)
Record t := { event : Event.t; event_id : string }.
End Unseen.

Module UnseenResult.
Record t := {
  unseen_count : nat;
  events : list Unseen.t;
  marked_as_seen : bool
}.
End UnseenResult.

Inductive reply (A : Type) :=
| Message (message : string)
| Error (error : string)
| Result (r : A).
Arguments Message {A} message.
Arguments Error {A} error.
Arguments Result {A} r.

Definition no_events_yet {A} : reply A :=
  Message "No GitHub Actions events received yet".

Definition event_id (e : Event.t) : string :=
  Event.timestamp e +:+ ":" +:+ Event.event_type e +:+ ":" +:+ Event.repository e.

(** The seen set as both tools load it. *)
Definition load_seen (w : world) : gset string :=
  match EVENTS_STATE_FILE w with
  | None => ∅
  | Some st => list_to_set (default [] (State.seen_event_ids st))
  end.

(** One iteration of the loop over the events: the accumulator is
    [(unseen_events, new_seen_ids)]. *)
Definition unseen_step (seen_events : gset string)
    (acc : list Unseen.t * gset string) (event : Event.t)
    : list Unseen.t * gset string :=
  let id := event_id event in
  if decide (id ∈ seen_events) then acc
  else (acc.1 ++ [{| Unseen.event := event; Unseen.event_id := id |}],
        {[id]} ∪ acc.2).

Definition find_unseen (seen_events : gset string) (events : list Event.t)
    : list Unseen.t * gset string :=
  foldl (unseen_step seen_events) ([], ∅) events.

Definition get_unseen_events (w : world) (mark_as_seen : bool)
    : reply UnseenResult.t * world :=
  match EVENTS_FILE w with
  | None => (no_events_yet, w)
  | Some events =>
      let seen_events := load_seen w in
      let '(unseen_events, new_seen_ids) := find_unseen seen_events events in
      let w' :=
        if mark_as_seen && negb (bool_decide (unseen_events = []))
        then write_state w
               {| State.seen_event_ids :=
                    Some (elements (seen_events ∪ new_seen_ids));
                  State.last_processed := Some (current_time w);
                  State.manually_marked_count := None |}
        else w in
      (Result {| UnseenResult.unseen_count := length unseen_events;
                 UnseenResult.events := unseen_events;
                 UnseenResult.marked_as_seen := mark_as_seen |}, w')
  end.

(** ** mark_events_as_seen *)

Module MarkResult.
Record t := {
  marked_as_seen : nat;
  total_seen_events : nat;
  event_ids_marked : list string
}.
End MarkResult.

Definition mark_events_as_seen (w : world) (event_ids : option (list string))
    : reply MarkResult.t * world :=
  match event_ids with
  | None | Some [] => (Error "No event IDs provided", w)
  | Some ids =>
      let seen_events := load_seen w ∪ list_to_set ids in
      let w' := write_state w
        {| State.seen_event_ids := Some (elements seen_events);
           State.last_processed := Some (current_time w);
           State.manually_marked_count := Some (length ids) |} in
      (Result {| MarkResult.marked_as_seen := length ids;
                 MarkResult.total_seen_events := size seen_events;
                 MarkResult.event_ids_marked := ids |}, w')
  end.

(** ** Insertion-ordered dictionaries and sorting *)

Module Dict.
(** A Python [dict] with string keys, in insertion order. *)
Definition t (V : Type) := list (string * V).

Fixpoint get {V} (k : string) (d : t V) : option V :=
  match d with
  | [] => None
  | (k', v) :: d' => if String.eqb k k' then Some v else get k d'
  end.

Definition mem {V} (k : string) (d : t V) : bool :=
  match get k d with Some _ => true | None => false end.

(** [d[k] = v] *)
Fixpoint set {V} (k : string) (v : V) (d : t V) : t V :=
  match d with
  | [] => [(k, v)]
  | (k', v') :: d' =>
      if String.eqb k k' then (k, v) :: d' else (k', v') :: set k v d'
  end.

(** [list(d.values())] *)
Definition values {V} (d : t V) : list V := map snd d.
End Dict.

(** [sorted(l, key=key, reverse=True)]: the stable descending sort.  An
    element is placed in front of the elements whose key is not greater
    than its own, so equal keys keep their order of arrival. *)
Fixpoint insert_desc {A K} (ltb : K → K → bool) (key : A → K)
    (x : A) (l : list A) : list A :=
  match l with
  | [] => [x]
  | y :: l' =>
      if ltb (key x) (key y) then y :: insert_desc ltb key x l'
      else x :: y :: l'
  end.

Definition sorted_reverse {A K} (ltb : K → K → bool) (key : A → K)
    (l : list A) : list A :=
  foldr (insert_desc ltb key) [] l.

(** ** datetime arithmetic *)

Definition MICROS_PER_SECOND : Z := 1000000.
Definition MICROS_PER_DAY : Z := 86400 * MICROS_PER_SECOND.
(** [datetime.min] and [datetime.max] *)
Definition DATETIME_MIN : Z := -62135596800 * MICROS_PER_SECOND.
Definition DATETIME_MAX : Z := 253402300800 * MICROS_PER_SECOND - 1.
(** The largest number of days a [timedelta] holds. *)
Definition TIMEDELTA_MAX_DAYS : Z := 999999999.

(** [timedelta(hours=h)], in microseconds. *)
Definition timedelta_hours (h : Z) : Py.py Z :=
  let us := h * 3600 * MICROS_PER_SECOND in
  if Z.abs (us `div` MICROS_PER_DAY) <=? TIMEDELTA_MAX_DAYS
  then Py.Ok us else Py.Raise Py.OverflowError.

(** [d - delta] for a datetime and a timedelta. *)
Definition datetime_sub_delta (d : datetime) (delta : Z) : Py.py datetime :=
  let us := micros d - delta in
  if (DATETIME_MIN <=? us) && (us <=? DATETIME_MAX)
  then Py.Ok {| micros := us; aware := aware d |}
  else Py.Raise Py.OverflowError.

(** [a - b] for two datetimes: a timedelta in microseconds. *)
Definition datetime_diff (a b : datetime) : Py.py Z :=
  if Bool.eqb (aware a) (aware b) then Py.Ok (micros a - micros b)
  else Py.Raise Py.TypeError.

(** [td.total_seconds()] for a timedelta of [td] microseconds. *)
Definition total_seconds (td : Z) : Py.float :=
  Py.truediv td MICROS_PER_SECOND.

(** [a >= b] for two datetimes. *)
Definition datetime_ge (a b : datetime) : Py.py bool :=
  if Bool.eqb (aware a) (aware b) then Py.Ok (micros b <=? micros a)
  else Py.Raise Py.TypeError.

(** ** Result documents of the remaining tools *)

Module Occurrence.
Record t := {
  timestamp : string;
  run_number : Z;
  html_url : string;
  sender : string
}.
End Occurrence.

Module FailureGroup.
Record t := {
  repository : string;
  workflow_name : string;
  failure_count : nat;
  first_failure : string;
  latest_failure : string;
  failures : list Occurrence.t
}.
End FailureGroup.

Module FailuresResult.
Record t := {
  time_window_hours : Z;
  total_failure_groups : nat;
  total_individual_failures : nat;
  failure_groups : list FailureGroup.t
}.
End FailuresResult.

Module TimeSince.
(** [time_since_run]: the breakdown of a timedelta with its
    [total_seconds()], a float, or an error marker. *)
Inductive t :=
| Elapsed (days hours minutes : Z) (total_seconds : Py.float)
| Failed (error : string).
End TimeSince.

Module WorkflowInfo.
Record t := {
  name : string;
  status : string;
  conclusion : option string;
  run_number : Z;
  updated_at : option string;
  time_since_run : TimeSince.t;
  html_url : string
}.
End WorkflowInfo.

Module RepoData.
Record t := {
  repository : string;
  workflows : Dict.t (list WorkflowInfo.t);
  latest_run : option WorkflowInfo.t;
  total_runs : nat
}.
End RepoData.

Module StatusSummary.
Record t := {
  total_repositories : nat;
  filter_applied : string;
  generated_at : datetime;
  repositories : list RepoData.t
}.
End StatusSummary.

Module Suggestion.
Record t := { type : string; person : string; reason : string }.
End Suggestion.

Module Notification.
Record t := {
  repository : string;
  workflow_name : string;
  failure_type : string;
  notification_suggestions : list Suggestion.t;
  workflow_specific_notes : list string;
  config_file_location : string;
  config_exists : bool
}.
End Notification.

(** ** The tools that parse timestamps or report the install location *)

Section Server.

(** [datetime.fromisoformat]: [None] when it raises [ValueError]. *)
Variable fromisoformat : string → option datetime.
(** [Path(__file__).parent], the directory the server runs from. *)
Variable server_dir : string.

Definition parse_timestamp (s : string) : Py.py datetime :=
  match fromisoformat (Py.replace_Z s) with
  | Some d => Py.Ok d
  | None => Py.Raise Py.ValueError
  end.

(** *** get_new_failures *)

(** [event.get("workflow_run") and
     event["workflow_run"].get("conclusion") == "failure"]; the run is
    returned with the event. *)
Definition failed_run (event : Event.t) : option Run.t :=
  match Event.workflow_run event with
  | Some run =>
      if bool_decide (Run.conclusion run = Some "failure") then Some run
      else None
  | None => None
  end.

(** The first loop: the failures inside the time window, in order. *)
Fixpoint select_failures (cutoff_time : datetime) (events : list Event.t)
    : Py.py (list (Event.t * Run.t)) :=
  match events with
  | [] => Py.Ok []
  | event :: rest =>
      match failed_run event with
      | Some run =>
          event_time ← parse_timestamp (Event.timestamp event);
          inside ← datetime_ge event_time cutoff_time;
          failures ← select_failures cutoff_time rest;
          Py.Ok (if inside : bool then (event, run) :: failures else failures)
      | None => select_failures cutoff_time rest
      end
  end.

Definition group_key (failure : Event.t * Run.t) : string :=
  Event.repository failure.1 +:+ ":" +:+ Run.name failure.2.

(** One iteration of the grouping loop. *)
Definition record_failure (failure_groups : Dict.t FailureGroup.t)
    (failure : Event.t * Run.t) : Dict.t FailureGroup.t :=
  let '(event, run) := failure in
  let key := group_key failure in
  let group :=
    match Dict.get key failure_groups with
    | Some g => g
    | None =>
        {| FailureGroup.repository := Event.repository event;
           FailureGroup.workflow_name := Run.name run;
           FailureGroup.failure_count := 0;
           FailureGroup.first_failure := Event.timestamp event;
           FailureGroup.latest_failure := Event.timestamp event;
           FailureGroup.failures := [] |}
    end in
  Dict.set key
    {| FailureGroup.repository := FailureGroup.repository group;
       FailureGroup.workflow_name := FailureGroup.workflow_name group;
       FailureGroup.failure_count := S (FailureGroup.failure_count group);
       FailureGroup.first_failure := FailureGroup.first_failure group;
       FailureGroup.latest_failure :=
         if String.ltb (FailureGroup.latest_failure group)
              (Event.timestamp event)
         then Event.timestamp event
         else FailureGroup.latest_failure group;
       FailureGroup.failures :=
         FailureGroup.failures group ++
         [{| Occurrence.timestamp := Event.timestamp event;
             Occurrence.run_number := Run.run_number run;
             Occurrence.html_url := Run.html_url run;
             Occurrence.sender := Event.sender event |}] |}
    failure_groups.

Definition group_failures (failures : list (Event.t * Run.t))
    : Dict.t FailureGroup.t :=
  foldl record_failure [] failures.

Definition sort_groups (groups : list FailureGroup.t) : list FailureGroup.t :=
  sorted_reverse Nat.ltb FailureGroup.failure_count groups.

Definition get_new_failures (w : world) (since_hours : Z)
    : Py.py (reply FailuresResult.t) :=
  match EVENTS_FILE w with
  | None => Py.Ok no_events_yet
  | Some events =>
      delta ← timedelta_hours since_hours;
      cutoff_time ← datetime_sub_delta (current_time w) delta;
      failures ← select_failures cutoff_time events;
      let failure_groups := group_failures failures in
      let sorted_failures := sort_groups (Dict.values failure_groups) in
      Py.Ok (Result
        {| FailuresResult.time_window_hours := since_hours;
           FailuresResult.total_failure_groups := length sorted_failures;
           FailuresResult.total_individual_failures := length failures;
           FailuresResult.failure_groups := sorted_failures |})
  end.

(** *** get_workflow_status *)

(** The events that carry a workflow run, restricted to a conclusion when
    the filter is given and non-empty. *)
Definition workflow_events (events : list Event.t)
    (conclusion : option string) : list (Event.t * Run.t) :=
  let with_run := omap (λ e, pair e <$> Event.workflow_run e) events in
  if Py.truthy conclusion
  then filter (λ item, Run.conclusion item.2 = conclusion) with_run
  else with_run.

(** The [time_since] block, with its [try]/[except]. *)
Definition time_since (current : datetime) (updated_at : option string)
    : TimeSince.t :=
  if Py.truthy updated_at then
    match run_time ← parse_timestamp (default EmptyString updated_at);
          datetime_diff current run_time with
    | Py.Ok time_diff =>
        let seconds := (time_diff `mod` MICROS_PER_DAY) `div` MICROS_PER_SECOND in
        TimeSince.Elapsed (time_diff `div` MICROS_PER_DAY)
          (seconds `div` 3600) ((seconds `mod` 3600) `div` 60)
          (total_seconds time_diff)
    | Py.Raise _ => TimeSince.Failed "Could not parse timestamp"
    end
  else TimeSince.Failed "No timestamp available".

Definition new_repo_data (repo : string) : RepoData.t :=
  {| RepoData.repository := repo;
     RepoData.workflows := [];
     RepoData.latest_run := None;
     RepoData.total_runs := 0 |}.

(** One iteration of the grouping loop of [get_workflow_status]. *)
Definition track_run (current : datetime)
    (repositories : Dict.t RepoData.t) (item : Event.t * Run.t)
    : Py.py (Dict.t RepoData.t) :=
  let '(event, run) := item in
  let repo := Event.repository event in
  let data := default (new_repo_data repo) (Dict.get repo repositories) in
  let workflow_name := Run.name run in
  let runs := default [] (Dict.get workflow_name (RepoData.workflows data)) in
  let updated_at := Run.updated_at run in
  let workflow_info :=
    {| WorkflowInfo.name := workflow_name;
       WorkflowInfo.status := Run.status run;
       WorkflowInfo.conclusion := Run.conclusion run;
       WorkflowInfo.run_number := Run.run_number run;
       WorkflowInfo.updated_at := updated_at;
       WorkflowInfo.time_since_run := time_since current updated_at;
       WorkflowInfo.html_url := Run.html_url run |} in
  newer ← match RepoData.latest_run data with
          | None => Py.Ok true
          | Some latest => Py.gt updated_at (WorkflowInfo.updated_at latest)
          end;
  Py.Ok (Dict.set repo
    {| RepoData.repository := RepoData.repository data;
       RepoData.workflows :=
         Dict.set workflow_name (runs ++ [workflow_info])
           (RepoData.workflows data);
       RepoData.latest_run :=
         if newer : bool then Some workflow_info else RepoData.latest_run data;
       RepoData.total_runs := S (RepoData.total_runs data) |}
    repositories).

Fixpoint track_runs (current : datetime) (repositories : Dict.t RepoData.t)
    (items : list (Event.t * Run.t)) : Py.py (Dict.t RepoData.t) :=
  match items with
  | [] => Py.Ok repositories
  | item :: rest =>
      repositories' ← track_run current repositories item;
      track_runs current repositories' rest
  end.

Definition opt_ltb (a b : option string) : bool :=
  match a, b with
  | Some x, Some y => String.ltb x y
  | _, _ => false
  end.

(** [runs.sort(key=lambda x: x["updated_at"], reverse=True)].  Sorting two
    or more elements compares every one of them with another, which
    raises [TypeError] as soon as one key is [None]. *)
Definition sort_runs (runs : list WorkflowInfo.t)
    : Py.py (list WorkflowInfo.t) :=
  if (2 <=? length runs)%nat
     && existsb (λ r, bool_decide (WorkflowInfo.updated_at r = None)) runs
  then Py.Raise Py.TypeError
  else Py.Ok (sorted_reverse opt_ltb WorkflowInfo.updated_at runs).

Fixpoint sort_workflows (workflows : Dict.t (list WorkflowInfo.t))
    : Py.py (Dict.t (list WorkflowInfo.t)) :=
  match workflows with
  | [] => Py.Ok []
  | (workflow_name, runs) :: rest =>
      runs' ← sort_runs runs;
      rest' ← sort_workflows rest;
      Py.Ok ((workflow_name, runs') :: rest')
  end.

Fixpoint sort_repositories (repositories : list RepoData.t)
    : Py.py (list RepoData.t) :=
  match repositories with
  | [] => Py.Ok []
  | repo_data :: rest =>
      workflows ← sort_workflows (RepoData.workflows repo_data);
      rest' ← sort_repositories rest;
      Py.Ok ({| RepoData.repository := RepoData.repository repo_data;
                RepoData.workflows := workflows;
                RepoData.latest_run := RepoData.latest_run repo_data;
                RepoData.total_runs := RepoData.total_runs repo_data |}
             :: rest')
  end.

Definition get_workflow_status (w : world) (conclusion : option string)
    : Py.py (reply StatusSummary.t) :=
  match EVENTS_FILE w with
  | None | Some [] => Py.Ok no_events_yet
  | Some events =>
      let current := current_time w in
      repositories ← track_runs current [] (workflow_events events conclusion);
      sorted ← sort_repositories (Dict.values repositories);
      Py.Ok (Result
        {| StatusSummary.total_repositories := length repositories;
           StatusSummary.filter_applied :=
             if Py.truthy conclusion
             then "conclusion=" +:+ default EmptyString conclusion else "none";
           StatusSummary.generated_at := current;
           StatusSummary.repositories := sorted |})
  end.

(** *** suggest_team_notification *)

Definition default_config : TeamConfig.t :=
  {| TeamConfig.repositories := Some ∅;
     TeamConfig.expertise := Some (list_to_map
       [("frontend", ["frontend-lead"]);
        ("backend", ["backend-lead"]);
        ("deployment", ["devops-lead"]);
        ("security", ["security-lead"]);
        ("general", ["tech-lead"])]);
     TeamConfig.on_call := Some
       {| OnCall.primary := Some "on-call-primary";
          OnCall.secondary := Some "on-call-secondary" |} |}.

(** The document loaded when the file does not exist: [{}]. *)
Definition empty_config : TeamConfig.t :=
  {| TeamConfig.repositories := None;
     TeamConfig.expertise := None;
     TeamConfig.on_call := None |}.

(** [{**default_config, **team_config}]: per top-level key, the value of
    [team_config] when it has the key, that of [default_config] otherwise. *)
Definition merge_config (default_config team_config : TeamConfig.t)
    : TeamConfig.t :=
  {| TeamConfig.repositories :=
       TeamConfig.repositories team_config ∪ TeamConfig.repositories default_config;
     TeamConfig.expertise :=
       TeamConfig.expertise team_config ∪ TeamConfig.expertise default_config;
     TeamConfig.on_call :=
       TeamConfig.on_call team_config ∪ TeamConfig.on_call default_config |}.

(** [s.lower()], on the ASCII letters. *)
Definition lower_char (c : ascii) : ascii :=
  let n := nat_of_ascii c in
  if (65 <=? n)%nat && (n <=? 90)%nat then ascii_of_nat (n + 32) else c.

Fixpoint lower (s : string) : string :=
  match s with
  | EmptyString => EmptyString
  | String c r => String (lower_char c) (lower r)
  end.

(** [needle in s] for two strings. *)
Fixpoint contains (needle s : string) : bool :=
  String.prefix needle s ||
  match s with
  | EmptyString => false
  | String _ r => contains needle r
  end.

Definition suggestions_for (type reason : string) (people : list string)
    : list Suggestion.t :=
  map (λ person, {| Suggestion.type := type;
                    Suggestion.person := person;
                    Suggestion.reason := reason |}) people.

Definition on_call_suggestion (type reason : string) (who : option string)
    : list Suggestion.t :=
  if Py.truthy who then suggestions_for type reason [default EmptyString who] else [].

Definition workflow_notes (workflow_name : string) : list string :=
  let lowered := lower workflow_name in
  if contains "test" lowered
  then ["QA team should be notified for test failures"]
  else if contains "deploy" lowered
  then ["DevOps team should be notified for deployment failures"]
  else if contains "security" lowered
  then ["Security team should be notified for security check failures"]
  else [].

Definition suggest_team_notification (w : world)
    (repository workflow_name failure_type : string) : Notification.t :=
  let team_config := default empty_config (TEAM_CONFIG_FILE w) in
  let config := merge_config default_config team_config in
  let owners :=
    default [] (default ∅ (TeamConfig.repositories config) !! repository) in
  let experts :=
    default [] (default ∅ (TeamConfig.expertise config) !! failure_type) in
  let on_call := TeamConfig.on_call config in
  {| Notification.repository := repository;
     Notification.workflow_name := workflow_name;
     Notification.failure_type := failure_type;
     Notification.notification_suggestions :=
       suggestions_for "repository_owner"
         ("Repository owner for " +:+ repository) owners
       ++ suggestions_for "expertise"
            ("Expert in " +:+ failure_type +:+ " issues") experts
       ++ on_call_suggestion "on_call_primary" "Primary on-call engineer"
            (on_call ≫= OnCall.primary)
       ++ on_call_suggestion "on_call_secondary" "Secondary on-call engineer"
            (on_call ≫= OnCall.secondary);
     Notification.workflow_specific_notes := workflow_notes workflow_name;
     Notification.config_file_location := server_dir +:+ "/team_config.json";
     Notification.config_exists :=
       match TEAM_CONFIG_FILE w with Some _ => true | None => false end |}.

End Server.

(** ** A reference parser for the closed examples

    The theorems below hold for every behaviour of [fromisoformat].  The
    examples run the tools with [iso_basic], which reads the fixed-width
    forms [YYYY-MM-DDTHH:MM:SS] (naive) and [YYYY-MM-DDTHH:MM:SS+00:00]
    (aware, UTC) and rejects everything else. *)

Module IsoBasic.

Definition digit (c : ascii) : option Z :=
  let n := nat_of_ascii c in
  if (48 <=? n)%nat && (n <=? 57)%nat then Some (Z.of_nat n - 48) else None.

Fixpoint number (acc : Z) (s : string) : option Z :=
  match s with
  | EmptyString => Some acc
  | String c r => d ← digit c; number (10 * acc + d) r
  end.

(** The [len] digits of [s] from position [pos]. *)
Definition field (s : string) (pos len : nat) : option Z :=
  let part := String.substring pos len s in
  if (String.length part =? len)%nat then number 0 part else None.

Definition is_leap (y : Z) : bool :=
  ((y `mod` 4 =? 0) && negb (y `mod` 100 =? 0)) || (y `mod` 400 =? 0).

Definition days_in_month (y m : Z) : Z :=
  if m =? 2 then (if is_leap y then 29 else 28)
  else if (m =? 4) || (m =? 6) || (m =? 9) || (m =? 11) then 30 else 31.

(** Days from 1970-01-01 to the given civil date. *)
Definition days_from_civil (y m d : Z) : Z :=
  let y' := if m <=? 2 then y - 1 else y in
  let era := y' `div` 400 in
  let yoe := y' - era * 400 in
  let doy := (153 * (if 2 <? m then m - 3 else m + 9) + 2) `div` 5 + d - 1 in
  let doe := yoe * 365 + yoe `div` 4 - yoe `div` 100 + doy in
  era * 146097 + doe - 719468.

Definition separators (s : string) : bool :=
  bool_decide (String.get 4 s = Some "-"%char) &&
  bool_decide (String.get 7 s = Some "-"%char) &&
  bool_decide (String.get 10 s = Some "T"%char) &&
  bool_decide (String.get 13 s = Some ":"%char) &&
  bool_decide (String.get 16 s = Some ":"%char).

Definition iso_basic (s : string) : option datetime :=
  let n := String.length s in
  let utc := bool_decide (String.substring 19 6 s = "+00:00") in
  if negb (separators s) then None
  else if negb ((n =? 19)%nat || ((n =? 25)%nat && utc)) then None
  else
    y ← field s 0 4; m ← field s 5 2; d ← field s 8 2;
    hh ← field s 11 2; mm ← field s 14 2; ss ← field s 17 2;
    if (1 <=? y) && (1 <=? m) && (m <=? 12) && (1 <=? d)
       && (d <=? days_in_month y m) && (hh <? 24) && (mm <? 60) && (ss <? 60)
    then Some {| micros :=
                   (days_from_civil y m d * 86400 + hh * 3600 + mm * 60 + ss)
                   * MICROS_PER_SECOND;
                 aware := (n =? 25)%nat |}
    else None.

End IsoBasic.

(** ** Specification-level views used by the theorems *)

(** The event as [get_unseen_events] returns it. *)
Definition annotate (e : Event.t) : Unseen.t :=
  {| Unseen.event := e; Unseen.event_id := event_id e |}.

(** The events whose identity is not in the seen set. *)
Definition unseen_of (seen : gset string) (events : list Event.t)
    : list Event.t :=
  filter (λ e, event_id e ∉ seen) events.

(** The distinct keys of a list in the order of their first occurrence. *)
Definition add_key (seen : list string) (k : string) : list string :=
  if bool_decide (k ∈ seen) then seen else seen ++ [k].

Definition first_occurrences (keys : list string) : list string :=
  foldl add_key [] keys.

Definition count_of (k : string) (groups : Dict.t FailureGroup.t) : nat :=
  from_option FailureGroup.failure_count 0%nat (Dict.get k groups).

(** The invariant of the grouping loop of [get_workflow_status]. *)
Section StatusInvariant.
Variable fromisoformat : string → option datetime.
Variable current : datetime.

(** A reported run carries a string [updated_at] and the elapsed time, or
    the error marker, computed from it. *)
Definition info_ok (r : WorkflowInfo.t) : Prop :=
  is_Some (WorkflowInfo.updated_at r)
  ∧ WorkflowInfo.time_since_run r
    = time_since fromisoformat current (WorkflowInfo.updated_at r).

Definition data_ok (d : RepoData.t) : Prop :=
  (∀ l, RepoData.latest_run d = Some l → info_ok l)
  ∧ Forall (λ kv, Forall info_ok kv.2) (RepoData.workflows d).

End StatusInvariant.

(** ** Sample stores for the closed examples *)

Definition sample_run (name : string) (conclusion : option string)
    (updated_at : option string) : Run.t :=
  {| Run.name := name; Run.status := "completed";
     Run.conclusion := conclusion; Run.run_number := 1;
     Run.updated_at := updated_at; Run.html_url := "x" |}.

Definition sample_event (timestamp repository : string)
    (run : option Run.t) : Event.t :=
  {| Event.timestamp := timestamp; Event.event_type := "workflow_run";
     Event.repository := repository; Event.sender := "u";
     Event.workflow_run := run |}.

Definition sample_world (events : option (list Event.t))
    (state : option State.t) : world :=
  {| EVENTS_FILE := events; EVENTS_STATE_FILE := state;
     TEAM_CONFIG_FILE := None;
     (* 2024-01-01T01:00:00+00:00 *)
     now := 1704070800000000 |}.

Definition three_events : list Event.t :=
  [sample_event "2024-01-01T00:00:00Z" "a/b" None;
   sample_event "2024-01-01T00:10:00Z" "a/b" None;
   sample_event "2024-01-01T00:20:00Z" "c/d" None].

(** Two deliveries that agree on timestamp, type and repository. *)
Definition twin_events : list Event.t :=
  [sample_event "2024-01-01T00:00:00Z" "a/b" None;
   sample_event "2024-01-01T00:00:00Z" "a/b"
     (Some (sample_run "CI" (Some "failure") None))].

Definition frontend_only : TeamConfig.t :=
  {| TeamConfig.repositories := None;
     TeamConfig.expertise := Some {["frontend" := ["alice"]]};
     TeamConfig.on_call := None |}.

Definition world_with_config (team_config : option TeamConfig.t)
    (events : option (list Event.t)) : world :=
  {| EVENTS_FILE := events; EVENTS_STATE_FILE := None;
     TEAM_CONFIG_FILE := team_config; now := 0 |}.

Definition failure_event (timestamp repository name : string) : Event.t :=
  sample_event timestamp repository
    (Some (sample_run name (Some "failure") (Some timestamp))).

(** One failure of [a/b:CI], five of [a/b:Deploy], three of [c/d:CI], all
    within the day before the clock of [sample_world]. *)
Definition failures_1_5_3 : list Event.t :=
  [failure_event "2024-01-01T00:00:00Z" "a/b" "CI";
   failure_event "2024-01-01T00:01:00Z" "a/b" "Deploy";
   failure_event "2024-01-01T00:02:00Z" "c/d" "CI";
   failure_event "2024-01-01T00:03:00Z" "a/b" "Deploy";
   failure_event "2024-01-01T00:04:00Z" "c/d" "CI";
   failure_event "2024-01-01T00:05:00Z" "a/b" "Deploy";
   failure_event "2024-01-01T00:06:00Z" "c/d" "CI";
   failure_event "2024-01-01T00:07:00Z" "a/b" "Deploy";
   failure_event "2024-01-01T00:08:00Z" "a/b" "Deploy"].

(** Two groups tie at two failures around a group with one. *)
Definition failures_2_1_2 : list Event.t :=
  [failure_event "2024-01-01T00:00:00Z" "a/b" "CI";
   failure_event "2024-01-01T00:01:00Z" "a/b" "Deploy";
   failure_event "2024-01-01T00:02:00Z" "c/d" "CI";
   failure_event "2024-01-01T00:03:00Z" "c/d" "CI";
   failure_event "2024-01-01T00:04:00Z" "a/b" "CI"].

Definition group_summary (r : Py.py (reply FailuresResult.t))
    : list (string * string * nat) :=
  match r with
  | Py.Ok (Result res) =>
      map (λ g, (FailureGroup.repository g, FailureGroup.workflow_name g,
                 FailureGroup.failure_count g))
        (FailuresResult.failure_groups res)
  | _ => []
  end.

(** A failure with an unreadable timestamp between two well-formed ones. *)
Definition one_bad_timestamp : list Event.t :=
  [failure_event "2024-01-01T00:00:00Z" "a/b" "CI";
   failure_event "not-a-date" "a/b" "CI";
   failure_event "2024-01-01T00:30:00Z" "c/d" "CI"].

Definition run_event (repository name : string) (updated_at : option string)
    : Event.t :=
  sample_event "2024-01-01T00:00:00Z" repository
    (Some (sample_run name (Some "success") updated_at)).

(** The [time_since_run] of every run a status reply reports. *)
Definition elapsed_markers (r : Py.py (reply StatusSummary.t))
    : Py.py (list TimeSince.t) :=
  match r with
  | Py.Ok (Result summary) =>
      Py.Ok (repo_data ← StatusSummary.repositories summary;
             workflow ← RepoData.workflows repo_data;
             WorkflowInfo.time_since_run <$> workflow.2)
  | Py.Ok _ => Py.Ok []
  | Py.Raise e => Py.Raise e
  end.

(** ** The pull-request tools *)

Module PyStr.

(** The newline character. *)
Definition nl : ascii := "010"%char.

(** [s.split('\n')]: the pieces between the newlines, never an empty list. *)
Fixpoint split_lines (s : string) : list string :=
  match s with
  | EmptyString => [EmptyString]
  | String c r =>
      if Ascii.eqb c nl then EmptyString :: split_lines r
      else match split_lines r with
           | line :: lines => String c line :: lines
           | [] => [String c EmptyString]
           end
  end.

(** ['\n'.join(lines)] *)
Fixpoint join_lines (lines : list string) : string :=
  match lines with
  | [] => EmptyString
  | [line] => line
  | line :: rest => line +:+ String nl (join_lines rest)
  end.

(** [l[:stop]] for a list [l] and an integer [stop]. *)
Definition slice_to {A} (l : list A) (stop : Z) : list A :=
  let n := Z.of_nat (length l) in
  let hi := if stop <? 0 then Z.max (stop + n) 0 else Z.min stop n in
  take (Z.to_nat hi) l.

End PyStr.

(** [DEFAULT_TEMPLATES] and [TYPE_MAPPING], in the order they are written. *)
Definition DEFAULT_TEMPLATES : Dict.t string :=
  [("bug.md", "Bug Fix"); ("feature.md", "Feature");
   ("refactor.md", "Refactor"); ("security.md", "Security")].

Definition TYPE_MAPPING : Dict.t string :=
  [("bug", "bug.md"); ("fix", "bug.md");
   ("feature", "feature.md"); ("enhancement", "feature.md");
   ("refactor", "refactor.md"); ("cleanup", "refactor.md");
   ("security", "security.md"); ("vulnerability", "security.md")].

Module Template.
Record t := { filename : string; type : string; content : string }.
End Template.

Module TemplateSuggestion.
Record t := {
  recommended_template : Template.t;
  reasoning : string;
  template_content : string;
  usage_hint : string
}.
End TemplateSuggestion.

Section Templates.

(** [(TEMPLATES_DIR / filename).read_text()]: [None] when the file cannot
    be read and the call raises. *)
Variable read_text : string → option string.

(** *** get_pr_templates *)

(** [None] stands for the exception that escapes the tool. *)
Definition get_pr_templates : option (list Template.t) :=
  mapM (λ item : string * string,
          content ← read_text item.1;
          Some {| Template.filename := item.1;
                  Template.type := item.2;
                  Template.content := content |})
       DEFAULT_TEMPLATES.

(** *** suggest_template *)

(** The change type is looked up through [lower].  The keys of
    [TYPE_MAPPING] are ASCII and hold no [k], the only ASCII letter that a
    non-ASCII character lower-cases to, so the lookup finds the same entry
    as with Python's [str.lower]. *)
Definition suggest_template (changes_summary change_type : string)
    : option TemplateSuggestion.t :=
  templates ← get_pr_templates;
  let template_file :=
    default "feature.md" (Dict.get (lower change_type) TYPE_MAPPING) in
  (* the default of [next], [templates[0]], is evaluated first *)
  first ← head templates;
  let selected_template :=
    default first
      (List.find (λ t, String.eqb (Template.filename t) template_file)
         templates) in
  Some {| TemplateSuggestion.recommended_template := selected_template;
          TemplateSuggestion.reasoning :=
            "Based on your analysis: '" +:+ changes_summary
            +:+ "', this appears to be a " +:+ change_type +:+ " change.";
          TemplateSuggestion.template_content :=
            Template.content selected_template;
          TemplateSuggestion.usage_hint :=
            "Claude can help you fill out this template based on the specific changes in your PR." |}.

End Templates.

(** *** analyze_file_changes *)

Module Root.
(** A root of the client session: [str(root.uri)] and [root.uri.path]. *)
Record t := { uri : string; path : option string }.
End Root.

Module Proc.
(** What [subprocess.run(..., capture_output=True, text=True)] does: it
    completes with a return code and the two captured streams, or raises an
    exception whose [str] is [message]. *)
Inductive t :=
| Completed (returncode : Z) (stdout stderr : string)
| Failed (message : string).
End Proc.

Module RootsCheck.
Inductive t :=
| Found (count : nat) (roots : list string)
| NotFound (error : string).
End RootsCheck.

Module DebugInfo.
Record t := {
  provided_working_directory : option string;
  actual_cwd : string;
  server_process_cwd : string;
  server_file_location : string;
  roots_check : RootsCheck.t
}.
End DebugInfo.

Module Analysis.
Record t := {
  base_branch : string;
  files_changed : string;
  statistics : string;
  commits : string;
  diff : string;
  truncated : bool;
  total_diff_lines : nat;
  _debug : DebugInfo.t
}.
End Analysis.

Section Analyze.

(** [await context.session.list_roots()]: the roots, or the [str] of the
    exception raised on the way; the session answers both calls alike. *)
Variable list_roots : string + list Root.t.
(** [os.getcwd()] and [str(Path(__file__).parent)] *)
Variable getcwd : string.
Variable server_dir : string.
(** [subprocess.run(args, cwd=cwd)] *)
Variable run : list string → string → Proc.t.

(** The directory taken from the first root when none is given. *)
Definition resolve_working_directory (working_directory : option string)
    : option string :=
  match working_directory with
  | Some d => Some d
  | None =>
      match list_roots with
      | inr (root :: _) => Root.path root
      | _ => None
      end
  end.

Definition debug_info (working_directory : option string) (cwd : string)
    : DebugInfo.t :=
  {| DebugInfo.provided_working_directory := working_directory;
     DebugInfo.actual_cwd := cwd;
     DebugInfo.server_process_cwd := getcwd;
     DebugInfo.server_file_location := server_dir;
     DebugInfo.roots_check :=
       match list_roots with
       | inr roots => RootsCheck.Found (length roots) (map Root.uri roots)
       | inl error => RootsCheck.NotFound error
       end |}.

(** The diff as reported: [(diff_content, truncated, len(diff_lines))]. *)
Definition truncate_diff (stdout : string) (max_diff_lines : Z)
    : string * bool * nat :=
  let diff_lines := PyStr.split_lines stdout in
  if max_diff_lines <? Z.of_nat (length diff_lines)
  then (PyStr.join_lines (PyStr.slice_to diff_lines max_diff_lines)
        +:+ String PyStr.nl (String PyStr.nl
              ("... Output truncated. Showing " +:+ pretty max_diff_lines
               +:+ " of " +:+ pretty (length diff_lines) +:+ " lines ..."))
        +:+ String PyStr.nl "... Use max_diff_lines parameter to see more ...",
        true, length diff_lines)
  else (stdout, false, length diff_lines).

Definition analyze_file_changes (base_branch : string) (include_diff : bool)
    (max_diff_lines : Z) (working_directory : option string)
    : reply Analysis.t :=
  let working_directory := resolve_working_directory working_directory in
  let cwd :=
    if Py.truthy working_directory then default EmptyString working_directory
    else getcwd in
  let debug := debug_info working_directory cwd in
  match run ["git"; "diff"; "--name-status"; base_branch +:+ "...HEAD"] cwd with
  | Proc.Failed message => Error message
  | Proc.Completed returncode files_changed stderr =>
      if negb (returncode =? 0) then Error ("Git error: " +:+ stderr)
      else
        match run ["git"; "diff"; "--stat"; base_branch +:+ "...HEAD"] cwd with
        | Proc.Failed message => Error message
        | Proc.Completed _ statistics _ =>
            let diff_result :=
              if include_diff
              then match run ["git"; "diff"; base_branch +:+ "...HEAD"] cwd with
                   | Proc.Failed message => inl message
                   | Proc.Completed _ stdout _ =>
                       inr (truncate_diff stdout max_diff_lines)
                   end
              else inr ("Diff not included (set include_diff=true to see full diff)",
                        false, 0%nat) in
            match diff_result with
            | inl message => Error message
            | inr (diff_content, truncated, total) =>
                match run ["git"; "log"; "--oneline"; base_branch +:+ "..HEAD"]
                        cwd with
                | Proc.Failed message => Error message
                | Proc.Completed _ commits _ =>
                    Result
                      {| Analysis.base_branch := base_branch;
                         Analysis.files_changed := files_changed;
                         Analysis.statistics := statistics;
                         Analysis.commits := commits;
                         Analysis.diff := diff_content;
                         Analysis.truncated := truncated;
                         Analysis.total_diff_lines := total;
                         Analysis._debug := debug |}
                end
            end
        end
  end.

End Analyze.

(** ** Views of the failure query *)

(** A failure event whose timestamp parses to a point at or after the
    cutoff, given in microseconds. *)
Definition in_window (fromisoformat : string → option datetime)
    (cutoff : Z) (e : Event.t) : bool :=
  match failed_run e, fromisoformat (Py.replace_Z (Event.timestamp e)) with
  | Some _, Some d => cutoff <=? micros d
  | _, _ => false
  end.

(** The key under which a failure event is grouped. *)
Definition event_key (e : Event.t) : option string :=
  (λ run, Event.repository e +:+ ":" +:+ Run.name run) <$> failed_run e.

(** The cutoff of [get_new_failures], in microseconds. *)
Definition cutoff_micros (w : world) (since_hours : Z) : Z :=
  now w - since_hours * 3600 * MICROS_PER_SECOND.

(** What every entry of the dictionary of failure groups satisfies. *)
Definition group_ok (entry : string * FailureGroup.t) : Prop :=
  let g := entry.2 in
  entry.1 = FailureGroup.repository g +:+ ":" +:+ FailureGroup.workflow_name g
  ∧ FailureGroup.failure_count g = length (FailureGroup.failures g)
  ∧ (1 ≤ FailureGroup.failure_count g)%nat
  ∧ Occurrence.timestamp <$> head (FailureGroup.failures g)
    = Some (FailureGroup.first_failure g)
  ∧ FailureGroup.latest_failure g
    ∈ map Occurrence.timestamp (FailureGroup.failures g)
  ∧ Forall (λ occ, String.ltb (FailureGroup.latest_failure g)
                     (Occurrence.timestamp occ) = false)
      (FailureGroup.failures g).

(** The key a group is filed under, rebuilt from its label. *)
Definition group_label (g : FailureGroup.t) : string :=
  FailureGroup.repository g +:+ ":" +:+ FailureGroup.workflow_name g.

(** Two failures of different repositories whose keys coincide. *)
Definition colliding_failures : list Event.t :=
  [failure_event "2024-01-01T00:00:00Z" "a:b" "c";
   failure_event "2024-01-01T00:10:00Z" "a" "b:c"].

(** ** Views of the status query *)

(** The record [get_workflow_status] builds for one run. *)
Definition info_of (fromisoformat : string → option datetime)
    (current : datetime) (run : Run.t) : WorkflowInfo.t :=
  {| WorkflowInfo.name := Run.name run;
     WorkflowInfo.status := Run.status run;
     WorkflowInfo.conclusion := Run.conclusion run;
     WorkflowInfo.run_number := Run.run_number run;
     WorkflowInfo.updated_at := Run.updated_at run;
     WorkflowInfo.time_since_run :=
       time_since fromisoformat current (Run.updated_at run);
     WorkflowInfo.html_url := Run.html_url run |}.

(** All the runs reported for a repository. *)
Definition runs_of (d : RepoData.t) : list WorkflowInfo.t :=
  concat (Dict.values (RepoData.workflows d)).

(** A property of runs that holds for every run of a repository record,
    its [latest_run] included. *)
Definition data_all (Q : WorkflowInfo.t → Prop) (d : RepoData.t) : Prop :=
  (∀ l, RepoData.latest_run d = Some l → Q l)
  ∧ Forall (λ kv, Forall Q kv.2) (RepoData.workflows d).

(** The run counter of a repository record agrees with its lists. *)
Definition counted (d : RepoData.t) : Prop :=
  RepoData.total_runs d
  = sum_list_with length (Dict.values (RepoData.workflows d))
  ∧ (1 ≤ RepoData.total_runs d)%nat.

(** [latest_run] is one of the runs and none has a greater [updated_at]. *)
Definition latest_ok (d : RepoData.t) : Prop :=
  ∃ l, RepoData.latest_run d = Some l
       ∧ l ∈ runs_of d
       ∧ Forall (λ r, opt_ltb (WorkflowInfo.updated_at l)
                        (WorkflowInfo.updated_at r) = false) (runs_of d).

(** An item already grouped: its repository has a record with a latest
    run, and that run has no [updated_at] if the item has none. *)
Definition tracked (repositories : Dict.t RepoData.t)
    (item : Event.t * Run.t) : Prop :=
  ∃ d l, Dict.get (Event.repository item.1) repositories = Some d
         ∧ RepoData.latest_run d = Some l
         ∧ (Run.updated_at item.2 = None → WorkflowInfo.updated_at l = None).

(** A run with a null [updated_at] before a dated run of the same
    repository. *)
Definition null_then_dated : list Event.t :=
  [run_event "a/b" "CI" None;
   run_event "c/d" "CI" (Some "2024-01-01T00:00:00Z");
   run_event "a/b" "Deploy" (Some "2024-01-01T00:00:00Z")].

(** A template directory with every file in place, and one without
    [security.md]. *)
Definition all_templates (filename : string) : option string :=
  Some ("# " +:+ filename).

Definition no_security_template (filename : string) : option string :=
  if String.eqb filename "security.md" then None else Some ("# " +:+ filename).

(** A repository whose [git diff] prints three lines, each ended by a
    newline, and answers the other commands with fixed text. *)
Definition sample_git (args : list string) (cwd : string) : Proc.t :=
  match args with
  | ["git"; "diff"; _] =>
      Proc.Completed 0
        ("+one" +:+ String PyStr.nl ("+two" +:+ String PyStr.nl
           ("+three" +:+ String PyStr.nl EmptyString))) EmptyString
  | ["git"; "log"; _; _] => Proc.Completed 1 "abc123 first" "warning"
  | _ => Proc.Completed 0 "M file.py" EmptyString
  end.

(** A directory that is not a git repository. *)
Definition no_repository (args : list string) (cwd : string) : Proc.t :=
  Proc.Completed 128 EmptyString "fatal: not a git repository".

(** ** Specification of the router, of stored identities and of selection *)

(** The built-in expert of a failure type. *)
Definition builtin_experts (failure_type : string) : list string :=
  if bool_decide (failure_type = "frontend") then ["frontend-lead"]
  else if bool_decide (failure_type = "backend") then ["backend-lead"]
  else if bool_decide (failure_type = "deployment") then ["devops-lead"]
  else if bool_decide (failure_type = "security") then ["security-lead"]
  else if bool_decide (failure_type = "general") then ["tech-lead"]
  else [].

Definition suggested (type person reason : string) : Suggestion.t :=
  {| Suggestion.type := type;
     Suggestion.person := person;
     Suggestion.reason := reason |}.

(** The on-call engineer named by a configuration value, if it names one. *)
Definition named (who : option string) : list string :=
  match who with
  | Some person => if bool_decide (person = EmptyString) then [] else [person]
  | None => []
  end.

(** What the router is to suggest, written key by key from the user's
    document: a top-level key the document has is taken from it whole, a
    key it lacks (or a missing document) falls back to the built-in value. *)
Definition spec_suggestions (team_file : option TeamConfig.t)
    (repository failure_type : string) : list Suggestion.t :=
  let owners :=
    match team_file ≫= TeamConfig.repositories with
    | Some user => default [] (user !! repository)
    | None => []
    end in
  let experts :=
    match team_file ≫= TeamConfig.expertise with
    | Some user => default [] (user !! failure_type)
    | None => builtin_experts failure_type
    end in
  let primary :=
    match team_file ≫= TeamConfig.on_call with
    | Some user => named (OnCall.primary user)
    | None => ["on-call-primary"]
    end in
  let secondary :=
    match team_file ≫= TeamConfig.on_call with
    | Some user => named (OnCall.secondary user)
    | None => ["on-call-secondary"]
    end in
  map (λ person, suggested "repository_owner" person
                   ("Repository owner for " +:+ repository)) owners
  ++ map (λ person, suggested "expertise" person
                      ("Expert in " +:+ failure_type +:+ " issues")) experts
  ++ map (λ person, suggested "on_call_primary" person
                      "Primary on-call engineer") primary
  ++ map (λ person, suggested "on_call_secondary" person
                      "Secondary on-call engineer") secondary.

(** A configuration document that names one repository owner and nothing
    else. *)
Definition owners_only : TeamConfig.t :=
  {| TeamConfig.repositories := Some {["a/b" := ["alice"]]};
     TeamConfig.expertise := None;
     TeamConfig.on_call := None |}.

(** The identities the Seen-State document holds, read off the file. *)
Definition stored_ids (w : world) : list string :=
  match EVENTS_STATE_FILE w with
  | Some st =>
      match State.seen_event_ids st with
      | Some ids => ids
      | None => []
      end
  | None => []
  end.

(** The identity of an event, spelled out. *)
Definition identity (e : Event.t) : string :=
  Event.timestamp e +:+ ":" +:+ Event.event_type e +:+ ":"
  +:+ Event.repository e.

(** The same world at another reading of the clock. *)
Definition at_time (t : Z) (w : world) : world :=
  {| EVENTS_FILE := EVENTS_FILE w;
     EVENTS_STATE_FILE := EVENTS_STATE_FILE w;
     TEAM_CONFIG_FILE := TEAM_CONFIG_FILE w;
     now := t |}.

(** A Seen-State document holding the given identities. *)
Definition state_with (ids : list string) : State.t :=
  {| State.seen_event_ids := Some ids;
     State.last_processed := None;
     State.manually_marked_count := None |}.

(** An event that the status query is to report: it carries a run, and
    the run has the wanted conclusion when a non-empty one is asked for. *)
Definition reported (conclusion : option string) (e : Event.t) : bool :=
  match Event.workflow_run e with
  | None => false
  | Some run =>
      match conclusion with
      | None => true
      | Some c =>
          if bool_decide (c = EmptyString) then true
          else bool_decide (Run.conclusion run = Some c)
      end
  end.

(** Nine failures and two successes. *)
Definition mixed_conclusions : list Event.t :=
  run_event "a/b" "CI" (Some "2024-01-01T00:00:30Z")
  :: failures_1_5_3
  ++ [run_event "e/f" "CI" (Some "2024-01-01T00:09:00Z")].

(** Two characters that are the same letter of the ASCII alphabet in
    either case, or the same character. *)
Definition same_letter (a b : ascii) : bool :=
  let x := nat_of_ascii a in
  let y := nat_of_ascii b in
  Ascii.eqb a b
  || ((65 <=? x)%nat && (x <=? 90)%nat && (y =? x + 32)%nat)
  || ((65 <=? y)%nat && (y <=? 90)%nat && (x =? y + 32)%nat).

(** Two strings that differ at most in the case of ASCII letters. *)
Fixpoint same_up_to_case (s1 s2 : string) : bool :=
  match s1, s2 with
  | EmptyString, EmptyString => true
  | String a r1, String b r2 => same_letter a b && same_up_to_case r1 r2
  | _, _ => false
  end.

(** * Theorems *)

(** ** The reference parser *)

Example iso_basic_utc :
  IsoBasic.iso_basic (Py.replace_Z "2024-01-01T01:00:00Z")
  = Some {| micros := 1704070800000000; aware := true |}.
Proof. reflexivity. Qed.

Example iso_basic_rejects : IsoBasic.iso_basic "not-a-date" = None.
Proof. reflexivity. Qed.

(** ** The loop of get_unseen_events *)

Lemma foldl_unseen_step seen events acc :
  foldl (unseen_step seen) acc events
  = (acc.1 ++ map annotate (unseen_of seen events),
     list_to_set (map event_id (unseen_of seen events)) ∪ acc.2).
Proof.
  revert acc. unfold unseen_of.
  induction events as [|e events IH]; intros [us ids]; simpl.
  - rewrite app_nil_r. f_equal. set_solver.
  - rewrite IH. unfold unseen_step. simpl.
    destruct (decide (event_id e ∈ seen)) as [Hin|Hout].
    + rewrite filter_cons_False by (intros ?; contradiction). done.
    + rewrite filter_cons_True by done. simpl.
      rewrite <- app_assoc. f_equal. set_solver.
Qed.

Lemma find_unseen_spec seen events :
  find_unseen seen events
  = (map annotate (unseen_of seen events),
     list_to_set (map event_id (unseen_of seen events))).
Proof.
  unfold find_unseen. rewrite foldl_unseen_step. simpl. f_equal. set_solver.
Qed.

Lemma unseen_of_nil_iff seen events :
  unseen_of seen events = [] ↔ ∀ e, e ∈ events → event_id e ∈ seen.
Proof.
  unfold unseen_of. split.
  - intros Hnil e He. destruct (decide (event_id e ∈ seen)) as [|Hout]; [done|].
    assert (e ∈ filter (λ e, event_id e ∉ seen) events) as Hin
      by (apply list_elem_of_filter; done).
    rewrite Hnil in Hin. by apply not_elem_of_nil in Hin.
  - intros Hall. induction events as [|e events IH]; [done|].
    rewrite filter_cons_False.
    + apply IH. intros e' He'. apply Hall. by right.
    + intros Hout. apply Hout, Hall. by left.
Qed.

Lemma load_seen_write w ids last count :
  load_seen (write_state w
    {| State.seen_event_ids := Some (elements ids);
       State.last_processed := last;
       State.manually_marked_count := count |}) = ids.
Proof. unfold load_seen. simpl. apply list_to_set_elements_L. Qed.

(** What one call of [get_unseen_events] returns and leaves behind. *)
Lemma get_unseen_events_spec w events mark_as_seen :
  EVENTS_FILE w = Some events →
  let unseen := unseen_of (load_seen w) events in
  (get_unseen_events w mark_as_seen).1
  = Result {| UnseenResult.unseen_count := length unseen;
              UnseenResult.events := map annotate unseen;
              UnseenResult.marked_as_seen := mark_as_seen |}
  ∧ EVENTS_FILE (get_unseen_events w mark_as_seen).2 = Some events
  ∧ load_seen (get_unseen_events w mark_as_seen).2
    = if mark_as_seen
      then load_seen w ∪ list_to_set (map event_id unseen)
      else load_seen w.
Proof.
  intros Hev unseen. unfold get_unseen_events. rewrite Hev.
  rewrite find_unseen_spec. fold unseen. simpl.
  rewrite length_map. split; [done|].
  destruct mark_as_seen; simpl; [|done].
  case_bool_decide as Hnil; simpl.
  - split; [done|]. apply map_eq_nil in Hnil. rewrite Hnil. simpl. set_solver.
  - split; [done|]. apply load_seen_write.
Qed.

(** ** get_recent_actions_events *)

Lemma slice_from_neg {A} (l : list A) (limit : Z) :
  0 < limit →
  Py.slice_from l (- limit)
  = drop (length l - Z.to_nat (Z.min limit (Z.of_nat (length l)))) l.
Proof.
  intros Hpos. unfold Py.slice_from.
  destruct (Z.ltb_spec (- limit) 0) as [_|?]; [|lia].
  f_equal. lia.
Qed.

(** C4: for a positive [limit], [recent] returns exactly
    [min(limit, len(events))] records, the tail of the stored list in its
    original order; an absent or empty store gives the empty sequence. *)
Theorem recent_returns_tail (w : world) (limit : Z) :
  0 < limit →
  match EVENTS_FILE w with
  | None | Some [] => get_recent_actions_events w limit = []
  | Some events =>
      let n := Z.to_nat (Z.min limit (Z.of_nat (length events))) in
      length (get_recent_actions_events w limit) = n
      ∧ get_recent_actions_events w limit = drop (length events - n) events
      ∧ ∃ older, events = older ++ get_recent_actions_events w limit
  end.
Proof.
  intros Hpos. unfold get_recent_actions_events.
  destruct (EVENTS_FILE w) as [[|e events]|]; [apply drop_nil| |done].
  rewrite slice_from_neg by done.
  set (l := e :: events). set (n := Z.to_nat _).
  split; [|split].
  - rewrite length_drop. lia.
  - done.
  - exists (take (length l - n) l). by rewrite take_drop.
Qed.

Lemma recent_returns_tail_witness :
  get_recent_actions_events (sample_world (Some three_events) None) 2
  = drop 1 three_events.
Proof.
  pose proof (recent_returns_tail (sample_world (Some three_events) None) 2) as H.
  simpl in H. apply H. lia.
Defined.

(** C9: with [limit = 0] on an existing store, [recent] returns the whole
    event list, not zero records. *)
Theorem recent_zero_returns_all (w : world) (events : list Event.t) :
  EVENTS_FILE w = Some events →
  get_recent_actions_events w 0 = events.
Proof.
  intros Hev. unfold get_recent_actions_events, Py.slice_from. rewrite Hev.
  simpl. by destruct (length events).
Qed.

Lemma recent_zero_returns_all_witness :
  get_recent_actions_events (sample_world (Some three_events) None) 0
  = three_events.
Proof. apply (recent_zero_returns_all _ three_events). reflexivity. Defined.

(** ** mark_events_as_seen *)

(** C5: an absent or empty identity list gives an error result and the
    world, hence the Seen-State Store, is left as it was. *)
Theorem mark_seen_empty_is_error (w : world) :
  mark_events_as_seen w None = (Error "No event IDs provided", w)
  ∧ mark_events_as_seen w (Some []) = (Error "No event IDs provided", w).
Proof. split; reflexivity. Qed.

(** ** get_unseen_events *)

(** C3: with [mark_as_seen = false] the call writes nothing, every
    persisted document is unchanged, and a second such call returns the
    same result. *)
Theorem unseen_false_no_write (w : world) :
  (get_unseen_events w false).2 = w
  ∧ (get_unseen_events (get_unseen_events w false).2 false).1
    = (get_unseen_events w false).1.
Proof.
  assert ((get_unseen_events w false).2 = w) as Hsame.
  { unfold get_unseen_events. destruct (EVENTS_FILE w); [|done].
    by destruct (find_unseen _ _). }
  split; [done|]. by rewrite Hsame.
Qed.

(** After a marking call every stored event is in the seen set. *)
Lemma unseen_true_covers w events :
  EVENTS_FILE w = Some events →
  ∀ e, e ∈ events → event_id e ∈ load_seen (get_unseen_events w true).2.
Proof.
  intros Hev e He.
  destruct (get_unseen_events_spec w events true Hev) as (_ & _ & ->).
  destruct (decide (event_id e ∈ load_seen w)) as [|Hout]; [set_solver|].
  apply elem_of_union_r, elem_of_list_to_set, list_elem_of_fmap.
  exists e. split; [done|]. by apply list_elem_of_filter.
Qed.

Lemma unseen_after_mark w events mark_as_seen :
  EVENTS_FILE w = Some events →
  (get_unseen_events (get_unseen_events w true).2 mark_as_seen).1
  = Result {| UnseenResult.unseen_count := 0;
              UnseenResult.events := [];
              UnseenResult.marked_as_seen := mark_as_seen |}.
Proof.
  intros Hev.
  destruct (get_unseen_events_spec w events true Hev) as (_ & Hev' & _).
  destruct (get_unseen_events_spec _ events mark_as_seen Hev') as (-> & _).
  assert (unseen_of (load_seen (get_unseen_events w true).2) events = [])
    as -> by (apply unseen_of_nil_iff, unseen_true_covers; done).
  done.
Qed.

(** C2: when all event identities are distinct, [unseen(true)] followed by
    another [unseen] on the same store returns zero unseen events. *)
Theorem unseen_twice_empty (w : world) (events : list Event.t)
    (mark_as_seen : bool) :
  EVENTS_FILE w = Some events →
  NoDup (map event_id events) →
  (get_unseen_events (get_unseen_events w true).2 mark_as_seen).1
  = Result {| UnseenResult.unseen_count := 0;
              UnseenResult.events := [];
              UnseenResult.marked_as_seen := mark_as_seen |}.
Proof. intros Hev _. by apply unseen_after_mark with events. Qed.

Lemma unseen_twice_empty_witness :
  (get_unseen_events
     (get_unseen_events (sample_world (Some three_events) None) true).2
     false).1
  = Result {| UnseenResult.unseen_count := 0;
              UnseenResult.events := [];
              UnseenResult.marked_as_seen := false |}.
Proof.
  apply (unseen_twice_empty _ three_events); [reflexivity|].
  apply (bool_decide_unpack _). vm_compute. exact I.
Defined.

Lemma mark_events_as_seen_spec w id ids :
  let w' := (mark_events_as_seen w (Some (id :: ids))).2 in
  load_seen w' = load_seen w ∪ list_to_set (id :: ids)
  ∧ EVENTS_FILE w' = EVENTS_FILE w
  ∧ TEAM_CONFIG_FILE w' = TEAM_CONFIG_FILE w.
Proof. simpl. by rewrite load_seen_write. Qed.

Lemma load_seen_grows (w : world) (mark_as_seen : bool)
    (event_ids : option (list string)) :
  load_seen w ⊆ load_seen (get_unseen_events w mark_as_seen).2
  ∧ load_seen w ⊆ load_seen (mark_events_as_seen w event_ids).2.
Proof.
  split.
  - destruct (EVENTS_FILE w) as [events|] eqn:Hev.
    + destruct (get_unseen_events_spec w events mark_as_seen Hev)
        as (_ & _ & ->).
      destruct mark_as_seen; set_solver.
    + unfold get_unseen_events. by rewrite Hev.
  - unfold mark_events_as_seen.
    destruct event_ids as [[|id ids]|]; [done| |done].
    simpl. rewrite load_seen_write. set_solver.
Qed.

(** The loader sees exactly the identities the document holds. *)
Lemma stored_ids_load (w : world) (x : string) :
  x ∈ stored_ids w ↔ x ∈ load_seen w.
Proof.
  unfold stored_ids, load_seen.
  destruct (EVENTS_STATE_FILE w) as [st|].
  - destruct (State.seen_event_ids st) as [ids|]; simpl.
    + by rewrite elem_of_list_to_set.
    + split; [by intros ?%not_elem_of_nil|by intros ?%not_elem_of_empty].
  - split; [by intros ?%not_elem_of_nil|by intros ?%not_elem_of_empty].
Qed.

Lemma stored_ids_elim (w : world) (x : string) :
  x ∈ stored_ids w →
  ∃ st ids, EVENTS_STATE_FILE w = Some st
            ∧ State.seen_event_ids st = Some ids ∧ x ∈ ids.
Proof.
  unfold stored_ids. destruct (EVENTS_STATE_FILE w) as [st|].
  - destruct (State.seen_event_ids st) as [ids|] eqn:Hids.
    + intros Hx. by exists st, ids.
    + by intros ?%not_elem_of_nil.
  - by intros ?%not_elem_of_nil.
Qed.

(** C7: the seen-identity set only grows.  An identity held in the
    [seen_event_ids] of the Seen-State document before a call of
    [get_unseen_events] or of [mark_events_as_seen] is held in the
    [seen_event_ids] of the document the call leaves behind; after a
    marking [get_unseen_events] the identity of every stored event is
    held too, and after [mark_events_as_seen] so is every identity given. *)
Theorem seen_set_grows (w : world) (mark_as_seen : bool)
    (event_ids : option (list string)) (st : State.t) (ids : list string)
    (id : string) :
  EVENTS_STATE_FILE w = Some st →
  State.seen_event_ids st = Some ids →
  id ∈ ids →
  (∃ st' ids',
     EVENTS_STATE_FILE (get_unseen_events w mark_as_seen).2 = Some st'
     ∧ State.seen_event_ids st' = Some ids'
     ∧ id ∈ ids'
     ∧ ∀ events e, mark_as_seen = true → EVENTS_FILE w = Some events →
                   e ∈ events →
                   Event.timestamp e +:+ ":" +:+ Event.event_type e +:+ ":"
                   +:+ Event.repository e ∈ ids')
  ∧ (∃ st' ids',
       EVENTS_STATE_FILE (mark_events_as_seen w event_ids).2 = Some st'
       ∧ State.seen_event_ids st' = Some ids'
       ∧ id ∈ ids'
       ∧ ∀ given x, event_ids = Some given → x ∈ given → x ∈ ids').
Proof.
  intros Hst Hids Hid.
  assert (id ∈ load_seen w) as Hseen.
  { apply stored_ids_load. unfold stored_ids. by rewrite Hst, Hids. }
  destruct (load_seen_grows w mark_as_seen event_ids) as [Hunseen Hmark].
  split.
  - destruct (stored_ids_elim (get_unseen_events w mark_as_seen).2 id)
      as (st' & ids' & Hst' & Hids' & Hid').
    { apply stored_ids_load. by apply Hunseen. }
    exists st', ids'. repeat split; try done.
    intros events e -> Hev He.
    assert (event_id e ∈ stored_ids (get_unseen_events w true).2) as Hin
      by (apply stored_ids_load; by apply (unseen_true_covers w events)).
    unfold stored_ids in Hin. by rewrite Hst', Hids' in Hin.
  - destruct (stored_ids_elim (mark_events_as_seen w event_ids).2 id)
      as (st' & ids' & Hst' & Hids' & Hid').
    { apply stored_ids_load. by apply Hmark. }
    exists st', ids'. repeat split; try done.
    intros given x -> Hx.
    assert (x ∈ stored_ids (mark_events_as_seen w (Some given)).2) as Hin.
    { apply stored_ids_load. destruct given as [|y given].
      - by apply not_elem_of_nil in Hx.
      - destruct (mark_events_as_seen_spec w y given) as (-> & _).
        apply elem_of_union_r. by apply elem_of_list_to_set. }
    unfold stored_ids in Hin. by rewrite Hst', Hids' in Hin.
Qed.

Lemma seen_set_grows_witness :
  (∃ st' ids',
     EVENTS_STATE_FILE
       (mark_events_as_seen
          (sample_world (Some three_events) (Some (state_with ["x"])))
          (Some ["y"])).2 = Some st'
     ∧ State.seen_event_ids st' = Some ids'
     ∧ "x" ∈ ids' ∧ "y" ∈ ids')
  ∧ (∃ st' ids',
       EVENTS_STATE_FILE
         (get_unseen_events
            (sample_world (Some three_events) (Some (state_with ["x"])))
            true).2 = Some st'
       ∧ State.seen_event_ids st' = Some ids'
       ∧ "x" ∈ ids'
       ∧ "2024-01-01T00:20:00Z:workflow_run:c/d" ∈ ids').
Proof.
  destruct (seen_set_grows
              (sample_world (Some three_events) (Some (state_with ["x"])))
              true (Some ["y"]) (state_with ["x"]) ["x"] "x")
    as [(st1 & ids1 & Hst1 & Hids1 & Hx1 & Hall1)
        (st2 & ids2 & Hst2 & Hids2 & Hx2 & Hall2)];
    [reflexivity|reflexivity|by left|].
  split.
  - exists st2, ids2. repeat split; try done.
    apply (Hall2 ["y"]); [done|by left].
  - exists st1, ids1. repeat split; try done.
    apply (Hall1 three_events
             (sample_event "2024-01-01T00:20:00Z" "c/d" None));
      [done|done|].
    right. right. by left.
Defined.

Lemma filter_annotate_unseen seen events k :
  k ∉ seen →
  filter (λ u, Unseen.event_id u = k) (map annotate (unseen_of seen events))
  = map annotate (filter (λ e, event_id e = k) events).
Proof.
  intros Hk. unfold unseen_of.
  induction events as [|e events IH]; [done|].
  destruct (decide (event_id e = k)) as [Heq|Hne].
  - rewrite (filter_cons_True (λ e, event_id e = k)) by done.
    rewrite (filter_cons_True (λ e, event_id e ∉ seen)) by (by rewrite Heq).
    simpl. rewrite filter_cons_True by done. by rewrite IH.
  - rewrite (filter_cons_False (λ e, event_id e = k)) by done.
    destruct (decide (event_id e ∈ seen)).
    + rewrite (filter_cons_False (λ e, event_id e ∉ seen)) by tauto. done.
    + rewrite (filter_cons_True (λ e, event_id e ∉ seen)) by done.
      simpl. rewrite filter_cons_False by done. done.
Qed.

(** C10: events that share one identity key [k] not yet seen are all
    returned by one [unseen] call, each carrying [k] as its [event_id] and
    each counted; marking stores [k] once, and no later call returns them. *)
Theorem twins_returned_together (w : world) (events : list Event.t)
    (k : string) :
  EVENTS_FILE w = Some events →
  k ∉ load_seen w →
  let twins := filter (λ e, event_id e = k) events in
  (2 ≤ length twins)%nat →
  let w' := (get_unseen_events w true).2 in
  ∃ res,
    (get_unseen_events w true).1 = Result res
    ∧ filter (λ u, Unseen.event_id u = k) (UnseenResult.events res)
      = map (λ e, {| Unseen.event := e; Unseen.event_id := k |}) twins
    ∧ UnseenResult.unseen_count res = length (UnseenResult.events res)
    ∧ (length twins ≤ UnseenResult.unseen_count res)%nat
    ∧ (∃ st ids, EVENTS_STATE_FILE w' = Some st
         ∧ State.seen_event_ids st = Some ids
         ∧ NoDup ids ∧ k ∈ ids
         ∧ ((∀ e, e ∈ unseen_of (load_seen w) events → event_id e = k) →
            ids ≡ₚ k :: elements (load_seen w)))
    ∧ ∀ mark_as_seen,
        (get_unseen_events w' mark_as_seen).1
        = Result {| UnseenResult.unseen_count := 0;
                    UnseenResult.events := [];
                    UnseenResult.marked_as_seen := mark_as_seen |}.
Proof.
  intros Hev Hk twins Htwins w'.
  assert (map annotate twins
          = map (λ e, {| Unseen.event := e; Unseen.event_id := k |}) twins)
    as Hann.
  { apply map_ext_in. intros e He. apply list_elem_of_In in He.
    apply list_elem_of_filter in He as [<- _]. done. }
  assert (twins ≠ []) as Hne by (destruct twins; simpl in *; [lia|done]).
  assert (∃ e, e ∈ unseen_of (load_seen w) events ∧ event_id e = k)
    as (e0 & He0 & Hid0).
  { destruct twins as [|e0 ?] eqn:Htw; [done|]. exists e0.
    assert (e0 ∈ twins) as Hin by (subst twins; rewrite Htw; by left).
    apply list_elem_of_filter in Hin as [Hid Hin].
    split; [|done]. apply list_elem_of_filter. by rewrite Hid. }
  destruct (get_unseen_events_spec w events true Hev) as (Hres & _ & _).
  eexists. split; [exact Hres|]. simpl.
  split; [rewrite filter_annotate_unseen by done; exact Hann|].
  split; [by rewrite length_map|].
  split.
  { rewrite <- (length_map annotate twins), <- (length_map annotate (unseen_of _ _)).
    subst twins.
    rewrite <- (filter_annotate_unseen (load_seen w) events k Hk).
    apply length_filter. }
  split.
  - subst w'. unfold get_unseen_events. rewrite Hev, find_unseen_spec. simpl.
    case_bool_decide as Hnil.
    { apply map_eq_nil in Hnil. rewrite Hnil in He0.
      by apply not_elem_of_nil in He0. }
    simpl. eexists _, _. split; [done|]. split; [done|].
    split; [apply NoDup_elements|].
    split.
    + apply elem_of_elements, elem_of_union_r, elem_of_list_to_set.
      rewrite <- Hid0. by apply list_elem_of_fmap_2.
    + intros Hall.
      assert (list_to_set (map event_id (unseen_of (load_seen w) events))
              = ({[k]} : gset string)) as ->.
      { apply set_eq. intros x.
        rewrite elem_of_list_to_set, elem_of_singleton, list_elem_of_fmap.
        split.
        - intros (e & -> & He). by apply Hall.
        - intros ->. by exists e0. }
      rewrite (union_comm_L (load_seen w)).
      apply elements_union_singleton. done.
  - intros mark_as_seen. by apply unseen_after_mark with events.
Qed.

Lemma twins_returned_together_witness :
  ∃ res,
    (get_unseen_events (sample_world (Some twin_events) None) true).1
    = Result res
    ∧ UnseenResult.unseen_count res = 2%nat.
Proof.
  destruct (twins_returned_together (sample_world (Some twin_events) None)
              twin_events "2024-01-01T00:00:00Z:workflow_run:a/b")
    as (res & Hres & _ & Hcount & Hle & _).
  - reflexivity.
  - vm_compute. discriminate.
  - vm_compute. lia.
  - exists res. split; [exact Hres|].
    vm_compute in Hres. injection Hres as <-. reflexivity.
Defined.

(** ** suggest_team_notification *)

Lemma filter_suggestions_for type type' reason people :
  filter (λ s, Suggestion.type s = type) (suggestions_for type' reason people)
  = if decide (type' = type) then suggestions_for type' reason people else [].
Proof.
  unfold suggestions_for.
  induction people as [|p people IH]; simpl; [by case_decide|].
  case_decide as Heq.
  - rewrite filter_cons_True by done. by rewrite IH.
  - rewrite filter_cons_False by done. done.
Qed.

Lemma filter_on_call_suggestion type type' reason who :
  type' ≠ type →
  filter (λ s, Suggestion.type s = type) (on_call_suggestion type' reason who)
  = [].
Proof.
  intros Hne. unfold on_call_suggestion.
  destruct (Py.truthy who); [|done].
  rewrite filter_suggestions_for. by case_decide.
Qed.

(** Without a configuration file the built-in expert of a category is
    suggested; a file that supplies only a frontend expert removes the
    built-in backend expert as well. *)
Example default_backend_expert :
  map Suggestion.person (Notification.notification_suggestions
    (suggest_team_notification "/srv" (world_with_config None None)
       "a/b" "CI" "backend"))
  = ["backend-lead"; "on-call-primary"; "on-call-secondary"].
Proof. vm_compute. reflexivity. Qed.

Example frontend_only_drops_backend :
  map Suggestion.person (Notification.notification_suggestions
    (suggest_team_notification "/srv"
       (world_with_config (Some frontend_only) None) "a/b" "CI" "backend"))
  = ["on-call-primary"; "on-call-secondary"].
Proof. vm_compute. reflexivity. Qed.

Lemma default_expertise_lookup (failure_type : string) :
  default ∅ (TeamConfig.expertise default_config) !! failure_type
  = if bool_decide (failure_type = "frontend") then Some ["frontend-lead"]
    else if bool_decide (failure_type = "backend") then Some ["backend-lead"]
    else if bool_decide (failure_type = "deployment") then Some ["devops-lead"]
    else if bool_decide (failure_type = "security") then Some ["security-lead"]
    else if bool_decide (failure_type = "general") then Some ["tech-lead"]
    else None.
Proof.
  simpl.
  repeat (case_bool_decide as H;
          [subst; by vm_compute|rewrite lookup_insert_ne by done; clear H]).
  apply lookup_empty.
Qed.

Lemma on_call_suggestion_named type reason who :
  on_call_suggestion type reason who
  = map (λ person, suggested type person reason) (named who).
Proof.
  unfold on_call_suggestion, named. destruct who as [person|]; [|done].
  cbn [Py.truthy]. case_bool_decide as Hp.
  - subst person. reflexivity.
  - destruct (String.eqb_spec person EmptyString); [done|]. reflexivity.
Qed.

Lemma builtin_experts_lookup (failure_type : string) :
  default [] (default ∅ (TeamConfig.expertise default_config) !! failure_type)
  = builtin_experts failure_type.
Proof.
  rewrite default_expertise_lookup. unfold builtin_experts.
  by repeat case_bool_decide.
Qed.

(** The router's suggestions are those of the key-by-key specification. *)
Lemma router_meets_spec server_dir w repository workflow_name failure_type :
  Notification.notification_suggestions
    (suggest_team_notification server_dir w repository workflow_name
       failure_type)
  = spec_suggestions (TEAM_CONFIG_FILE w) repository failure_type.
Proof.
  unfold suggest_team_notification, spec_suggestions.
  cbn [Notification.notification_suggestions].
  rewrite !on_call_suggestion_named. unfold suggestions_for.
  destruct (TEAM_CONFIG_FILE w) as [[[r|] [e|] [o|]]|];
    cbn [default from_option mbind option_bind TeamConfig.repositories
         TeamConfig.expertise TeamConfig.on_call];
    rewrite <- ?builtin_experts_lookup; reflexivity.
Qed.

(** C6: the team configuration is merged over the defaults one top-level
    key at a time.  A key the user's document has replaces the default
    value whole, so the experts suggested then come from the user's
    [expertise] map alone; a key it lacks, or a missing document, leaves
    the built-in value in force; the router's suggestions are exactly
    those read key by key in this way, and its result depends on the world
    only through the configuration document. *)
Theorem team_config_merge_shallow (server_dir : string) :
  (∀ defaults team,
     TeamConfig.repositories (merge_config defaults team)
     = match TeamConfig.repositories team with
       | Some r => Some r
       | None => TeamConfig.repositories defaults
       end
     ∧ TeamConfig.expertise (merge_config defaults team)
       = match TeamConfig.expertise team with
         | Some e => Some e
         | None => TeamConfig.expertise defaults
         end
     ∧ TeamConfig.on_call (merge_config defaults team)
       = match TeamConfig.on_call team with
         | Some o => Some o
         | None => TeamConfig.on_call defaults
         end)
  ∧ (∀ w team user_expertise repository workflow_name failure_type,
       TEAM_CONFIG_FILE w = Some team →
       TeamConfig.expertise team = Some user_expertise →
       filter (λ s, Suggestion.type s = "expertise")
         (Notification.notification_suggestions
            (suggest_team_notification server_dir w repository workflow_name
               failure_type))
       = suggestions_for "expertise"
           ("Expert in " +:+ failure_type +:+ " issues")
           (default [] (user_expertise !! failure_type)))
  ∧ (∀ w1 w2 repository workflow_name failure_type,
       TEAM_CONFIG_FILE w1 = TEAM_CONFIG_FILE w2 →
       suggest_team_notification server_dir w1 repository workflow_name
         failure_type
       = suggest_team_notification server_dir w2 repository workflow_name
           failure_type)
  ∧ (∀ w repository workflow_name failure_type,
       Notification.notification_suggestions
         (suggest_team_notification server_dir w repository workflow_name
            failure_type)
       = spec_suggestions (TEAM_CONFIG_FILE w) repository failure_type).
Proof.
  split; [|split; [|split]].
  - intros [dr de do] [r e o]. simpl.
    destruct r, e, o, dr, de, do; repeat split; reflexivity.
  - intros w team m repository workflow_name failure_type Hfile Hexp.
    unfold suggest_team_notification. simpl. rewrite Hfile. simpl.
    rewrite Hexp. simpl.
    rewrite !filter_app, !filter_suggestions_for.
    rewrite !filter_on_call_suggestion by done.
    repeat case_decide; try done. by rewrite app_nil_r.
  - intros w1 w2 repository workflow_name failure_type Hfile.
    unfold suggest_team_notification. by rewrite Hfile.
  - intros w repository workflow_name failure_type. apply router_meets_spec.
Qed.

Lemma team_config_merge_shallow_witness :
  suggest_team_notification "/srv"
    (world_with_config (Some frontend_only) None) "a/b" "CI" "backend"
  = suggest_team_notification "/srv"
      (world_with_config (Some frontend_only) (Some three_events))
      "a/b" "CI" "backend"
  ∧ filter (λ s, Suggestion.type s = "expertise")
      (Notification.notification_suggestions
         (suggest_team_notification "/srv"
            (world_with_config (Some frontend_only) None) "a/b" "CI" "backend"))
    = []
  ∧ map Suggestion.person
      (Notification.notification_suggestions
         (suggest_team_notification "/srv"
            (world_with_config (Some owners_only) None) "a/b" "CI" "backend"))
    = ["alice"; "backend-lead"; "on-call-primary"; "on-call-secondary"]
  ∧ map Suggestion.person
      (Notification.notification_suggestions
         (suggest_team_notification "/srv"
            (world_with_config None None) "a/b" "CI" "security"))
    = ["security-lead"; "on-call-primary"; "on-call-secondary"].
Proof.
  destruct (team_config_merge_shallow "/srv")
    as (_ & Hreplace & Hpure & Hspec).
  split; [|split; [|split]].
  - apply Hpure. reflexivity.
  - rewrite (Hreplace _ frontend_only {["frontend" := ["alice"]]});
      reflexivity.
  - rewrite Hspec. vm_compute. reflexivity.
  - rewrite Hspec. vm_compute. reflexivity.
Defined.

(** ** Dictionaries *)

Lemma dict_get_set_eq {V} k (v : V) d : Dict.get k (Dict.set k v d) = Some v.
Proof.
  induction d as [|[k' v'] d IH]; simpl.
  - by rewrite String.eqb_refl.
  - destruct (String.eqb_spec k k') as [->|Hne]; simpl.
    + by rewrite String.eqb_refl.
    + by destruct (String.eqb_spec k k').
Qed.

Lemma dict_get_set_ne {V} k k' (v : V) d :
  k ≠ k' → Dict.get k' (Dict.set k v d) = Dict.get k' d.
Proof.
  intros Hne. induction d as [|[k0 v0] d IH]; simpl.
  - destruct (String.eqb_spec k' k); [congruence|done].
  - destruct (String.eqb_spec k k0) as [->|Hne0]; simpl.
    + destruct (String.eqb_spec k' k0); [congruence|done].
    + destruct (String.eqb_spec k' k0); [done|apply IH].
Qed.

Lemma dict_get_None {V} k (d : Dict.t V) : Dict.get k d = None ↔ k ∉ map fst d.
Proof.
  induction d as [|[k' v'] d IH]; simpl.
  - split; [intros _; apply not_elem_of_nil|done].
  - rewrite not_elem_of_cons. destruct (String.eqb_spec k k'); [|tauto].
    split; [done|tauto].
Qed.

(** Assigning to a present key keeps the order of the keys; a new key goes
    to the end. *)
Lemma dict_keys_set {V} k (v : V) d :
  map fst (Dict.set k v d)
  = if bool_decide (k ∈ map fst d) then map fst d else map fst d ++ [k].
Proof.
  induction d as [|[k' v'] d IH]; simpl.
  - reflexivity.
  - destruct (String.eqb_spec k k') as [->|Hne]; simpl.
    + rewrite bool_decide_eq_true_2; [done|by left].
    + rewrite IH. case_bool_decide as Hin.
      * rewrite bool_decide_eq_true_2; [done|by right].
      * rewrite bool_decide_eq_false_2; [done|].
        rewrite not_elem_of_cons. done.
Qed.

(** ** The stable descending sort *)

Section SortPermutation.
Context {A K : Type} (ltb : K → K → bool) (key : A → K).

Lemma insert_desc_perm x l : insert_desc ltb key x l ≡ₚ x :: l.
Proof.
  induction l as [|y l IH]; simpl; [done|].
  destruct (ltb (key x) (key y)); [|done].
  rewrite IH. apply Permutation_swap.
Qed.

Lemma sorted_reverse_perm l : sorted_reverse ltb key l ≡ₚ l.
Proof.
  induction l as [|x l IH]; simpl; [done|].
  by rewrite insert_desc_perm, IH.
Qed.

End SortPermutation.

Section DescendingSort.
Context {A : Type} (key : A → nat).

Local Abbreviation insert := (insert_desc Nat.ltb key).
Local Abbreviation sort := (sorted_reverse Nat.ltb key).
Local Abbreviation below := (λ a b : A, (key b ≤ key a)%nat).

Lemma insert_desc_sorted x l :
  StronglySorted below l → StronglySorted below (insert x l).
Proof.
  induction 1 as [|y l Hl IH Hy]; simpl.
  - by repeat constructor.
  - destruct (Nat.ltb_spec (key x) (key y)) as [Hlt|Hge].
    + constructor; [done|].
      rewrite insert_desc_perm. constructor; [lia|done].
    + constructor; [by constructor|].
      constructor; [done|].
      eapply Forall_impl; [exact Hy|]. simpl. lia.
Qed.

Lemma sorted_reverse_sorted l : StronglySorted below (sort l).
Proof.
  induction l as [|x l IH]; simpl; [constructor|].
  by apply insert_desc_sorted.
Qed.

(** Inserting never moves an element across another one of equal key. *)
Lemma insert_desc_stable c x l :
  filter (λ a, key a = c) (insert x l) = filter (λ a, key a = c) (x :: l).
Proof.
  induction l as [|y l IH]; simpl; [done|].
  destruct (Nat.ltb_spec (key x) (key y)) as [Hlt|Hge]; [|done].
  destruct (decide (key y = c)) as [Hy|Hy].
  - rewrite (filter_cons_True _ y) by done.
    rewrite IH.
    rewrite (filter_cons_False _ x) by lia.
    rewrite (filter_cons_False _ x) by lia.
    by rewrite filter_cons_True.
  - rewrite (filter_cons_False _ y) by done. rewrite IH.
    destruct (decide (key x = c)).
    + rewrite !(filter_cons_True _ x) by done.
      by rewrite filter_cons_False.
    + rewrite !(filter_cons_False _ x) by done.
      by rewrite filter_cons_False.
Qed.

Lemma sorted_reverse_stable c l :
  filter (λ a, key a = c) (sort l) = filter (λ a, key a = c) l.
Proof.
  induction l as [|x l IH]; simpl; [done|].
  rewrite insert_desc_stable.
  destruct (decide (key x = c)).
  - rewrite !(filter_cons_True _ x) by done. by rewrite IH.
  - rewrite !(filter_cons_False _ x) by done. done.
Qed.

End DescendingSort.

(** ** Failure groups *)

Lemma record_failure_keys groups failure :
  map fst (record_failure groups failure)
  = add_key (map fst groups) (group_key failure).
Proof. destruct failure as [event run]. apply dict_keys_set. Qed.

Lemma group_failures_keys groups failures :
  map fst (foldl record_failure groups failures)
  = foldl add_key (map fst groups) (map group_key failures).
Proof.
  revert groups. induction failures as [|f failures IH]; intros groups; simpl.
  - done.
  - by rewrite IH, record_failure_keys.
Qed.

Lemma record_failure_count k groups failure :
  count_of k (record_failure groups failure)
  = (count_of k groups + if bool_decide (group_key failure = k) then 1 else 0)%nat.
Proof.
  destruct failure as [event run]. unfold count_of, record_failure.
  case_bool_decide as Hk.
  - rewrite <- Hk, dict_get_set_eq. simpl.
    destruct (Dict.get _ groups); simpl; lia.
  - rewrite dict_get_set_ne by done. lia.
Qed.

Lemma group_failures_count k groups failures :
  count_of k (foldl record_failure groups failures)
  = (count_of k groups
     + length (filter (λ f, group_key f = k) failures))%nat.
Proof.
  revert groups. induction failures as [|f failures IH]; intros groups; simpl.
  - lia.
  - rewrite IH, record_failure_count. case_bool_decide.
    + rewrite filter_cons_True by done. simpl. lia.
    + rewrite filter_cons_False by done. lia.
Qed.

Lemma sort_groups_spec groups :
  StronglySorted
    (λ a b, (FailureGroup.failure_count b ≤ FailureGroup.failure_count a)%nat)
    (sort_groups groups)
  ∧ sort_groups groups ≡ₚ groups
  ∧ ∀ c, filter (λ g, FailureGroup.failure_count g = c) (sort_groups groups)
         = filter (λ g, FailureGroup.failure_count g = c) groups.
Proof.
  unfold sort_groups. split; [apply sorted_reverse_sorted|].
  split; [apply sorted_reverse_perm|].
  intros c. apply sorted_reverse_stable.
Qed.

(** C8: the groups [new_failures] returns are in descending order of
    [failure_count]; groups of equal count stay in the order in which
    their first failure was met in the event list. *)
Theorem failure_groups_sorted (fromisoformat : string → option datetime)
    (w : world) (since_hours : Z) (res : FailuresResult.t) :
  get_new_failures fromisoformat w since_hours = Py.Ok (Result res) →
  ∃ events cutoff_time failures,
    EVENTS_FILE w = Some events
    ∧ select_failures fromisoformat cutoff_time events = Py.Ok failures
    ∧ let groups := group_failures failures in
      map fst groups = first_occurrences (map group_key failures)
      ∧ (∀ k g, Dict.get k groups = Some g →
           FailureGroup.failure_count g
           = length (filter (λ f, group_key f = k) failures))
      ∧ StronglySorted
          (λ a b, (FailureGroup.failure_count b
                   ≤ FailureGroup.failure_count a)%nat)
          (FailuresResult.failure_groups res)
      ∧ FailuresResult.failure_groups res ≡ₚ Dict.values groups
      ∧ ∀ c, filter (λ g, FailureGroup.failure_count g = c)
               (FailuresResult.failure_groups res)
             = filter (λ g, FailureGroup.failure_count g = c)
                 (Dict.values groups).
Proof.
  unfold get_new_failures. intros Hcall.
  destruct (EVENTS_FILE w) as [events|]; [|done].
  destruct (timedelta_hours since_hours) as [delta|]; [|done].
  simpl in Hcall.
  destruct (datetime_sub_delta (current_time w) delta) as [cutoff_time|];
    [|done].
  simpl in Hcall.
  destruct (select_failures fromisoformat cutoff_time events)
    as [failures|] eqn:Hsel; [|done].
  simpl in Hcall. injection Hcall as <-. simpl.
  exists events, cutoff_time, failures.
  split; [done|]. split; [done|].
  split; [apply (group_failures_keys [])|].
  split.
  { intros k g Hget.
    pose proof (group_failures_count k [] failures) as Hcount.
    unfold count_of in Hcount. fold (group_failures failures) in Hcount.
    rewrite Hget in Hcount. simpl in Hcount. lia. }
  apply sort_groups_spec.
Qed.

(** One failure an hour before the clock: one group of one. *)
Example groups_single_failure :
  group_summary (get_new_failures IsoBasic.iso_basic
    (sample_world (Some [failure_event "2024-01-01T00:00:00Z" "a/b" "CI"]) None)
    24)
  = [("a/b", "CI", 1%nat)].
Proof. vm_compute. reflexivity. Qed.

Example groups_1_5_3 :
  group_summary (get_new_failures IsoBasic.iso_basic
                   (sample_world (Some failures_1_5_3) None) 24)
  = [("a/b", "Deploy", 5%nat); ("c/d", "CI", 3%nat); ("a/b", "CI", 1%nat)].
Proof. vm_compute. reflexivity. Qed.

Example groups_2_1_2_stable :
  group_summary (get_new_failures IsoBasic.iso_basic
                   (sample_world (Some failures_2_1_2) None) 24)
  = [("a/b", "CI", 2%nat); ("c/d", "CI", 2%nat); ("a/b", "Deploy", 1%nat)].
Proof. vm_compute. reflexivity. Qed.

Lemma failure_groups_sorted_witness :
  ∃ res,
    get_new_failures IsoBasic.iso_basic
      (sample_world (Some failures_1_5_3) None) 24 = Py.Ok (Result res)
    ∧ map FailureGroup.failure_count (FailuresResult.failure_groups res)
      = [5; 3; 1]%nat
    ∧ StronglySorted
        (λ a b, (FailureGroup.failure_count b
                 ≤ FailureGroup.failure_count a)%nat)
        (FailuresResult.failure_groups res).
Proof.
  destruct (get_new_failures IsoBasic.iso_basic
              (sample_world (Some failures_1_5_3) None) 24)
    as [[m|e|res]|exc] eqn:Hcall;
    try (vm_compute in Hcall; discriminate Hcall).
  exists res.
  destruct (failure_groups_sorted _ _ _ _ Hcall)
    as (_ & _ & _ & _ & _ & _ & _ & Hsorted & _).
  split; [reflexivity|]. split; [|exact Hsorted].
  vm_compute in Hcall. injection Hcall as <-. reflexivity.
Defined.

(** ** Malformed timestamps *)

Section Timestamps.
Variable fromisoformat : string → option datetime.

Lemma select_failures_raises cutoff_time events e run :
  e ∈ events →
  failed_run e = Some run →
  fromisoformat (Py.replace_Z (Event.timestamp e)) = None →
  ∃ exc, select_failures fromisoformat cutoff_time events = Py.Raise exc.
Proof.
  intros Hin Hrun Hbad.
  induction events as [|e' events IH]; [by apply not_elem_of_nil in Hin|].
  apply elem_of_cons in Hin as [<-|Hin]; simpl.
  - rewrite Hrun. unfold parse_timestamp. rewrite Hbad. simpl. eauto.
  - destruct (IH Hin) as [exc Hexc]. rewrite Hexc.
    destruct (failed_run e'); [|eauto].
    destruct (parse_timestamp fromisoformat _) as [d|]; simpl; [|eauto].
    destruct (datetime_ge d cutoff_time); simpl; eauto.
Qed.

(** When every failure carries a timestamp that parses to an aware
    datetime, the first loop runs to its end. *)
Lemma select_failures_returns cutoff_time events :
  aware cutoff_time = true →
  Forall (λ e, ∀ run, failed_run e = Some run →
            ∃ d, fromisoformat (Py.replace_Z (Event.timestamp e)) = Some d
                 ∧ aware d = true) events →
  ∃ failures, select_failures fromisoformat cutoff_time events = Py.Ok failures.
Proof.
  intros Haware. induction 1 as [|e events He _ [failures IH]]; simpl.
  - eauto.
  - rewrite IH. destruct (failed_run e) as [run|]; [|eauto].
    destruct (He run eq_refl) as (d & Hd & Hd').
    unfold parse_timestamp. rewrite Hd. simpl.
    unfold datetime_ge. rewrite Hd', Haware. simpl. eauto.
Qed.

Lemma get_new_failures_returns w events since_hours :
  EVENTS_FILE w = Some events →
  0 ≤ since_hours ≤ 87600 →
  0 ≤ now w ≤ DATETIME_MAX →
  Forall (λ e, ∀ run, failed_run e = Some run →
            ∃ d, fromisoformat (Py.replace_Z (Event.timestamp e)) = Some d
                 ∧ aware d = true) events →
  ∃ res, get_new_failures fromisoformat w since_hours = Py.Ok (Result res).
Proof.
  intros Hev Hh Hnow Hall. unfold get_new_failures. rewrite Hev.
  assert (timedelta_hours since_hours
          = Py.Ok (since_hours * 3600 * MICROS_PER_SECOND)) as ->.
  { unfold timedelta_hours. cbv zeta.
    rewrite (proj2 (Z.leb_le _ _)); [done|].
    unfold MICROS_PER_DAY, MICROS_PER_SECOND, TIMEDELTA_MAX_DAYS.
    rewrite Z.abs_eq by (apply Z.div_pos; lia).
    apply Z.div_le_upper_bound; lia. }
  simpl. unfold datetime_sub_delta. simpl.
  assert ((DATETIME_MIN <=? now w - since_hours * 3600 * MICROS_PER_SECOND)
          && (now w - since_hours * 3600 * MICROS_PER_SECOND <=? DATETIME_MAX)
          = true) as ->.
  { unfold DATETIME_MIN, DATETIME_MAX, MICROS_PER_SECOND in *.
    apply andb_true_intro. split; apply Z.leb_le; lia. }
  simpl.
  destruct (select_failures_returns
    {| micros := now w - since_hours * 3600 * MICROS_PER_SECOND;
       aware := true |} events eq_refl Hall) as [failures ->].
  simpl. eauto.
Qed.

(** C1, for [new_failures]: one failure event whose timestamp does not
    parse makes the whole call raise; nothing is returned for the other
    events. *)
Theorem new_failures_unparsable_aborts (w : world) (events : list Event.t)
    (e : Event.t) (run : Run.t) (since_hours : Z) :
  EVENTS_FILE w = Some events →
  e ∈ events →
  failed_run e = Some run →
  fromisoformat (Py.replace_Z (Event.timestamp e)) = None →
  ∃ exc, get_new_failures fromisoformat w since_hours = Py.Raise exc.
Proof.
  intros Hev Hin Hrun Hbad. unfold get_new_failures. rewrite Hev.
  destruct (timedelta_hours since_hours) as [delta|]; simpl; [|eauto].
  destruct (datetime_sub_delta _ delta) as [cutoff_time|]; simpl; [|eauto].
  destruct (select_failures_raises cutoff_time events e run Hin Hrun Hbad)
    as [exc ->].
  simpl. eauto.
Qed.

(** The [try]/[except] of [get_workflow_status] turns the same failure
    into a marker on the one run. *)
Lemma time_since_unparsable current s :
  s ≠ EmptyString →
  fromisoformat (Py.replace_Z s) = None →
  time_since fromisoformat current (Some s)
  = TimeSince.Failed "Could not parse timestamp".
Proof.
  intros Hs Hbad. unfold time_since, parse_timestamp. simpl.
  destruct (String.eqb_spec s EmptyString); [done|]. simpl. by rewrite Hbad.
Qed.

Lemma time_since_missing current :
  time_since fromisoformat current None
  = TimeSince.Failed "No timestamp available".
Proof. reflexivity. Qed.

End Timestamps.

(** Without the unreadable record the same query reports both groups. *)
Example new_failures_without_bad_record :
  group_summary (get_new_failures IsoBasic.iso_basic
    (sample_world
       (Some [failure_event "2024-01-01T00:00:00Z" "a/b" "CI";
              failure_event "2024-01-01T00:30:00Z" "c/d" "CI"]) None) 24)
  = [("a/b", "CI", 1%nat); ("c/d", "CI", 1%nat)].
Proof. vm_compute. reflexivity. Qed.

(** A timestamp without a UTC offset parses, but cannot be compared with
    the aware cutoff: the query raises as well. *)
Example new_failures_naive_timestamp :
  get_new_failures IsoBasic.iso_basic
    (sample_world (Some [failure_event "2024-01-01T00:00:00" "a/b" "CI"]) None)
    24
  = Py.Raise Py.TypeError.
Proof. vm_compute. reflexivity. Qed.

Lemma new_failures_unparsable_aborts_witness :
  get_new_failures IsoBasic.iso_basic
    (sample_world (Some one_bad_timestamp) None) 24
  = Py.Raise Py.ValueError.
Proof.
  destruct (new_failures_unparsable_aborts IsoBasic.iso_basic
              (sample_world (Some one_bad_timestamp) None) one_bad_timestamp
              (failure_event "not-a-date" "a/b" "CI")
              (sample_run "CI" (Some "failure") (Some "not-a-date")) 24)
    as [exc Hexc].
  - reflexivity.
  - right. left.
  - reflexivity.
  - reflexivity.
  - rewrite Hexc. vm_compute in Hexc. symmetry. exact Hexc.
Defined.

(** ** get_workflow_status on runs whose [updated_at] is a string *)

Lemma dict_get_Forall {V} (Q : V → Prop) k v (d : Dict.t V) :
  Forall (λ kv, Q kv.2) d → Dict.get k d = Some v → Q v.
Proof.
  induction 1 as [|[k' v'] d Hv _ IH]; simpl; [done|].
  destruct (String.eqb k k'); [|done]. by intros [= <-].
Qed.

Lemma dict_set_Forall {V} (Q : V → Prop) k v (d : Dict.t V) :
  Forall (λ kv, Q kv.2) d → Q v → Forall (λ kv, Q kv.2) (Dict.set k v d).
Proof.
  intros Hd Hv. induction Hd as [|[k' v'] d Hv' Hd IH]; simpl.
  - by repeat constructor.
  - destruct (String.eqb k k'); by constructor.
Qed.

Section Status.
Variable fromisoformat : string → option datetime.
Variable current : datetime.

Local Abbreviation info_ok := (info_ok fromisoformat current).
Local Abbreviation data_ok := (data_ok fromisoformat current).

Lemma new_repo_data_ok repo : data_ok (new_repo_data repo).
Proof. split; [done|constructor]. Qed.

Lemma track_run_ok repositories event run :
  Forall (λ kv, data_ok kv.2) repositories →
  is_Some (Run.updated_at run) →
  ∃ repositories',
    track_run fromisoformat current repositories (event, run)
    = Py.Ok repositories'
    ∧ Forall (λ kv, data_ok kv.2) repositories'.
Proof.
  intros Hrepos Hupd. unfold track_run.
  set (repo := Event.repository event).
  set (data := default (new_repo_data repo) (Dict.get repo repositories)).
  assert (data_ok data) as [Hlatest Hflows].
  { subst data. destruct (Dict.get repo repositories) as [d|] eqn:Hget.
    - exact (dict_get_Forall data_ok _ _ _ Hrepos Hget).
    - apply new_repo_data_ok. }
  set (runs := default [] (Dict.get (Run.name run) (RepoData.workflows data))).
  assert (Forall info_ok runs) as Hruns.
  { subst runs. destruct (Dict.get _ (RepoData.workflows data)) as [l|] eqn:Hget.
    - exact (dict_get_Forall (Forall info_ok) _ _ _ Hflows Hget).
    - constructor. }
  set (info := {| WorkflowInfo.name := Run.name run |}).
  assert (info_ok info) as Hinfo by (split; done).
  assert (∃ newer,
    match RepoData.latest_run data with
    | Some latest => Py.gt (Run.updated_at run) (WorkflowInfo.updated_at latest)
    | None => Py.Ok true
    end = Py.Ok newer) as [newer ->].
  { destruct (RepoData.latest_run data) as [latest|] eqn:Hl; [|eauto].
    destruct (Hlatest latest eq_refl) as [[y ->] _].
    destruct Hupd as [x ->]. simpl. eauto. }
  simpl. eexists. split; [done|].
  apply (dict_set_Forall data_ok); [done|]. split; simpl.
  - intros l. destruct newer; [by intros [= <-]|apply Hlatest].
  - apply (dict_set_Forall (Forall info_ok)); [done|].
    apply Forall_app. split; [done|by constructor].
Qed.

Lemma track_runs_ok items : ∀ repositories,
  Forall (λ kv, data_ok kv.2) repositories →
  Forall (λ item, is_Some (Run.updated_at item.2)) items →
  ∃ repositories',
    track_runs fromisoformat current repositories items
    = Py.Ok repositories'
    ∧ Forall (λ kv, data_ok kv.2) repositories'.
Proof.
  induction items as [|[event run] items IH]; intros repositories Hrepos Hitems.
  - simpl. eauto.
  - apply Forall_cons in Hitems as [Hrun Hitems]. cbn [track_runs].
    destruct (track_run_ok repositories event run Hrepos Hrun)
      as (repositories' & -> & Hrepos').
    simpl. by apply IH.
Qed.

Lemma sort_runs_ok runs :
  Forall info_ok runs →
  ∃ runs', sort_runs runs = Py.Ok runs' ∧ runs' ≡ₚ runs.
Proof.
  intros Hruns. unfold sort_runs.
  assert (existsb (λ r, bool_decide (WorkflowInfo.updated_at r = None)) runs
          = false) as ->.
  { induction Hruns as [|r runs [[x Hx] _] _ IH]; [done|].
    simpl. rewrite IH, Hx. done. }
  rewrite andb_false_r. eexists. split; [done|].
  apply sorted_reverse_perm.
Qed.

Lemma sort_workflows_ok workflows :
  Forall (λ kv, Forall info_ok kv.2) workflows →
  ∃ workflows',
    sort_workflows workflows = Py.Ok workflows'
    ∧ Forall (λ kv, Forall info_ok kv.2) workflows'.
Proof.
  induction 1 as [|[k runs] workflows Hruns _ (workflows' & IH & Hok)]; simpl.
  - eexists. split; [done|constructor].
  - destruct (sort_runs_ok runs Hruns) as (runs' & -> & Hperm).
    rewrite IH. simpl. eexists. split; [done|].
    constructor; [|done]. simpl. by rewrite Hperm.
Qed.

Lemma sort_repositories_ok repositories :
  Forall data_ok repositories →
  ∃ sorted,
    sort_repositories repositories = Py.Ok sorted
    ∧ Forall data_ok sorted.
Proof.
  induction 1 as [|d repositories [Hl Hw] _ (sorted & IH & Hok)]; simpl.
  - eexists. split; [done|constructor].
  - destruct (sort_workflows_ok _ Hw) as (workflows' & -> & Hw').
    rewrite IH. simpl. eexists. split; [done|].
    constructor; [|done]. by split.
Qed.

Lemma workflow_events_updated events conclusion :
  Forall (λ e, ∀ run, Event.workflow_run e = Some run →
                 is_Some (Run.updated_at run)) events →
  Forall (λ item : Event.t * Run.t, is_Some (Run.updated_at item.2))
    (workflow_events events conclusion).
Proof.
  intros Hall. apply Forall_forall. intros [e run] Hin.
  assert ((e, run) ∈ omap (λ e, pair e <$> Event.workflow_run e) events)
    as Hin'.
  { unfold workflow_events in Hin. destruct (Py.truthy conclusion); [|done].
    by apply list_elem_of_filter in Hin as [_ ?]. }
  apply list_elem_of_omap in Hin' as (e' & He' & Hrun).
  rewrite Forall_forall in Hall. specialize (Hall e' He').
  destruct (Event.workflow_run e') as [run'|] eqn:Hw; [|done].
  simpl in Hrun. injection Hrun as <- <-. by apply Hall.
Qed.

End Status.

(** When every run's [updated_at] is a string, parsable or not,
    [get_workflow_status] returns, and each run it reports carries the
    elapsed time or the error marker computed from its own [updated_at]. *)
Lemma status_returns (fromisoformat : string → option datetime)
    (w : world) (events : list Event.t) (conclusion : option string) :
  EVENTS_FILE w = Some events →
  Forall (λ e, ∀ run, Event.workflow_run e = Some run →
                 is_Some (Run.updated_at run)) events →
  ∃ r, get_workflow_status fromisoformat w conclusion = Py.Ok r
       ∧ ∀ summary, r = Result summary →
           Forall (data_ok fromisoformat (current_time w))
             (StatusSummary.repositories summary).
Proof.
  intros Hev Hall. unfold get_workflow_status. rewrite Hev.
  destruct events as [|e events]; [by eexists|].
  destruct (track_runs_ok fromisoformat (current_time w)
              (workflow_events (e :: events) conclusion) [])
    as (repositories & -> & Hrepos);
    [constructor|by apply workflow_events_updated|].
  simpl.
  destruct (sort_repositories_ok fromisoformat (current_time w)
              (Dict.values repositories)) as (sorted & -> & Hsorted).
  { unfold Dict.values. by apply Forall_fmap. }
  simpl. eexists. split; [done|]. by intros summary [= <-].
Qed.

(** One run of a repository has an unreadable [updated_at]: the call
    succeeds and only that run carries the error marker. *)
Example status_flags_unparsable :
  elapsed_markers (get_workflow_status IsoBasic.iso_basic
    (sample_world (Some [run_event "a/b" "CI" (Some "2024-01-01T00:00:00Z");
                         run_event "a/b" "CI" (Some "not-a-date")]) None)
    None)
  = Py.Ok [TimeSince.Failed "Could not parse timestamp";
           (* total_seconds 3600.0 *)
           TimeSince.Elapsed 0 1 0
             (SpecFloat.S754_finite false 7916483719987200 (-41))].
Proof. vm_compute. reflexivity. Qed.

(** A null [updated_at] is flagged when the run is alone in its
    repository; next to another run the comparison with [None] raises. *)
Example status_null_alone :
  elapsed_markers (get_workflow_status IsoBasic.iso_basic
    (sample_world (Some [run_event "a/b" "CI" None]) None) None)
  = Py.Ok [TimeSince.Failed "No timestamp available"].
Proof. vm_compute. reflexivity. Qed.

Example status_null_beside_run :
  get_workflow_status IsoBasic.iso_basic
    (sample_world (Some [run_event "a/b" "CI" (Some "2024-01-01T00:00:00Z");
                         run_event "a/b" "Deploy" None]) None) None
  = Py.Raise Py.TypeError.
Proof. vm_compute. reflexivity. Qed.

(** * Further properties of the tools *)

(** ** get_recent_actions_events with any limit *)

(** X1: a limit that is zero or negative does not select "the last
    [limit]" records: the slice [events[-limit:]] then starts at position
    [-limit], so the first [-limit] records are dropped and the rest is
    returned. *)
Theorem recent_nonpositive_limit (w : world) (events : list Event.t)
    (limit : Z) :
  EVENTS_FILE w = Some events →
  limit ≤ 0 →
  get_recent_actions_events w limit = drop (Z.to_nat (- limit)) events.
Proof.
  intros Hev Hlimit. unfold get_recent_actions_events, Py.slice_from.
  rewrite Hev. destruct (Z.ltb_spec (- limit) 0) as [|_]; [lia|].
  destruct (Z.min_spec (- limit) (Z.of_nat (length events)))
    as [[_ ->]|[Hlen ->]]; [done|].
  rewrite Nat2Z.id. rewrite !drop_ge; [done|lia|lia].
Qed.

Lemma recent_nonpositive_limit_witness :
  get_recent_actions_events (sample_world (Some three_events) None) (-1)
  = drop 1 three_events.
Proof.
  apply (recent_nonpositive_limit _ three_events (-1)); [reflexivity|lia].
Defined.

(** X2: whatever the limit, the records returned are a suffix of the
    stored list: nothing is reordered, repeated or invented. *)
Theorem recent_is_suffix (w : world) (events : list Event.t) (limit : Z) :
  EVENTS_FILE w = Some events →
  ∃ older, events = older ++ get_recent_actions_events w limit.
Proof.
  intros Hev. unfold get_recent_actions_events, Py.slice_from. rewrite Hev.
  eexists. symmetry. apply take_drop.
Qed.

Lemma recent_is_suffix_witness :
  ∃ older,
    three_events
    = older ++ get_recent_actions_events
                 (sample_world (Some three_events) None) 2.
Proof. apply (recent_is_suffix _ three_events 2). reflexivity. Defined.

(** ** get_unseen_events and mark_events_as_seen together *)

(** X3: on an existing store [get_unseen_events] returns exactly the
    stored events whose identity -- timestamp, event type and repository
    joined by colons -- is not among the [seen_event_ids] of the Seen-State
    document (none when the document or the field is absent), in the order
    of the store, each with its identity, and [unseen_count] is their
    number. *)
Theorem unseen_returns_the_unseen (w : world) (events : list Event.t)
    (mark_as_seen : bool) :
  EVENTS_FILE w = Some events →
  ∃ res,
    (get_unseen_events w mark_as_seen).1 = Result res
    ∧ map Unseen.event (UnseenResult.events res)
      = filter (λ e, identity e ∉ stored_ids w) events
    ∧ Forall (λ u, Unseen.event_id u = identity (Unseen.event u))
        (UnseenResult.events res)
    ∧ UnseenResult.unseen_count res = length (UnseenResult.events res)
    ∧ UnseenResult.marked_as_seen res = mark_as_seen.
Proof.
  intros Hev.
  destruct (get_unseen_events_spec w events mark_as_seen Hev) as (-> & _).
  eexists. split; [done|]. simpl.
  split; [|split; [|split]].
  - rewrite <- list_fmap_compose.
    etrans; [apply list_fmap_id|].
    unfold unseen_of. apply list_filter_iff. intros e.
    change (event_id e) with (identity e). by rewrite stored_ids_load.
  - apply Forall_fmap, Forall_true. done.
  - by rewrite length_map.
  - done.
Qed.

Lemma unseen_returns_the_unseen_witness :
  ∃ res,
    (get_unseen_events
       (sample_world (Some three_events)
          (Some (state_with ["2024-01-01T00:10:00Z:workflow_run:a/b"])))
       false).1
    = Result res
    ∧ map Unseen.event (UnseenResult.events res)
      = [sample_event "2024-01-01T00:00:00Z" "a/b" None;
         sample_event "2024-01-01T00:20:00Z" "c/d" None]
    ∧ UnseenResult.unseen_count res = 2%nat.
Proof.
  destruct (unseen_returns_the_unseen
              (sample_world (Some three_events)
                 (Some (state_with ["2024-01-01T00:10:00Z:workflow_run:a/b"])))
              three_events false eq_refl)
    as (res & Hres & Hevents & _ & Hn & _).
  exists res. split; [exact Hres|].
  split.
  - rewrite Hevents. vm_compute. reflexivity.
  - rewrite Hn, <- (length_map Unseen.event), Hevents.
    vm_compute. reflexivity.
Defined.

(** X4: once a marking call has run, a further call at any later time
    answers with no event and a count of zero and leaves the files as
    they are: the Seen-State document is not rewritten, so its
    [last_processed] keeps the time of the marking call. *)
Theorem unseen_after_mark_writes_nothing (w : world) (events : list Event.t)
    (mark_as_seen : bool) (t : Z) :
  EVENTS_FILE w = Some events →
  get_unseen_events (at_time t (get_unseen_events w true).2) mark_as_seen
  = (Result {| UnseenResult.unseen_count := 0;
               UnseenResult.events := [];
               UnseenResult.marked_as_seen := mark_as_seen |},
     at_time t (get_unseen_events w true).2).
Proof.
  intros Hev.
  destruct (get_unseen_events_spec w events true Hev) as (_ & Hev' & _).
  set (w' := (get_unseen_events w true).2) in *.
  unfold get_unseen_events at 1.
  change (EVENTS_FILE (at_time t w')) with (EVENTS_FILE w').
  change (load_seen (at_time t w')) with (load_seen w').
  rewrite Hev', find_unseen_spec.
  assert (unseen_of (load_seen w') events = []) as ->
    by (apply unseen_of_nil_iff, unseen_true_covers; done).
  simpl. by rewrite andb_false_r.
Qed.

Lemma unseen_after_mark_writes_nothing_witness :
  get_unseen_events
    (at_time 1704074400000000
       (get_unseen_events (sample_world (Some three_events) None) true).2)
    true
  = (Result {| UnseenResult.unseen_count := 0;
               UnseenResult.events := [];
               UnseenResult.marked_as_seen := true |},
     at_time 1704074400000000
       (get_unseen_events (sample_world (Some three_events) None) true).2)
  ∧ State.last_processed
      <$> EVENTS_STATE_FILE
            (get_unseen_events
               (at_time 1704074400000000
                  (get_unseen_events (sample_world (Some three_events) None)
                     true).2)
               true).2
    = Some (Some {| micros := 1704070800000000; aware := true |}).
Proof.
  rewrite (unseen_after_mark_writes_nothing
             (sample_world (Some three_events) None) three_events true
             1704074400000000 eq_refl).
  split; [reflexivity|]. vm_compute. reflexivity.
Defined.

(** X5: after [mark_events_as_seen] with some identities, the unseen
    events are those whose identity was neither seen before nor given in
    the call. *)
Theorem mark_then_unseen (w : world) (events : list Event.t)
    (event_ids : list string) (mark_as_seen : bool) :
  EVENTS_FILE w = Some events →
  event_ids ≠ [] →
  ∃ res,
    (get_unseen_events (mark_events_as_seen w (Some event_ids)).2
       mark_as_seen).1 = Result res
    ∧ map Unseen.event (UnseenResult.events res)
      = filter (λ e, (event_id e ∉ load_seen w) ∧ (event_id e ∉ event_ids))
          events.
Proof.
  intros Hev Hne. destruct event_ids as [|id ids]; [done|].
  destruct (mark_events_as_seen_spec w id ids) as (Hseen & Hev' & _).
  rewrite Hev in Hev'.
  destruct (get_unseen_events_spec _ events mark_as_seen Hev') as (-> & _).
  eexists. split; [done|]. rewrite Hseen. cbn [UnseenResult.events].
  rewrite <- list_fmap_compose, list_fmap_id. unfold unseen_of.
  apply list_filter_iff. intros e.
  rewrite not_elem_of_union, elem_of_list_to_set. done.
Qed.

Lemma mark_then_unseen_witness :
  ∃ res,
    (get_unseen_events
       (mark_events_as_seen (sample_world (Some three_events) None)
          (Some ["2024-01-01T00:00:00Z:workflow_run:a/b"])).2 false).1
    = Result res
    ∧ UnseenResult.unseen_count res = 2%nat.
Proof.
  destruct (mark_then_unseen (sample_world (Some three_events) None)
              three_events ["2024-01-01T00:00:00Z:workflow_run:a/b"] false)
    as (res & Hres & _); [reflexivity|done|].
  exists res. split; [exact Hres|].
  vm_compute in Hres. injection Hres as <-. reflexivity.
Defined.

Lemma size_list_to_set_le (ids : list string) :
  (size (list_to_set ids : gset string) ≤ length ids)%nat.
Proof.
  induction ids as [|id ids IH].
  - by rewrite list_to_set_nil, size_empty.
  - rewrite list_to_set_cons, size_union_alt, size_singleton. cbn [length].
    assert (size (list_to_set ids ∖ {[id]} : gset string)
            ≤ size (list_to_set ids : gset string))%nat
      by (apply subseteq_size; set_solver).
    lia.
Qed.

(** X6: [mark_events_as_seen] with a non-empty list stores the union of the
    old seen set and the given identities and touches no other file.
    [marked_as_seen] counts the list as given, repetitions and identities
    already seen included, while [total_seen_events] counts distinct
    identities, so the total grows by at most the length of the list. *)
Theorem mark_seen_counts (w : world) (event_ids : list string) :
  event_ids ≠ [] →
  let w' := (mark_events_as_seen w (Some event_ids)).2 in
  ∃ res,
    (mark_events_as_seen w (Some event_ids)).1 = Result res
    ∧ MarkResult.marked_as_seen res = length event_ids
    ∧ MarkResult.event_ids_marked res = event_ids
    ∧ MarkResult.total_seen_events res = size (load_seen w')
    ∧ load_seen w' = load_seen w ∪ list_to_set event_ids
    ∧ (size (load_seen w) ≤ MarkResult.total_seen_events res
       ≤ size (load_seen w) + length event_ids)%nat
    ∧ EVENTS_FILE w' = EVENTS_FILE w
    ∧ TEAM_CONFIG_FILE w' = TEAM_CONFIG_FILE w.
Proof.
  intros Hne w'. destruct event_ids as [|id ids]; [done|].
  destruct (mark_events_as_seen_spec w id ids) as (Hseen & Hev & Hcfg).
  fold w' in Hseen, Hev, Hcfg.
  eexists. split; [reflexivity|]. cbn [MarkResult.marked_as_seen
    MarkResult.event_ids_marked MarkResult.total_seen_events].
  rewrite Hseen. repeat split; try done.
  - apply subseteq_size. set_solver.
  - rewrite size_union_alt.
    pose proof (size_list_to_set_le (id :: ids)).
    assert (size (list_to_set (id :: ids) ∖ load_seen w)
            ≤ size (list_to_set (id :: ids) : gset string))%nat
      by (apply subseteq_size; set_solver).
    lia.
Qed.

Lemma mark_seen_counts_witness :
  ∃ res,
    (mark_events_as_seen (sample_world None None) (Some ["a"; "a"; "b"])).1
    = Result res
    ∧ MarkResult.marked_as_seen res = 3%nat
    ∧ MarkResult.total_seen_events res = 2%nat.
Proof.
  destruct (mark_seen_counts (sample_world None None) ["a"; "a"; "b"])
    as (res & Hres & Hmarked & _); [done|].
  exists res. split; [exact Hres|]. split; [exact Hmarked|].
  vm_compute in Hres. injection Hres as <-. reflexivity.
Defined.

(** X7: marking the same identities a second time changes neither the
    stored seen set nor the reported total. *)
Theorem mark_seen_twice (w : world) (event_ids : list string) :
  event_ids ≠ [] →
  let w' := (mark_events_as_seen w (Some event_ids)).2 in
  load_seen (mark_events_as_seen w' (Some event_ids)).2 = load_seen w'
  ∧ ∀ res res',
      (mark_events_as_seen w (Some event_ids)).1 = Result res →
      (mark_events_as_seen w' (Some event_ids)).1 = Result res' →
      MarkResult.total_seen_events res' = MarkResult.total_seen_events res.
Proof.
  intros Hne w'. destruct event_ids as [|id ids]; [done|].
  destruct (mark_events_as_seen_spec w id ids) as (Hseen & _).
  destruct (mark_events_as_seen_spec w' id ids) as (Hseen' & _).
  fold w' in Hseen.
  assert (load_seen w' ∪ list_to_set (id :: ids) = load_seen w') as Hsame
    by (rewrite Hseen; set_solver).
  split.
  - by rewrite Hseen', Hsame.
  - intros res res' Hres Hres'.
    assert (MarkResult.total_seen_events res
            = size (load_seen w ∪ list_to_set (id :: ids))) as ->
      by (injection Hres as <-; reflexivity).
    assert (MarkResult.total_seen_events res'
            = size (load_seen w' ∪ list_to_set (id :: ids))) as ->
      by (injection Hres' as <-; reflexivity).
    by rewrite Hsame, Hseen.
Qed.

Lemma mark_seen_twice_witness :
  load_seen
    (mark_events_as_seen
       (mark_events_as_seen (sample_world None None) (Some ["a"; "b"])).2
       (Some ["a"; "b"])).2
  = load_seen (mark_events_as_seen (sample_world None None) (Some ["a"; "b"])).2.
Proof.
  apply (mark_seen_twice (sample_world None None) ["a"; "b"]). done.
Defined.

(** X8: when something is unseen, [get_unseen_events] with
    [mark_as_seen = true] leaves the same seen set as reading with
    [mark_as_seen = false] and passing the returned identities to
    [mark_events_as_seen]. *)
Theorem unseen_true_as_mark (w : world) (events : list Event.t)
    (res : UnseenResult.t) :
  EVENTS_FILE w = Some events →
  (get_unseen_events w false).1 = Result res →
  UnseenResult.events res ≠ [] →
  load_seen (get_unseen_events w true).2
  = load_seen (mark_events_as_seen w
                 (Some (map Unseen.event_id (UnseenResult.events res)))).2.
Proof.
  intros Hev Hres Hne.
  destruct (get_unseen_events_spec w events false Hev) as (Hfalse & _).
  rewrite Hfalse in Hres. injection Hres as <-.
  cbn [UnseenResult.events] in *.
  destruct (get_unseen_events_spec w events true Hev) as (_ & _ & ->).
  rewrite <- list_fmap_compose.
  change (Unseen.event_id ∘ annotate) with event_id.
  destruct (unseen_of (load_seen w) events) as [|e us] eqn:Hus; [done|].
  rewrite !fmap_cons.
  destruct (mark_events_as_seen_spec w (event_id e) (event_id <$> us))
    as (-> & _).
  done.
Qed.

Lemma unseen_true_as_mark_witness :
  load_seen (get_unseen_events (sample_world (Some twin_events) None) true).2
  = {["2024-01-01T00:00:00Z:workflow_run:a/b"]}.
Proof.
  erewrite (unseen_true_as_mark (sample_world (Some twin_events) None)
              twin_events);
    [|reflexivity|vm_compute; reflexivity|vm_compute; discriminate].
  apply (bool_decide_unpack _). vm_compute. exact I.
Defined.

(** ** The order of strings *)

Lemma ascii_compare_lt_trans a b c :
  Ascii.compare a b = Lt → Ascii.compare b c = Lt → Ascii.compare a c = Lt.
Proof.
  unfold Ascii.compare. rewrite !N.compare_lt_iff. lia.
Qed.

Lemma string_compare_lt_trans a : ∀ b c,
  String.compare a b = Lt → String.compare b c = Lt → String.compare a c = Lt.
Proof.
  induction a as [|x a IH]; intros [|y b] [|z c]; simpl; try done.
  destruct (Ascii.compare x y) eqn:Hxy; [|intros _|done].
  - apply Ascii.compare_eq_iff in Hxy as ->.
    destruct (Ascii.compare y z); [apply IH|done|done].
  - destruct (Ascii.compare y z) eqn:Hyz; [|intros _|done].
    + apply Ascii.compare_eq_iff in Hyz as <-. by rewrite Hxy.
    + by rewrite (ascii_compare_lt_trans x y z).
Qed.

Lemma string_ltb_trans a b c :
  String.ltb a b = true → String.ltb b c = true → String.ltb a c = true.
Proof.
  unfold String.ltb. intros Hab Hbc.
  destruct (String.compare a b) eqn:Hab'; try done.
  destruct (String.compare b c) eqn:Hbc'; try done.
  by rewrite (string_compare_lt_trans a b c).
Qed.

Lemma string_compare_refl a : String.compare a a = Eq.
Proof.
  induction a as [|x a IH]; simpl; [done|].
  unfold Ascii.compare. by rewrite N.compare_refl.
Qed.

Lemma string_ltb_irrefl a : String.ltb a a = false.
Proof. unfold String.ltb. by rewrite string_compare_refl. Qed.

Lemma string_ltb_asym a b : String.ltb a b = true → String.ltb b a = false.
Proof.
  unfold String.ltb. rewrite (String.compare_antisym a b).
  by destruct (String.compare b a).
Qed.

(** "Not below" is transitive: from [c <= b] and [b <= a], [c <= a]. *)
Lemma string_not_ltb_trans a b c :
  String.ltb a b = false → String.ltb b c = false → String.ltb a c = false.
Proof.
  unfold String.ltb. intros Hab Hbc.
  rewrite (String.compare_antisym a b) in Hab.
  rewrite (String.compare_antisym b c) in Hbc.
  rewrite (String.compare_antisym a c).
  destruct (String.compare b a) eqn:Hba; try done;
    destruct (String.compare c b) eqn:Hcb; try done.
  - apply String.compare_eq_iff in Hba as ->. by rewrite Hcb.
  - apply String.compare_eq_iff in Hba as ->. by rewrite Hcb.
  - apply String.compare_eq_iff in Hcb as ->. by rewrite Hba.
  - by rewrite (string_compare_lt_trans c b a).
Qed.

(** ** More on dictionaries *)

Lemma dict_get_Forall_entry {V} (P : string * V → Prop) k v (d : Dict.t V) :
  Forall P d → Dict.get k d = Some v → P (k, v).
Proof.
  induction 1 as [|[k' v'] d Hv _ IH]; simpl; [done|].
  destruct (String.eqb_spec k k') as [->|]; [|done]. by intros [= <-].
Qed.

Lemma dict_set_Forall_entry {V} (P : string * V → Prop) k v (d : Dict.t V) :
  Forall P d → P (k, v) → Forall P (Dict.set k v d).
Proof.
  intros Hd Hv. induction Hd as [|[k' v'] d Hv' Hd IH]; simpl.
  - by repeat constructor.
  - destruct (String.eqb k k'); by constructor.
Qed.

Lemma dict_set_NoDup {V} k (v : V) d :
  NoDup (map fst d) → NoDup (map fst (Dict.set k v d)).
Proof.
  intros Hd. rewrite dict_keys_set. case_bool_decide as Hin; [done|].
  apply NoDup_app. split; [done|]. split; [|apply NoDup_singleton].
  intros x Hx ->%list_elem_of_singleton. done.
Qed.

Lemma dict_get_elem {V} k (v : V) d :
  NoDup (map fst d) → (k, v) ∈ d → Dict.get k d = Some v.
Proof.
  induction d as [|[k' v'] d IH]; simpl; intros Hd Hin.
  - by apply not_elem_of_nil in Hin.
  - apply NoDup_cons in Hd as [Hk' Hd].
    apply elem_of_cons in Hin as [[= <- <-]|Hin].
    + by rewrite String.eqb_refl.
    + destruct (String.eqb_spec k k') as [->|]; [|by apply IH].
      exfalso. apply Hk'. apply list_elem_of_fmap. by exists (k', v).
Qed.

(** Assigning to a key changes the sum over the values by the difference
    between the new value and the one it replaces. *)
Lemma dict_set_sum {V} (f : V → nat) k v (d : Dict.t V) :
  (sum_list_with f (Dict.values (Dict.set k v d))
   + from_option f 0 (Dict.get k d)
   = sum_list_with f (Dict.values d) + f v)%nat.
Proof.
  unfold Dict.values. induction d as [|[k' v'] d IH]; simpl; [lia|].
  destruct (String.eqb k k'); simpl; lia.
Qed.

(** ** The groups of get_new_failures *)

Lemma select_failures_spec fromisoformat cutoff_time events : ∀ failures,
  select_failures fromisoformat cutoff_time events = Py.Ok failures →
  map fst failures
  = filter (λ e, in_window fromisoformat (micros cutoff_time) e = true) events
  ∧ Forall (λ failure, failed_run failure.1 = Some failure.2) failures.
Proof.
  induction events as [|e events IH]; intros failures; simpl.
  - intros [= <-]. split; [done|constructor].
  - destruct (failed_run e) as [run|] eqn:Hrun.
    + unfold parse_timestamp.
      destruct (fromisoformat _) as [d|] eqn:Hd; [|done]. simpl.
      unfold datetime_ge. destruct (Bool.eqb _ _); [|done]. simpl.
      destruct (select_failures _ _ events) as [rest|]; [|done]. simpl.
      destruct (IH rest eq_refl) as [Hfst Hall].
      intros [= <-].
      destruct (micros cutoff_time <=? micros d) eqn:Hle.
      * rewrite filter_cons_True
          by (unfold in_window; by rewrite Hrun, Hd).
        simpl. rewrite Hfst. split; [done|]. by constructor.
      * rewrite filter_cons_False
          by (unfold in_window; by rewrite Hrun, Hd, Hle).
        done.
    + intros Hsel. destruct (IH failures Hsel) as [Hfst Hall].
      rewrite filter_cons_False; [done|].
      unfold in_window. by rewrite Hrun.
Qed.

Lemma record_failure_ok groups failure :
  Forall group_ok groups → Forall group_ok (record_failure groups failure).
Proof.
  intros Hgroups. destruct failure as [event run]. unfold record_failure.
  apply dict_set_Forall_entry; [done|].
  destruct (Dict.get _ groups) as [g|] eqn:Hget.
  - pose proof (dict_get_Forall_entry group_ok _ _ _ Hgroups Hget)
      as (Hkey & Hcount & Hpos & Hfirst & Hlatest & Hmax).
    unfold group_ok in *. simpl in *.
    split; [done|]. split; [rewrite length_app; simpl; lia|].
    split; [lia|]. split.
    { destruct (FailureGroup.failures g); [simpl in *; lia|done]. }
    split.
    + rewrite map_app. apply elem_of_app.
      destruct (String.ltb _ _); [right; by left|by left].
    + apply Forall_app. split.
      * destruct (String.ltb (FailureGroup.latest_failure g)
                    (Event.timestamp event)) eqn:Hlt; [|done].
        eapply Forall_impl; [exact Hmax|]. simpl. intros occ Hocc.
        destruct (String.ltb (Event.timestamp event)
                    (Occurrence.timestamp occ)) eqn:Hlt'; [|done].
        by rewrite (string_ltb_trans _ _ _ Hlt Hlt') in Hocc.
      * constructor; [|constructor]. simpl.
        destruct (String.ltb (FailureGroup.latest_failure g)
                    (Event.timestamp event)) eqn:Hlt; [|done].
        apply string_ltb_irrefl.
  - unfold group_ok. simpl. rewrite string_ltb_irrefl.
    repeat split; try done.
    + by left.
    + constructor; [|constructor]. apply string_ltb_irrefl.
Qed.

Lemma group_failures_ok failures : Forall group_ok (group_failures failures).
Proof.
  unfold group_failures.
  assert (∀ groups, Forall group_ok groups →
            Forall group_ok (foldl record_failure groups failures)) as H.
  { induction failures as [|f failures IH]; intros groups Hg; simpl; [done|].
    by apply IH, record_failure_ok. }
  apply H. constructor.
Qed.

Lemma group_failures_NoDup failures :
  NoDup (map fst (group_failures failures)).
Proof.
  unfold group_failures.
  assert (∀ groups, NoDup (map fst groups) →
            NoDup (map fst (foldl record_failure groups failures))) as H.
  { induction failures as [|[e r] failures IH]; intros groups Hg; simpl;
      [done|].
    apply IH. unfold record_failure. by apply dict_set_NoDup. }
  apply H. constructor.
Qed.

Lemma record_failure_sum groups failure :
  sum_list_with FailureGroup.failure_count
    (Dict.values (record_failure groups failure))
  = S (sum_list_with FailureGroup.failure_count (Dict.values groups)).
Proof.
  destruct failure as [e r]. unfold record_failure.
  match goal with
  | |- context [Dict.set ?k ?v ?d] =>
      pose proof (dict_set_sum FailureGroup.failure_count k v d) as Hsum
  end.
  revert Hsum.
  destruct (Dict.get (group_key (e, r)) groups) as [g|]; simpl; lia.
Qed.

Lemma group_failures_sum failures :
  sum_list_with FailureGroup.failure_count
    (Dict.values (group_failures failures)) = length failures.
Proof.
  unfold group_failures.
  assert (∀ groups,
    sum_list_with FailureGroup.failure_count
      (Dict.values (foldl record_failure groups failures))
    = (sum_list_with FailureGroup.failure_count (Dict.values groups)
       + length failures)%nat) as H.
  { induction failures as [|f failures IH]; intros groups; simpl; [lia|].
    rewrite IH, record_failure_sum. lia. }
  rewrite H. simpl. lia.
Qed.

Lemma get_new_failures_inv fromisoformat w since_hours res :
  get_new_failures fromisoformat w since_hours = Py.Ok (Result res) →
  ∃ events failures,
    EVENTS_FILE w = Some events
    ∧ select_failures fromisoformat
        {| micros := cutoff_micros w since_hours; aware := true |} events
      = Py.Ok failures
    ∧ FailuresResult.time_window_hours res = since_hours
    ∧ FailuresResult.total_failure_groups res
      = length (FailuresResult.failure_groups res)
    ∧ FailuresResult.total_individual_failures res = length failures
    ∧ FailuresResult.failure_groups res
      = sort_groups (Dict.values (group_failures failures)).
Proof.
  unfold get_new_failures. intros Hcall.
  destruct (EVENTS_FILE w) as [events|]; [|done].
  unfold timedelta_hours in Hcall. cbv zeta in Hcall.
  destruct (Z.abs _ <=? _); [|done]. simpl in Hcall.
  unfold datetime_sub_delta in Hcall. simpl in Hcall.
  destruct (_ && _); [|done]. simpl in Hcall.
  fold (cutoff_micros w since_hours) in Hcall.
  destruct (select_failures _ _ events) as [failures|] eqn:Hsel; [|done].
  simpl in Hcall. injection Hcall as <-. by exists events, failures.
Qed.

Lemma sorted_groups_ok failures :
  Forall (λ g, ∃ k, (k, g) ∈ group_failures failures ∧ group_ok (k, g))
    (sort_groups (Dict.values (group_failures failures))).
Proof.
  destruct (sort_groups_spec (Dict.values (group_failures failures)))
    as (_ & Hperm & _).
  rewrite Hperm. unfold Dict.values. apply Forall_fmap, Forall_forall.
  intros [k g] Hin. exists k. split; [done|].
  pose proof (group_failures_ok failures) as Hok.
  rewrite Forall_forall in Hok. by apply Hok.
Qed.

(** X9: the totals of [get_new_failures] add up.  [total_failure_groups]
    is the number of groups returned, [total_individual_failures] is the
    sum of their [failure_count]s, and every group counts exactly the
    occurrences it lists, at least one. *)
Theorem new_failures_totals (fromisoformat : string → option datetime)
    (w : world) (since_hours : Z) (res : FailuresResult.t) :
  get_new_failures fromisoformat w since_hours = Py.Ok (Result res) →
  FailuresResult.time_window_hours res = since_hours
  ∧ FailuresResult.total_failure_groups res
    = length (FailuresResult.failure_groups res)
  ∧ FailuresResult.total_individual_failures res
    = sum_list_with FailureGroup.failure_count
        (FailuresResult.failure_groups res)
  ∧ Forall (λ g, FailureGroup.failure_count g
                 = length (FailureGroup.failures g)
                 ∧ (1 ≤ FailureGroup.failure_count g)%nat)
      (FailuresResult.failure_groups res).
Proof.
  intros Hcall.
  destruct (get_new_failures_inv _ _ _ _ Hcall)
    as (events & failures & _ & _ & Hh & Hn & Htotal & Hgroups).
  split; [done|]. split; [done|]. rewrite Htotal, Hgroups. split.
  - destruct (sort_groups_spec (Dict.values (group_failures failures)))
      as (_ & -> & _).
    by rewrite group_failures_sum.
  - eapply Forall_impl; [apply sorted_groups_ok|].
    intros g (k & _ & _ & Hcount & Hpos & _). done.
Qed.

Lemma new_failures_totals_witness :
  ∃ res,
    get_new_failures IsoBasic.iso_basic
      (sample_world (Some failures_1_5_3) None) 24 = Py.Ok (Result res)
    ∧ FailuresResult.total_individual_failures res = 9%nat
    ∧ FailuresResult.total_individual_failures res
      = sum_list_with FailureGroup.failure_count
          (FailuresResult.failure_groups res).
Proof.
  destruct (get_new_failures IsoBasic.iso_basic
              (sample_world (Some failures_1_5_3) None) 24)
    as [[m|e|res]|exc] eqn:Hcall;
    try (vm_compute in Hcall; discriminate Hcall).
  exists res.
  destruct (new_failures_totals _ _ _ _ Hcall) as (_ & _ & Hsum & _).
  split; [reflexivity|]. split; [|exact Hsum].
  vm_compute in Hcall. injection Hcall as <-. reflexivity.
Defined.

(** X10: in every group, [first_failure] is the timestamp of the
    occurrence listed first, the one that arrived first and not
    necessarily the earliest, while [latest_failure] is the greatest
    timestamp among the occurrences in string order. *)
Theorem new_failures_group_times (fromisoformat : string → option datetime)
    (w : world) (since_hours : Z) (res : FailuresResult.t) :
  get_new_failures fromisoformat w since_hours = Py.Ok (Result res) →
  Forall (λ g,
      Occurrence.timestamp <$> head (FailureGroup.failures g)
      = Some (FailureGroup.first_failure g)
      ∧ FailureGroup.latest_failure g
        ∈ map Occurrence.timestamp (FailureGroup.failures g)
      ∧ Forall (λ occ, String.ltb (FailureGroup.latest_failure g)
                         (Occurrence.timestamp occ) = false)
          (FailureGroup.failures g))
    (FailuresResult.failure_groups res).
Proof.
  intros Hcall.
  destruct (get_new_failures_inv _ _ _ _ Hcall)
    as (events & failures & _ & _ & _ & _ & _ & ->).
  eapply Forall_impl; [apply sorted_groups_ok|].
  intros g (k & _ & _ & _ & _ & Hfirst & Hlatest & Hmax). done.
Qed.

Lemma new_failures_group_times_witness :
  ∃ res,
    get_new_failures IsoBasic.iso_basic
      (sample_world (Some failures_2_1_2) None) 24 = Py.Ok (Result res)
    ∧ Forall (λ g,
          Occurrence.timestamp <$> head (FailureGroup.failures g)
          = Some (FailureGroup.first_failure g)
          ∧ FailureGroup.latest_failure g
            ∈ map Occurrence.timestamp (FailureGroup.failures g)
          ∧ Forall (λ occ, String.ltb (FailureGroup.latest_failure g)
                             (Occurrence.timestamp occ) = false)
              (FailureGroup.failures g))
        (FailuresResult.failure_groups res).
Proof.
  destruct (get_new_failures IsoBasic.iso_basic
              (sample_world (Some failures_2_1_2) None) 24)
    as [[m|e|res]|exc] eqn:Hcall;
    try (vm_compute in Hcall; discriminate Hcall).
  exists res. split; [reflexivity|].
  exact (new_failures_group_times _ _ _ _ Hcall).
Defined.



Lemma filter_group_key_events k (failures : list (Event.t * Run.t)) :
  Forall (λ failure, failed_run failure.1 = Some failure.2) failures →
  length (filter (λ f, group_key f = k) failures)
  = length (filter (λ e, event_key e = Some k) (map fst failures)).
Proof.
  induction 1 as [|[e r] failures Hrun _ IH]; [done|].
  simpl in Hrun. rewrite fmap_cons. cbn [fst].
  assert (event_key e = Some (group_key (e, r))) as Hkey
    by (unfold event_key; by rewrite Hrun).
  destruct (decide (group_key (e, r) = k)) as [Heq|Hne].
  - rewrite (filter_cons_True (λ f, group_key f = k)) by done.
    rewrite (filter_cons_True (λ e, event_key e = Some k))
      by (by rewrite Hkey, Heq).
    simpl. by rewrite IH.
  - rewrite (filter_cons_False (λ f, group_key f = k)) by done.
    rewrite (filter_cons_False (λ e, event_key e = Some k))
      by (rewrite Hkey; by intros [= ?]).
    done.
Qed.

(** X12: groups are told apart by the string [repository:workflow_name]
    alone.  No two groups returned share that string, and a group counts
    every failure in the window whose own [repository:workflow] string
    equals it, so failures of different repositories whose strings
    coincide are reported as one group under the first one's label. *)
Theorem new_failures_grouped_by_key (fromisoformat : string → option datetime)
    (w : world) (events : list Event.t) (since_hours : Z)
    (res : FailuresResult.t) :
  EVENTS_FILE w = Some events →
  get_new_failures fromisoformat w since_hours = Py.Ok (Result res) →
  NoDup (map group_label (FailuresResult.failure_groups res))
  ∧ Forall (λ g,
        FailureGroup.failure_count g
        = length (filter (λ e, event_key e = Some (group_label g)
                               ∧ in_window fromisoformat
                                   (cutoff_micros w since_hours) e = true)
                    events))
      (FailuresResult.failure_groups res).
Proof.
  intros Hev Hcall.
  destruct (get_new_failures_inv _ _ _ _ Hcall)
    as (events' & failures & Hev' & Hsel & _ & _ & _ & ->).
  rewrite Hev in Hev'. injection Hev' as <-.
  destruct (select_failures_spec _ _ _ _ Hsel) as [Hfst Hruns].
  simpl in Hfst.
  pose proof (group_failures_NoDup failures) as Hnodup.
  split.
  - destruct (sort_groups_spec (Dict.values (group_failures failures)))
      as (_ & -> & _).
    assert (map group_label (Dict.values (group_failures failures))
            = map fst (group_failures failures)) as ->; [|done].
    unfold Dict.values. rewrite <- list_fmap_compose.
    apply Forall_fmap_ext_1.
    eapply Forall_impl; [apply group_failures_ok|].
    intros [k g] (Hkey & _). simpl in *. by rewrite Hkey.
  - eapply Forall_impl; [apply sorted_groups_ok|].
    intros g (k & Hin & Hkey & _). simpl in Hkey.
    fold (group_label g) in Hkey. subst k.
    pose proof (dict_get_elem _ _ _ Hnodup Hin) as Hget.
    pose proof (group_failures_count (group_label g) [] failures) as Hcount.
    unfold count_of in Hcount. fold (group_failures failures) in Hcount.
    rewrite Hget in Hcount. simpl in Hcount. rewrite Hcount. simpl.
    rewrite filter_group_key_events by done.
    by rewrite Hfst, list_filter_filter.
Qed.

Lemma new_failures_grouped_by_key_witness :
  group_summary (get_new_failures IsoBasic.iso_basic
                   (sample_world (Some colliding_failures) None) 24)
  = [("a:b", "c", 2%nat)]
  ∧ ∃ res,
      get_new_failures IsoBasic.iso_basic
        (sample_world (Some colliding_failures) None) 24 = Py.Ok (Result res)
      ∧ NoDup (map group_label (FailuresResult.failure_groups res)).
Proof.
  split; [vm_compute; reflexivity|].
  destruct (get_new_failures IsoBasic.iso_basic
              (sample_world (Some colliding_failures) None) 24)
    as [[m|e|res]|exc] eqn:Hcall;
    try (vm_compute in Hcall; discriminate Hcall).
  exists res. split; [reflexivity|].
  apply (new_failures_grouped_by_key IsoBasic.iso_basic
           (sample_world (Some colliding_failures) None) colliding_failures
           24 res eq_refl Hcall).
Defined.

(** X13: a window that reaches back before year 1, or forward past year
    9999, is not clamped: computing the cutoff raises [OverflowError] and
    the call fails whatever the events are. *)
Theorem new_failures_window_overflow
    (fromisoformat : string → option datetime)
    (w : world) (events : list Event.t) (since_hours : Z) :
  EVENTS_FILE w = Some events →
  cutoff_micros w since_hours < DATETIME_MIN
  ∨ DATETIME_MAX < cutoff_micros w since_hours →
  get_new_failures fromisoformat w since_hours = Py.Raise Py.OverflowError.
Proof.
  intros Hev Hout. unfold get_new_failures. rewrite Hev.
  unfold timedelta_hours. cbv zeta.
  destruct (Z.abs _ <=? _); [|done]. simpl.
  unfold datetime_sub_delta. simpl.
  fold (cutoff_micros w since_hours).
  destruct (Z.leb_spec DATETIME_MIN (cutoff_micros w since_hours));
    destruct (Z.leb_spec (cutoff_micros w since_hours) DATETIME_MAX);
    simpl; try done; lia.
Qed.

Lemma new_failures_window_overflow_witness :
  get_new_failures IsoBasic.iso_basic
    (sample_world (Some three_events) None) 20000000
  = Py.Raise Py.OverflowError.
Proof.
  apply (new_failures_window_overflow _ _ three_events); [reflexivity|].
  left. vm_compute. reflexivity.
Defined.

(** ** The records of get_workflow_status *)

Lemma track_run_unfold fromisoformat current repositories event run :
  track_run fromisoformat current repositories (event, run)
  = let repo := Event.repository event in
    let data := default (new_repo_data repo) (Dict.get repo repositories) in
    let runs := default [] (Dict.get (Run.name run) (RepoData.workflows data)) in
    let info := info_of fromisoformat current run in
    newer ← match RepoData.latest_run data with
            | None => Py.Ok true
            | Some latest =>
                Py.gt (Run.updated_at run) (WorkflowInfo.updated_at latest)
            end;
    Py.Ok (Dict.set repo
      {| RepoData.repository := RepoData.repository data;
         RepoData.workflows :=
           Dict.set (Run.name run) (runs ++ [info]) (RepoData.workflows data);
         RepoData.latest_run :=
           if newer : bool then Some info else RepoData.latest_run data;
         RepoData.total_runs := S (RepoData.total_runs data) |}
      repositories).
Proof. reflexivity. Qed.

(** The shape of one successful step: the repository's record is replaced
    by one with the run appended and, when it is newer, made the latest. *)
Lemma track_run_inv fromisoformat current repositories event run repositories' :
  track_run fromisoformat current repositories (event, run)
  = Py.Ok repositories' →
  let repo := Event.repository event in
  let data := default (new_repo_data repo) (Dict.get repo repositories) in
  let runs := default [] (Dict.get (Run.name run) (RepoData.workflows data)) in
  let info := info_of fromisoformat current run in
  ∃ newer : bool,
    match RepoData.latest_run data with
    | None => newer = true
    | Some latest =>
        Py.gt (Run.updated_at run) (WorkflowInfo.updated_at latest)
        = Py.Ok newer
    end
    ∧ repositories'
      = Dict.set repo
          {| RepoData.repository := RepoData.repository data;
             RepoData.workflows :=
               Dict.set (Run.name run) (runs ++ [info])
                 (RepoData.workflows data);
             RepoData.latest_run :=
               if newer then Some info else RepoData.latest_run data;
             RepoData.total_runs := S (RepoData.total_runs data) |}
          repositories.
Proof.
  rewrite track_run_unfold. cbv zeta.
  destruct (RepoData.latest_run _) as [latest|].
  - destruct (Py.gt _ _) as [newer|]; [|done]. simpl.
    intros [= <-]. by exists newer.
  - simpl. intros [= <-]. by exists true.
Qed.

Section StatusRecords.
Variable fromisoformat : string → option datetime.
Variable current : datetime.
Variable Q : WorkflowInfo.t → Prop.

Lemma track_run_all repositories event run repositories' :
  Forall (λ kv, data_all Q kv.2) repositories →
  Q (info_of fromisoformat current run) →
  track_run fromisoformat current repositories (event, run)
  = Py.Ok repositories' →
  Forall (λ kv, data_all Q kv.2) repositories'.
Proof.
  intros Hrepos Hq Hstep.
  destruct (track_run_inv _ _ _ _ _ _ Hstep) as (newer & _ & ->).
  set (repo := Event.repository event).
  set (data := default (new_repo_data repo) (Dict.get repo repositories)).
  assert (data_all Q data) as [Hlatest Hflows].
  { subst data. destruct (Dict.get repo repositories) as [d|] eqn:Hget.
    - exact (dict_get_Forall (data_all Q) _ _ _ Hrepos Hget).
    - split; [done|constructor]. }
  apply (dict_set_Forall (data_all Q)); [done|]. split; simpl.
  - intros l. destruct newer; [by intros [= <-]|apply Hlatest].
  - apply (dict_set_Forall (Forall Q)); [done|].
    apply Forall_app. split; [|by constructor].
    destruct (Dict.get _ (RepoData.workflows data)) as [l|] eqn:Hget.
    + exact (dict_get_Forall (Forall Q) _ _ _ Hflows Hget).
    + constructor.
Qed.

Lemma track_runs_all items : ∀ repositories repositories',
  Forall (λ kv, data_all Q kv.2) repositories →
  Forall (λ item : Event.t * Run.t, Q (info_of fromisoformat current item.2))
    items →
  track_runs fromisoformat current repositories items = Py.Ok repositories' →
  Forall (λ kv, data_all Q kv.2) repositories'.
Proof.
  induction items as [|[event run] items IH];
    intros repositories repositories' Hrepos Hitems.
  - by intros [= <-].
  - apply Forall_cons in Hitems as [Hrun Hitems]. cbn [track_runs].
    destruct (track_run _ _ repositories _) as [step|] eqn:Hstep; [|done].
    simpl. apply IH; [|done].
    by apply (track_run_all repositories event run).
Qed.

End StatusRecords.

Lemma sort_runs_perm runs runs' :
  sort_runs runs = Py.Ok runs' → runs' ≡ₚ runs.
Proof.
  unfold sort_runs. destruct (_ && _); [done|]. intros [= <-].
  apply sorted_reverse_perm.
Qed.

(** Sorting changes nothing but the order inside each run list. *)
Lemma sort_workflows_inv workflows : ∀ workflows',
  sort_workflows workflows = Py.Ok workflows' →
  Forall2 (λ a b, b.1 = a.1 ∧ sort_runs a.2 = Py.Ok b.2) workflows workflows'.
Proof.
  induction workflows as [|[k runs] workflows IH]; intros workflows'; simpl.
  - intros [= <-]. constructor.
  - destruct (sort_runs runs) as [runs'|] eqn:Hruns; [|done]. simpl.
    destruct (sort_workflows workflows) as [rest|]; [|done]. simpl.
    intros [= <-]. constructor; [done|]. by apply IH.
Qed.

Lemma sort_repositories_inv repositories : ∀ sorted,
  sort_repositories repositories = Py.Ok sorted →
  Forall2 (λ d d',
      RepoData.repository d' = RepoData.repository d
      ∧ RepoData.latest_run d' = RepoData.latest_run d
      ∧ RepoData.total_runs d' = RepoData.total_runs d
      ∧ sort_workflows (RepoData.workflows d)
        = Py.Ok (RepoData.workflows d'))
    repositories sorted.
Proof.
  induction repositories as [|d repositories IH]; intros sorted; simpl.
  - intros [= <-]. constructor.
  - destruct (sort_workflows _) as [workflows|] eqn:Hw; [|done]. simpl.
    destruct (sort_repositories repositories) as [rest|]; [|done]. simpl.
    intros [= <-]. constructor; [done|]. by apply IH.
Qed.

Lemma get_workflow_status_inv fromisoformat w conclusion summary :
  get_workflow_status fromisoformat w conclusion = Py.Ok (Result summary) →
  ∃ events repositories,
    EVENTS_FILE w = Some events
    ∧ track_runs fromisoformat (current_time w) []
        (workflow_events events conclusion) = Py.Ok repositories
    ∧ sort_repositories (Dict.values repositories)
      = Py.Ok (StatusSummary.repositories summary)
    ∧ StatusSummary.total_repositories summary = length repositories
    ∧ StatusSummary.generated_at summary = current_time w
    ∧ StatusSummary.filter_applied summary
      = if Py.truthy conclusion
        then "conclusion=" +:+ default EmptyString conclusion else "none".
Proof.
  unfold get_workflow_status. intros Hcall.
  destruct (EVENTS_FILE w) as [[|e events]|]; [done| |done].
  destruct (track_runs _ _ _ _) as [repositories|] eqn:Htrack; [|done].
  simpl in Hcall.
  destruct (sort_repositories _) as [sorted|] eqn:Hsort; [|done].
  simpl in Hcall. injection Hcall as <-.
  by exists (e :: events), repositories.
Qed.

Lemma Forall_concat_iff {A} (P : A → Prop) (ls : list (list A)) :
  Forall P (concat ls) ↔ Forall (Forall P) ls.
Proof.
  induction ls as [|l ls IH]; simpl.
  - split; constructor.
  - rewrite Forall_app, Forall_cons, IH. done.
Qed.

Lemma length_concat_sum {A} (ls : list (list A)) :
  length (concat ls) = sum_list_with length ls.
Proof.
  induction ls as [|l ls IH]; simpl; [done|]. by rewrite length_app, IH.
Qed.

Lemma elem_of_concat_iff {A} (x : A) (ls : list (list A)) :
  x ∈ concat ls ↔ ∃ l, l ∈ ls ∧ x ∈ l.
Proof.
  induction ls as [|l ls IH]; simpl.
  - split; [by intros ?%not_elem_of_nil|by intros (? & ?%not_elem_of_nil & _)].
  - rewrite elem_of_app, IH. split.
    + intros [Hx|(l' & Hl' & Hx)]; [exists l|exists l']; split; try done.
      * by left.
      * by right.
    + intros (l' & [->|Hl']%elem_of_cons & Hx); [by left|right; eauto].
Qed.

(** What sorting keeps of a repository record. *)
Lemma sorted_workflows_values workflows workflows' :
  sort_workflows workflows = Py.Ok workflows' →
  Forall2 (λ runs runs', runs' ≡ₚ runs)
    (Dict.values workflows) (Dict.values workflows').
Proof.
  intros Hsort%sort_workflows_inv. unfold Dict.values.
  apply Forall2_fmap. eapply Forall2_impl; [exact Hsort|].
  intros a b [_ Hruns]. simpl. by apply sort_runs_perm.
Qed.

Lemma sorted_runs_of d d' :
  sort_workflows (RepoData.workflows d) = Py.Ok (RepoData.workflows d') →
  runs_of d' ≡ₚ runs_of d.
Proof.
  intros Hsort%sorted_workflows_values. unfold runs_of.
  induction Hsort as [|runs runs' ls ls' Hperm _ IH]; simpl; [done|].
  by rewrite Hperm, IH.
Qed.

Lemma data_all_runs_of Q d :
  data_all Q d ↔
  (∀ l, RepoData.latest_run d = Some l → Q l) ∧ Forall Q (runs_of d).
Proof.
  unfold data_all, runs_of, Dict.values.
  rewrite Forall_concat_iff, Forall_fmap. done.
Qed.

Lemma sorted_data_all Q repositories sorted :
  Forall (λ kv, data_all Q kv.2) repositories →
  sort_repositories (Dict.values repositories) = Py.Ok sorted →
  Forall (data_all Q) sorted.
Proof.
  intros Hall Hsort%sort_repositories_inv.
  eapply Forall2_Forall_r; [exact Hsort|].
  unfold Dict.values. apply Forall_fmap.
  eapply Forall_impl; [exact Hall|]. simpl.
  intros [k d] Hd d' (_ & Hlatest & _ & Hw). simpl in *.
  apply data_all_runs_of. apply data_all_runs_of in Hd as [Hl Hruns].
  rewrite Hlatest. split; [done|]. by rewrite (sorted_runs_of d d').
Qed.

Lemma workflow_events_filtered events (c : string) :
  Py.truthy (Some c) = true →
  Forall (λ item : Event.t * Run.t, Run.conclusion item.2 = Some c)
    (workflow_events events (Some c)).
Proof.
  intros Htruthy. unfold workflow_events. rewrite Htruthy.
  apply Forall_forall. by intros item [? _]%list_elem_of_filter.
Qed.

(** X14: with a non-empty conclusion filter, every run in the reply, the
    [latest_run] of each repository included, has exactly that conclusion,
    and the filter is echoed in [filter_applied]. *)
Theorem status_filter_sound (fromisoformat : string → option datetime)
    (w : world) (c : string) (summary : StatusSummary.t) :
  c ≠ EmptyString →
  get_workflow_status fromisoformat w (Some c) = Py.Ok (Result summary) →
  StatusSummary.filter_applied summary = "conclusion=" +:+ c
  ∧ Forall (data_all (λ r, WorkflowInfo.conclusion r = Some c))
      (StatusSummary.repositories summary).
Proof.
  intros Hc Hcall.
  assert (Py.truthy (Some c) = true) as Htruthy.
  { simpl. by destruct (String.eqb_spec c EmptyString). }
  destruct (get_workflow_status_inv _ _ _ _ Hcall)
    as (events & repositories & _ & Htrack & Hsort & _ & _ & Hfilter).
  rewrite Htruthy in Hfilter. split; [exact Hfilter|].
  eapply sorted_data_all; [|exact Hsort].
  eapply (track_runs_all _ _ _ _ [] repositories); [constructor| |exact Htrack].
  eapply Forall_impl; [by apply workflow_events_filtered|]. done.
Qed.

Lemma status_filter_sound_witness :
  ∃ summary,
    get_workflow_status IsoBasic.iso_basic
      (sample_world (Some (failures_1_5_3 ++ [run_event "a/b" "CI" None]))
         None) (Some "failure") = Py.Ok (Result summary)
    ∧ Forall (data_all (λ r, WorkflowInfo.conclusion r = Some "failure"))
        (StatusSummary.repositories summary).
Proof.
  destruct (get_workflow_status IsoBasic.iso_basic
              (sample_world
                 (Some (failures_1_5_3 ++ [run_event "a/b" "CI" None])) None)
              (Some "failure"))
    as [[m|e|summary]|exc] eqn:Hcall;
    try (vm_compute in Hcall; discriminate Hcall).
  exists summary. split; [reflexivity|].
  apply (status_filter_sound IsoBasic.iso_basic
           (sample_world
              (Some (failures_1_5_3 ++ [run_event "a/b" "CI" None])) None)
           "failure" summary); [done|exact Hcall].
Defined.

Lemma track_run_counted fromisoformat current repositories event run
    repositories' :
  Forall (λ kv, RepoData.repository kv.2 = kv.1 ∧ counted kv.2) repositories →
  NoDup (map fst repositories) →
  track_run fromisoformat current repositories (event, run)
  = Py.Ok repositories' →
  Forall (λ kv, RepoData.repository kv.2 = kv.1 ∧ counted kv.2) repositories'
  ∧ NoDup (map fst repositories')
  ∧ sum_list_with RepoData.total_runs (Dict.values repositories')
    = S (sum_list_with RepoData.total_runs (Dict.values repositories)).
Proof.
  intros Hrepos Hnodup Hstep.
  destruct (track_run_inv _ _ _ _ _ _ Hstep) as (newer & _ & ->).
  set (repo := Event.repository event).
  set (data := default (new_repo_data repo) (Dict.get repo repositories)).
  assert (RepoData.repository data = repo
          ∧ RepoData.total_runs data
            = sum_list_with length (Dict.values (RepoData.workflows data))
          ∧ from_option RepoData.total_runs 0%nat (Dict.get repo repositories)
            = RepoData.total_runs data) as (Hname & Hcount & Hfrom).
  { subst data. destruct (Dict.get repo repositories) as [d|] eqn:Hget.
    - pose proof (dict_get_Forall_entry _ _ _ _ Hrepos Hget) as [? [? _]].
      done.
    - done. }
  split; [|split].
  - apply dict_set_Forall_entry; [done|]. split; [done|]. split; simpl; [|lia].
    match goal with
    | |- context [Dict.set ?k ?v ?d] =>
        pose proof (dict_set_sum length k v d) as Hsum
    end.
    rewrite length_app in Hsum. simpl in Hsum. revert Hsum.
    destruct (Dict.get (Run.name run) (RepoData.workflows data)); simpl; lia.
  - by apply dict_set_NoDup.
  - match goal with
    | |- context [Dict.set ?k ?v ?d] =>
        pose proof (dict_set_sum RepoData.total_runs k v d) as Hsum
    end.
    rewrite Hfrom in Hsum. simpl in Hsum. lia.
Qed.

Lemma track_runs_counted fromisoformat current items :
  ∀ repositories repositories',
  Forall (λ kv, RepoData.repository kv.2 = kv.1 ∧ counted kv.2) repositories →
  NoDup (map fst repositories) →
  track_runs fromisoformat current repositories items = Py.Ok repositories' →
  Forall (λ kv, RepoData.repository kv.2 = kv.1 ∧ counted kv.2) repositories'
  ∧ NoDup (map fst repositories')
  ∧ sum_list_with RepoData.total_runs (Dict.values repositories')
    = (sum_list_with RepoData.total_runs (Dict.values repositories)
       + length items)%nat.
Proof.
  induction items as [|[event run] items IH];
    intros repositories repositories' Hrepos Hnodup.
  - intros [= <-]. simpl. repeat split; try done; lia.
  - cbn [track_runs].
    destruct (track_run _ _ repositories _) as [step|] eqn:Hstep; [|done].
    simpl. intros Hrest.
    destruct (track_run_counted _ _ _ _ _ _ Hrepos Hnodup Hstep)
      as (Hrepos' & Hnodup' & Hsum).
    destruct (IH _ _ Hrepos' Hnodup' Hrest) as (? & ? & Hsum').
    repeat split; try done. rewrite Hsum', Hsum. simpl. lia.
Qed.

(** The events behind a status reply are the stored events that satisfy
    [reported], whatever further condition they are counted under. *)
Lemma workflow_events_reported (P : Event.t → Prop) `{!∀ e, Decision (P e)}
    (events : list Event.t) (conclusion : option string) :
  length (filter (λ item : Event.t * Run.t, P item.1)
            (workflow_events events conclusion))
  = length (filter (λ e, reported conclusion e = true ∧ P e) events).
Proof.
  unfold workflow_events.
  assert (∀ e, reported conclusion e = true ↔
               ∃ run, Event.workflow_run e = Some run
                      ∧ (Py.truthy conclusion = true →
                         Run.conclusion run = conclusion)) as Hrep.
  { intros e. unfold reported.
    destruct (Event.workflow_run e) as [run|]; [|by split; [|intros (? & ? & _)]].
    destruct conclusion as [c|]; simpl.
    - case_bool_decide as Hc.
      + subst c. simpl. split; [by exists run|done].
      + destruct (String.eqb_spec c EmptyString); [done|]. simpl.
        rewrite bool_decide_eq_true. split.
        * intros ?. by exists run.
        * intros (? & [= <-] & Hrun). by apply Hrun.
    - split; [by exists run|done]. }
  induction events as [|e events IH]; [by destruct (Py.truthy conclusion)|].
  rewrite (filter_cons _ e events). specialize (Hrep e).
  cbn [omap list_omap]. fold (@omap list _ _ _ (λ e, pair e <$> Event.workflow_run e) events).
  destruct (Event.workflow_run e) as [run|] eqn:Hrun; cbn [fmap option_fmap option_map].
  - destruct (Py.truthy conclusion) eqn:Htruthy.
    + rewrite (filter_cons _ (e, run)). cbn [snd].
      destruct (decide (Run.conclusion run = conclusion)) as [Hc|Hc].
      * rewrite (filter_cons _ (e, run)). cbn [fst].
        destruct (decide (P e)) as [HP|HP].
        -- rewrite decide_True by (split; [apply Hrep; by exists run|done]).
           simpl. by rewrite IH.
        -- rewrite decide_False by tauto. done.
      * rewrite decide_False; [done|].
        intros [(run' & [= <-] & Hrun')%Hrep _]. by apply Hc, Hrun'.
    + rewrite (filter_cons _ (e, run)). cbn [fst].
      destruct (decide (P e)) as [HP|HP].
      * rewrite decide_True by (split; [apply Hrep; by exists run|done]).
        simpl. by rewrite IH.
      * rewrite decide_False by tauto. done.
  - rewrite decide_False; [done|].
    by intros [(run' & [=] & _)%Hrep _].
Qed.

Lemma workflow_events_count (events : list Event.t)
    (conclusion : option string) :
  length (workflow_events events conclusion)
  = length (filter (λ e, reported conclusion e = true) events).
Proof.
  rewrite <- (list_filter_iff (λ e, reported conclusion e = true ∧ True)
                (λ e, reported conclusion e = true)) by tauto.
  rewrite <- (workflow_events_reported (λ _, True) events conclusion).
  f_equal. generalize (workflow_events events conclusion). intros items.
  induction items as [|item items IH]; [done|].
  rewrite filter_cons. simpl. by rewrite <- IH.
Qed.

(** Every step adds one to the count of the event's repository and leaves
    the counts of the others alone. *)
Lemma track_runs_per_repository fromisoformat current items :
  ∀ repositories repositories' repo,
  track_runs fromisoformat current repositories items = Py.Ok repositories' →
  from_option RepoData.total_runs 0%nat (Dict.get repo repositories')
  = (from_option RepoData.total_runs 0%nat (Dict.get repo repositories)
     + length (filter (λ item : Event.t * Run.t,
                         Event.repository item.1 = repo) items))%nat.
Proof.
  induction items as [|[event run] items IH];
    intros repositories repositories' repo.
  - intros [= <-]. simpl. lia.
  - cbn [track_runs].
    destruct (track_run _ _ repositories _) as [step|] eqn:Hstep; [|done].
    simpl. intros Hrest. rewrite (IH _ _ repo Hrest).
    destruct (track_run_inv _ _ _ _ _ _ Hstep) as (newer & _ & ->).
    rewrite filter_cons. cbn [fst].
    destruct (decide (Event.repository event = repo)) as [<-|Hne].
    + rewrite dict_get_set_eq. simpl.
      destruct (Dict.get (Event.repository event) repositories); simpl; lia.
    + rewrite dict_get_set_ne by done. lia.
Qed.

(** X15: the counters of the status reply agree with its contents and
    with the store.  [total_repositories] is the number of repository
    records and no repository appears twice.  Each record's [total_runs] is
    the number of runs listed under its workflows, is at least one, and is
    the number of stored events of that repository that carry a run whose
    conclusion is the one asked for (any run when no conclusion, or an
    empty one, is given).  Together they add up to the number of all such
    stored events. *)
Theorem status_totals (fromisoformat : string → option datetime)
    (w : world) (events : list Event.t) (conclusion : option string)
    (summary : StatusSummary.t) :
  EVENTS_FILE w = Some events →
  get_workflow_status fromisoformat w conclusion = Py.Ok (Result summary) →
  StatusSummary.total_repositories summary
  = length (StatusSummary.repositories summary)
  ∧ NoDup (map RepoData.repository (StatusSummary.repositories summary))
  ∧ Forall (λ d, RepoData.total_runs d = length (runs_of d)
                 ∧ (1 ≤ RepoData.total_runs d)%nat
                 ∧ RepoData.total_runs d
                   = length (filter (λ e, reported conclusion e = true
                                          ∧ Event.repository e
                                            = RepoData.repository d)
                               events))
      (StatusSummary.repositories summary)
  ∧ sum_list_with RepoData.total_runs (StatusSummary.repositories summary)
    = length (filter (λ e, reported conclusion e = true) events).
Proof.
  intros Hev Hcall.
  destruct (get_workflow_status_inv _ _ _ _ Hcall)
    as (events' & repositories & Hev' & Htrack & Hsort & Hn & _).
  rewrite Hev in Hev'. injection Hev' as <-.
  destruct (track_runs_counted fromisoformat (current_time w)
              (workflow_events events conclusion) [] repositories)
    as (Hok & Hnodup & Hsum); [constructor|constructor|exact Htrack|].
  apply sort_repositories_inv in Hsort.
  split; [|split; [|split]].
  - rewrite Hn, <- (Forall2_length _ _ _ Hsort). unfold Dict.values.
    by rewrite length_map.
  - assert (map RepoData.repository (StatusSummary.repositories summary)
            = map fst repositories) as ->; [|done].
    revert Hok Hsort. unfold Dict.values.
    generalize (StatusSummary.repositories summary). clear.
    induction repositories as [|[k d] repositories IH]; intros sorted Hok Hsort.
    + by apply Forall2_nil_inv_l in Hsort as ->.
    + apply Forall_cons in Hok as [[Hname _] Hok].
      rewrite fmap_cons in Hsort.
      apply Forall2_cons_inv_l in Hsort as (d' & sorted' & (Hd' & _) & ? & ->).
      simpl in *. rewrite (IH sorted') by done. congruence.
  - eapply Forall2_Forall_r; [exact Hsort|].
    unfold Dict.values. apply Forall_fmap, Forall_forall.
    intros [k d] Hin.
    pose proof (proj1 (Forall_forall _ _) Hok _ Hin) as [Hname [Hcount Hpos]].
    simpl in Hname, Hcount, Hpos.
    intros d' (Hname' & _ & Htotal & Hw). simpl in *.
    rewrite Htotal, Hname', Hname. split; [|split; [done|]].
    + rewrite (Permutation_length (sorted_runs_of d d' Hw)).
      unfold runs_of. by rewrite length_concat_sum.
    + pose proof (track_runs_per_repository _ _ _ _ _ k Htrack) as Hrepo.
      rewrite (dict_get_elem k d repositories Hnodup Hin) in Hrepo.
      simpl in Hrepo. rewrite Hrepo.
      exact (workflow_events_reported (λ e, Event.repository e = k)
               events conclusion).
  - simpl in Hsum. rewrite <- workflow_events_count, <- Hsum. clear -Hsort.
    induction Hsort as [|d d' ds ds' (_ & _ & Htotal & _) _ IH]; [done|].
    simpl. by rewrite Htotal, IH.
Qed.

Lemma status_totals_witness :
  ∃ summary,
    get_workflow_status IsoBasic.iso_basic
      (sample_world (Some mixed_conclusions) None) (Some "failure")
    = Py.Ok (Result summary)
    ∧ StatusSummary.total_repositories summary = 2%nat
    ∧ map (λ d, (RepoData.repository d, RepoData.total_runs d))
        (StatusSummary.repositories summary)
      = [("a/b", 6%nat); ("c/d", 3%nat)]
    ∧ sum_list_with RepoData.total_runs (StatusSummary.repositories summary)
      = 9%nat.
Proof.
  destruct (get_workflow_status IsoBasic.iso_basic
              (sample_world (Some mixed_conclusions) None) (Some "failure"))
    as [[m|e|summary]|exc] eqn:Hcall;
    try (vm_compute in Hcall; discriminate Hcall).
  exists summary. split; [reflexivity|].
  destruct (status_totals IsoBasic.iso_basic
              (sample_world (Some mixed_conclusions) None) mixed_conclusions
              (Some "failure") summary eq_refl Hcall) as (_ & _ & _ & ->).
  split; [|split; [|vm_compute; reflexivity]];
    vm_compute in Hcall; injection Hcall as <-; reflexivity.
Defined.

(** ** The order of the reported runs *)

Lemma opt_ltb_irrefl a : opt_ltb a a = false.
Proof. destruct a; [apply string_ltb_irrefl|done]. Qed.

Lemma opt_ltb_asym a b : opt_ltb a b = true → opt_ltb b a = false.
Proof. destruct a, b; try done. apply string_ltb_asym. Qed.

(** "Not below" composes through a middle value that is a string. *)
Lemma opt_not_ltb_trans a b c :
  is_Some b → opt_ltb a b = false → opt_ltb b c = false → opt_ltb a c = false.
Proof.
  intros [y ->]. destruct a as [x|], c as [z|]; try done.
  apply string_not_ltb_trans.
Qed.

Section RunOrder.

Local Abbreviation key := WorkflowInfo.updated_at.
Local Abbreviation not_below := (λ a b : WorkflowInfo.t,
                                   opt_ltb (key a) (key b) = false).

Lemma insert_run_sorted x l :
  Forall (λ r, is_Some (key r)) l →
  StronglySorted not_below l →
  StronglySorted not_below (insert_desc opt_ltb key x l).
Proof.
  intros Hsome Hsorted. induction Hsorted as [|y l Hl IH Hy]; simpl.
  - by repeat constructor.
  - apply Forall_cons in Hsome as [Hy_some Hsome].
    destruct (opt_ltb (key x) (key y)) eqn:Hlt.
    + constructor; [by apply IH|].
      rewrite insert_desc_perm. constructor; [by apply opt_ltb_asym|done].
    + constructor; [by constructor|].
      constructor; [done|].
      eapply Forall_impl; [exact Hy|]. simpl. intros z Hz.
      by apply (opt_not_ltb_trans _ (key y)).
Qed.

Lemma sorted_runs_sorted l :
  Forall (λ r, is_Some (key r)) l →
  StronglySorted not_below (sorted_reverse opt_ltb key l).
Proof.
  induction 1 as [|x l Hx Hl IH]; simpl; [constructor|].
  apply insert_run_sorted; [|done].
  by rewrite sorted_reverse_perm.
Qed.

Lemma sort_runs_sorted runs runs' :
  sort_runs runs = Py.Ok runs' →
  StronglySorted not_below runs'
  ∧ ((length runs' ≤ 1)%nat ∨ Forall (λ r, is_Some (key r)) runs').
Proof.
  unfold sort_runs.
  destruct (2 <=? length runs)%nat eqn:Hlen; simpl.
  - destruct (existsb _ runs) eqn:Hnone; [done|]. intros [= <-].
    assert (Forall (λ r, is_Some (key r)) runs) as Hsome.
    { apply Forall_forall. intros r Hr.
      destruct (key r) eqn:Hkey; [done|].
      assert (existsb (λ r, bool_decide (key r = None)) runs = true) as Hex.
      { apply existsb_exists. exists r. split; [by apply list_elem_of_In|].
        by apply bool_decide_eq_true. }
      congruence. }
    split; [by apply sorted_runs_sorted|].
    right. by rewrite sorted_reverse_perm.
  - intros [= <-]. apply Nat.leb_gt in Hlen.
    destruct runs as [|x [|y runs]]; simpl in *; try lia.
    + split; [constructor|left; simpl; lia].
    + split; [by repeat constructor|left; simpl; lia].
Qed.

End RunOrder.

(** X16: in a status reply the runs of every workflow are listed from the
    greatest [updated_at] to the least, compared as strings, and a list
    of two or more runs holds no null [updated_at]. *)
Theorem status_runs_sorted (fromisoformat : string → option datetime)
    (w : world) (conclusion : option string) (summary : StatusSummary.t) :
  get_workflow_status fromisoformat w conclusion = Py.Ok (Result summary) →
  Forall (λ d,
      Forall (λ kv : string * list WorkflowInfo.t,
          StronglySorted
            (λ a b, opt_ltb (WorkflowInfo.updated_at a)
                      (WorkflowInfo.updated_at b) = false) kv.2
          ∧ ((length kv.2 ≤ 1)%nat
             ∨ Forall (λ r, is_Some (WorkflowInfo.updated_at r)) kv.2))
        (RepoData.workflows d))
    (StatusSummary.repositories summary).
Proof.
  intros Hcall.
  destruct (get_workflow_status_inv _ _ _ _ Hcall)
    as (events & repositories & _ & _ & Hsort & _).
  apply sort_repositories_inv in Hsort.
  eapply Forall2_Forall_r; [exact Hsort|].
  apply Forall_true. intros d d' (_ & _ & _ & Hw).
  apply sort_workflows_inv in Hw.
  eapply Forall2_Forall_r; [exact Hw|].
  apply Forall_true. intros a b [_ Hruns].
  by apply sort_runs_sorted in Hruns.
Qed.

Lemma status_runs_sorted_witness :
  ∃ summary,
    get_workflow_status IsoBasic.iso_basic
      (sample_world (Some failures_1_5_3) None) None = Py.Ok (Result summary)
    ∧ Forall (λ d,
          Forall (λ kv : string * list WorkflowInfo.t,
              StronglySorted
                (λ a b, opt_ltb (WorkflowInfo.updated_at a)
                          (WorkflowInfo.updated_at b) = false) kv.2
              ∧ ((length kv.2 ≤ 1)%nat
                 ∨ Forall (λ r, is_Some (WorkflowInfo.updated_at r)) kv.2))
            (RepoData.workflows d))
        (StatusSummary.repositories summary).
Proof.
  destruct (get_workflow_status IsoBasic.iso_basic
              (sample_world (Some failures_1_5_3) None) None)
    as [[m|e|summary]|exc] eqn:Hcall;
    try (vm_compute in Hcall; discriminate Hcall).
  exists summary. split; [reflexivity|].
  exact (status_runs_sorted _ _ _ _ Hcall).
Defined.

(** ** The latest run of a repository *)

Lemma dict_append_runs {B} k (x : B) (d : Dict.t (list B)) :
  concat (Dict.values (Dict.set k (default [] (Dict.get k d) ++ [x]) d))
  ≡ₚ x :: concat (Dict.values d).
Proof.
  unfold Dict.values. induction d as [|[k' v'] d IH]; simpl; [done|].
  destruct (String.eqb k k'); simpl.
  - rewrite <- app_assoc. simpl.
    by rewrite <- Permutation_middle.
  - rewrite IH. by rewrite <- Permutation_middle.
Qed.

Lemma track_run_latest fromisoformat current repositories event run
    repositories' :
  Forall (λ kv, latest_ok kv.2) repositories →
  track_run fromisoformat current repositories (event, run)
  = Py.Ok repositories' →
  Forall (λ kv, latest_ok kv.2) repositories'.
Proof.
  intros Hrepos Hstep.
  destruct (track_run_inv _ _ _ _ _ _ Hstep) as (newer & Hnewer & ->).
  clear Hstep.
  set (repo := Event.repository event) in *.
  set (info := info_of fromisoformat current run) in *.
  apply (dict_set_Forall latest_ok); [done|].
  destruct (Dict.get repo repositories) as [d|] eqn:Hget; simpl in *.
  - pose proof (dict_get_Forall latest_ok _ _ _ Hrepos Hget)
      as (l & Hl & Hin & Hmax).
    rewrite Hl in Hnewer.
    destruct (Run.updated_at run) as [x|] eqn:Hx; [|done].
    destruct (WorkflowInfo.updated_at l) as [y|] eqn:Hy; [|done].
    simpl in Hnewer. injection Hnewer as <-.
    unfold latest_ok, runs_of. simpl.
    destruct (String.ltb y x) eqn:Hlt.
    + exists info. split; [done|]. rewrite dict_append_runs.
      split; [by left|]. constructor.
      * apply opt_ltb_irrefl.
      * eapply Forall_impl; [exact Hmax|]. simpl. intros r Hr.
        subst info. simpl. rewrite Hx.
        destruct (WorkflowInfo.updated_at r) as [z|]; [|done]. simpl in *.
        apply not_true_is_false. intros Hxz.
        by rewrite (string_ltb_trans _ _ _ Hlt Hxz) in Hr.
    + exists l. split; [done|]. rewrite dict_append_runs.
      split; [by right|]. constructor; [|rewrite Hy; exact Hmax].
      subst info. simpl. by rewrite Hy, Hx.
  - subst newer. unfold latest_ok, runs_of. simpl.
    exists info. split; [done|]. split; [by left|].
    constructor; [apply opt_ltb_irrefl|constructor].
Qed.

Lemma track_runs_latest fromisoformat current items :
  ∀ repositories repositories',
  Forall (λ kv, latest_ok kv.2) repositories →
  track_runs fromisoformat current repositories items = Py.Ok repositories' →
  Forall (λ kv, latest_ok kv.2) repositories'.
Proof.
  induction items as [|[event run] items IH];
    intros repositories repositories' Hrepos.
  - by intros [= <-].
  - cbn [track_runs].
    destruct (track_run _ _ repositories _) as [step|] eqn:Hstep; [|done].
    simpl. apply IH. by apply (track_run_latest _ _ _ _ _ _ Hrepos Hstep).
Qed.

(** X17: every repository record of a status reply has a [latest_run]; it
    is one of the runs listed for the repository, and no listed run has a
    greater [updated_at] in string order. *)
Theorem status_latest_run (fromisoformat : string → option datetime)
    (w : world) (conclusion : option string) (summary : StatusSummary.t) :
  get_workflow_status fromisoformat w conclusion = Py.Ok (Result summary) →
  Forall (λ d,
      ∃ l, RepoData.latest_run d = Some l
           ∧ l ∈ runs_of d
           ∧ Forall (λ r, opt_ltb (WorkflowInfo.updated_at l)
                            (WorkflowInfo.updated_at r) = false) (runs_of d))
    (StatusSummary.repositories summary).
Proof.
  intros Hcall.
  destruct (get_workflow_status_inv _ _ _ _ Hcall)
    as (events & repositories & _ & Htrack & Hsort & _).
  pose proof (track_runs_latest _ _ _ [] repositories
                (Forall_nil_2 _) Htrack) as Hok.
  apply sort_repositories_inv in Hsort.
  eapply Forall2_Forall_r; [exact Hsort|].
  unfold Dict.values. apply Forall_fmap.
  eapply Forall_impl; [exact Hok|]. simpl.
  intros [k d] (l & Hl & Hin & Hmax) d' (_ & Hlatest & _ & Hw). simpl in *.
  pose proof (sorted_runs_of d d' Hw) as Hperm.
  exists l. rewrite Hlatest, Hperm. done.
Qed.

Lemma status_latest_run_witness :
  ∃ summary,
    get_workflow_status IsoBasic.iso_basic
      (sample_world (Some failures_1_5_3) None) None = Py.Ok (Result summary)
    ∧ map (λ d, WorkflowInfo.updated_at <$> RepoData.latest_run d)
        (StatusSummary.repositories summary)
      = [Some (Some "2024-01-01T00:08:00Z");
         Some (Some "2024-01-01T00:06:00Z")]
    ∧ Forall (λ d, ∃ l, RepoData.latest_run d = Some l ∧ l ∈ runs_of d)
        (StatusSummary.repositories summary).
Proof.
  destruct (get_workflow_status IsoBasic.iso_basic
              (sample_world (Some failures_1_5_3) None) None)
    as [[m|e|summary]|exc] eqn:Hcall;
    try (vm_compute in Hcall; discriminate Hcall).
  exists summary. split; [reflexivity|].
  split.
  - vm_compute in Hcall. injection Hcall as <-. reflexivity.
  - eapply Forall_impl; [exact (status_latest_run _ _ _ _ Hcall)|].
    intros d (l & Hl & Hin & _). eauto.
Defined.

(** ** When get_workflow_status raises *)

Lemma track_run_raises fromisoformat current repositories item e :
  track_run fromisoformat current repositories item = Py.Raise e →
  e = Py.TypeError.
Proof.
  destruct item as [event run]. rewrite track_run_unfold. cbv zeta.
  destruct (RepoData.latest_run _) as [latest|]; [|done].
  destruct (Run.updated_at run), (WorkflowInfo.updated_at latest);
    simpl; congruence.
Qed.

Lemma track_runs_raises fromisoformat current items : ∀ repositories e,
  track_runs fromisoformat current repositories items = Py.Raise e →
  e = Py.TypeError.
Proof.
  induction items as [|item items IH]; intros repositories e; [done|].
  cbn [track_runs].
  destruct (track_run _ _ repositories item) as [step|e'] eqn:Hstep; simpl.
  - apply IH.
  - intros [= <-]. by apply track_run_raises in Hstep.
Qed.

Lemma track_runs_app fromisoformat current items1 items2 : ∀ repositories,
  track_runs fromisoformat current repositories (items1 ++ items2)
  = repositories' ← track_runs fromisoformat current repositories items1;
    track_runs fromisoformat current repositories' items2.
Proof.
  induction items1 as [|item items1 IH]; intros repositories; [done|].
  simpl app. cbn [track_runs].
  destruct (track_run _ _ repositories item) as [step|]; simpl; [|done].
  apply IH.
Qed.

Lemma track_run_tracked fromisoformat current repositories event run
    repositories' done :
  Forall (tracked repositories) done →
  track_run fromisoformat current repositories (event, run)
  = Py.Ok repositories' →
  Forall (tracked repositories') ((event, run) :: done).
Proof.
  intros Hdone Hstep.
  destruct (track_run_inv _ _ _ _ _ _ Hstep) as (newer & Hnewer & ->).
  clear Hstep. set (repo := Event.repository event) in *.
  constructor.
  - unfold tracked. simpl. fold repo. rewrite dict_get_set_eq.
    destruct (Dict.get repo repositories) as [d|] eqn:Hget; simpl in *.
    + destruct (RepoData.latest_run d) as [l|] eqn:Hl.
      * destruct (Run.updated_at run) as [x|] eqn:Hx; [|done].
        eexists _, (if newer then _ else l). split; [done|]. simpl.
        split; [by destruct newer|done].
      * subst newer. eexists _, _. split; [done|]. by split.
    + subst newer. eexists _, _. split; [done|]. by split.
  - eapply Forall_impl; [exact Hdone|].
    intros [e r] (d & l & Hget & Hl & Hnone). unfold tracked. simpl in *.
    destruct (decide (repo = Event.repository e)) as [Heq|Hne].
    + rewrite <- Heq in *. rewrite dict_get_set_eq, Hget in *. simpl in *.
      rewrite Hl in *.
      destruct (Run.updated_at run) as [x|]; [|done].
      destruct (WorkflowInfo.updated_at l) as [y|] eqn:Hy; [|done].
      eexists _, (if newer then _ else l). split; [done|]. simpl.
      split; [by destruct newer|].
      intros Hr. by specialize (Hnone Hr).
    + rewrite dict_get_set_ne by done. eauto.
Qed.

Lemma track_runs_tracked fromisoformat current items :
  ∀ repositories repositories' done,
  Forall (tracked repositories) done →
  track_runs fromisoformat current repositories items = Py.Ok repositories' →
  Forall (tracked repositories') (reverse items ++ done).
Proof.
  induction items as [|[event run] items IH];
    intros repositories repositories' done Hdone.
  - by intros [= <-].
  - cbn [track_runs].
    destruct (track_run _ _ repositories _) as [step|] eqn:Hstep; [|done].
    simpl. intros Hrest. rewrite reverse_cons, <- app_assoc. simpl.
    apply (IH step); [|done].
    by apply (track_run_tracked fromisoformat current repositories).
Qed.

(** X18: a run whose [updated_at] is null cannot share a repository with
    any other run.  If two of the events that carry a run and pass the
    filter belong to one repository and either has a null [updated_at],
    the call raises [TypeError] instead of flagging the run. *)
Theorem status_null_updated_at_raises
    (fromisoformat : string → option datetime) (w : world)
    (events : list Event.t) (conclusion : option string)
    (pre mid post : list (Event.t * Run.t)) (a b : Event.t * Run.t) :
  EVENTS_FILE w = Some events →
  workflow_events events conclusion = pre ++ a :: mid ++ b :: post →
  Event.repository a.1 = Event.repository b.1 →
  Run.updated_at a.2 = None ∨ Run.updated_at b.2 = None →
  get_workflow_status fromisoformat w conclusion = Py.Raise Py.TypeError.
Proof.
  intros Hev Hitems Hrepo Hnull.
  unfold get_workflow_status. rewrite Hev.
  destruct events as [|e events].
  { unfold workflow_events in Hitems. simpl in Hitems.
    destruct (Py.truthy conclusion); by destruct pre. }
  rewrite Hitems.
  replace (pre ++ a :: mid ++ b :: post)
    with ((pre ++ a :: mid) ++ b :: post) by (by rewrite <- app_assoc).
  rewrite track_runs_app.
  destruct (track_runs _ _ [] (pre ++ a :: mid)) as [repositories|exc]
    eqn:Hfirst; simpl.
  - pose proof (track_runs_tracked _ _ _ [] repositories []
                  (Forall_nil_2 _) Hfirst) as Htracked.
    rewrite app_nil_r, Forall_forall in Htracked.
    destruct (Htracked a) as (d & l & Hget & Hl & Hnone).
    { apply elem_of_reverse, elem_of_app. right. by left. }
    destruct b as [eb rb]. cbn [track_runs]. rewrite track_run_unfold.
    cbv zeta. simpl in Hrepo. rewrite <- Hrepo, Hget. simpl. rewrite Hl.
    destruct Hnull as [Ha|Hb].
    + rewrite (Hnone Ha). by destruct (Run.updated_at rb).
    + simpl in Hb. by rewrite Hb.
  - by apply track_runs_raises in Hfirst as ->.
Qed.

Lemma status_null_updated_at_raises_witness :
  get_workflow_status IsoBasic.iso_basic
    (sample_world (Some null_then_dated) None) None
  = Py.Raise Py.TypeError.
Proof.
  apply (status_null_updated_at_raises IsoBasic.iso_basic
           (sample_world (Some null_then_dated) None) null_then_dated None
           []
           [(run_event "c/d" "CI" (Some "2024-01-01T00:00:00Z"),
             sample_run "CI" (Some "success") (Some "2024-01-01T00:00:00Z"))]
           []
           (run_event "a/b" "CI" None, sample_run "CI" (Some "success") None)
           (run_event "a/b" "Deploy" (Some "2024-01-01T00:00:00Z"),
            sample_run "Deploy" (Some "success")
              (Some "2024-01-01T00:00:00Z")));
    [reflexivity|reflexivity|reflexivity|by left].
Defined.

(** ** Elapsed time *)

(** X19: for an [updated_at] that parses to an aware datetime the
    breakdown follows the difference to the clock.  [hours] lies in 0..23
    and [minutes] in 0..59 also when the run lies in the future (the days
    are then negative), days, hours and minutes together are the
    difference rounded down to the minute, and [total_seconds] is the
    float nearest to the difference in microseconds over a million, so it
    is exact only while that quotient is a float. *)
Theorem elapsed_breakdown (fromisoformat : string → option datetime)
    (current : datetime) (s : string) (d : datetime) :
  s ≠ EmptyString →
  fromisoformat (Py.replace_Z s) = Some d →
  aware d = aware current →
  ∃ days hours minutes,
    time_since fromisoformat current (Some s)
    = TimeSince.Elapsed days hours minutes
        (Py.truediv (micros current - micros d) 1000000)
    ∧ 0 ≤ hours < 24
    ∧ 0 ≤ minutes < 60
    ∧ ((days * 24 + hours) * 60 + minutes) * 60 * 1000000
      ≤ micros current - micros d
      < (((days * 24 + hours) * 60 + minutes) * 60 + 60) * 1000000.
Proof.
  intros Hs Hd Haware. unfold time_since, parse_timestamp. simpl.
  destruct (String.eqb_spec s EmptyString); [done|]. simpl.
  rewrite Hd. simpl. unfold datetime_diff. rewrite Haware, Bool.eqb_reflx.
  eexists _, _, _. split; [reflexivity|].
  unfold MICROS_PER_DAY, MICROS_PER_SECOND.
  generalize (micros current - micros d). intros t.
  change (86400 * 1000000) with 86400000000.
  Z.to_euclidean_division_equations. lia.
Qed.

(** Ninety minutes give 5400.0 seconds; from the first microsecond before
    2024-01-01T01:00:00Z back to the year one the 63839667599999999
    microseconds give 63839667600.0 seconds, the nearest float. *)
Lemma elapsed_breakdown_witness :
  time_since IsoBasic.iso_basic
    {| micros := 1704070800000000; aware := true |}
    (Some "2023-12-31T23:30:00Z")
  = TimeSince.Elapsed 0 1 30
      (SpecFloat.S754_finite false 5937362789990400 (-40))
  ∧ time_since IsoBasic.iso_basic
      {| micros := 1704070799999999; aware := true |}
      (Some "0001-01-01T00:00:00Z")
    = TimeSince.Elapsed 738885 0 59
        (SpecFloat.S754_finite false 8367592911667200 (-17)).
Proof.
  split.
  - destruct (elapsed_breakdown IsoBasic.iso_basic
                {| micros := 1704070800000000; aware := true |}
                "2023-12-31T23:30:00Z"
                {| micros := 1704065400000000; aware := true |})
      as (days & hours & minutes & Heq & _); [done|reflexivity|reflexivity|].
    rewrite Heq. vm_compute in Heq. injection Heq as <- <- <-.
    vm_compute. reflexivity.
  - destruct (elapsed_breakdown IsoBasic.iso_basic
                {| micros := 1704070799999999; aware := true |}
                "0001-01-01T00:00:00Z"
                {| micros := -62135596800000000; aware := true |})
      as (days & hours & minutes & Heq & _); [done|reflexivity|reflexivity|].
    rewrite Heq. vm_compute in Heq. injection Heq as <- <- <-.
    vm_compute. reflexivity.
Defined.

(** X20: a non-empty [updated_at] without a UTC offset parses, but the
    subtraction from the aware clock fails and the bare [except] reports
    the run as unparsable. *)
Theorem naive_updated_at_flagged (fromisoformat : string → option datetime)
    (current : datetime) (s : string) (d : datetime) :
  s ≠ EmptyString →
  fromisoformat (Py.replace_Z s) = Some d →
  aware current = true →
  aware d = false →
  time_since fromisoformat current (Some s)
  = TimeSince.Failed "Could not parse timestamp".
Proof.
  intros Hs Hd Hcur Hnaive. unfold time_since, parse_timestamp. simpl.
  destruct (String.eqb_spec s EmptyString); [done|]. simpl.
  rewrite Hd. simpl. unfold datetime_diff. by rewrite Hcur, Hnaive.
Qed.

Lemma naive_updated_at_flagged_witness :
  time_since IsoBasic.iso_basic
    {| micros := 1704070800000000; aware := true |}
    (Some "2023-12-31T23:30:00")
  = TimeSince.Failed "Could not parse timestamp".
Proof.
  apply (naive_updated_at_flagged IsoBasic.iso_basic _
           "2023-12-31T23:30:00"
           {| micros := 1704065400000000; aware := false |});
    [done|reflexivity|reflexivity|reflexivity].
Defined.

(** ** When the two queries succeed *)

(** X28: [get_workflow_status] cannot fail on a store in which every run
    has a string [updated_at], readable or not: it returns, and each run it
    reports carries the elapsed time, or the error marker, computed from
    its own [updated_at]. *)
Theorem status_succeeds_on_dated_runs
    (fromisoformat : string → option datetime) (w : world)
    (events : list Event.t) (conclusion : option string) :
  EVENTS_FILE w = Some events →
  (∀ e run, e ∈ events → Event.workflow_run e = Some run →
            is_Some (Run.updated_at run)) →
  ∃ r,
    get_workflow_status fromisoformat w conclusion = Py.Ok r
    ∧ ∀ summary, r = Result summary →
        Forall (λ d,
            Forall (λ info,
                WorkflowInfo.time_since_run info
                = time_since fromisoformat (current_time w)
                    (WorkflowInfo.updated_at info))
              (runs_of d))
          (StatusSummary.repositories summary).
Proof.
  intros Hev Hdated.
  destruct (status_returns fromisoformat w events conclusion Hev)
    as (r & Hr & Hok).
  { apply Forall_forall. intros e He run. by apply Hdated. }
  exists r. split; [done|]. intros summary Hsummary.
  eapply Forall_impl; [exact (Hok summary Hsummary)|].
  intros d [_ Hruns]. unfold runs_of, Dict.values.
  apply Forall_concat_iff, Forall_fmap.
  eapply Forall_impl; [exact Hruns|]. simpl. intros kv Hkv.
  eapply Forall_impl; [exact Hkv|]. by intros info [_ ?].
Qed.

Lemma status_succeeds_on_dated_runs_witness :
  ∃ r, get_workflow_status IsoBasic.iso_basic
         (sample_world (Some failures_2_1_2) None) None = Py.Ok r.
Proof.
  destruct (status_succeeds_on_dated_runs IsoBasic.iso_basic
              (sample_world (Some failures_2_1_2) None) failures_2_1_2 None)
    as (r & Hr & _); [reflexivity| |by exists r].
  intros e run He Hrun. simpl in He.
  repeat (apply elem_of_cons in He as [->|He];
          [by injection Hrun as <-|]).
  by apply not_elem_of_nil in He.
Defined.

(** X29: [get_new_failures] returns a result when the window is between
    nothing and ten years, the clock is in range, and the timestamp of
    every failure event parses to an aware datetime; events without a
    failed run are never parsed and cannot make it fail. *)
Theorem new_failures_succeeds (fromisoformat : string → option datetime)
    (w : world) (events : list Event.t) (since_hours : Z) :
  EVENTS_FILE w = Some events →
  0 ≤ since_hours ≤ 87600 →
  0 ≤ now w ≤ DATETIME_MAX →
  (∀ e run, e ∈ events → failed_run e = Some run →
            ∃ d, fromisoformat (Py.replace_Z (Event.timestamp e)) = Some d
                 ∧ aware d = true) →
  ∃ res, get_new_failures fromisoformat w since_hours = Py.Ok (Result res).
Proof.
  intros Hev Hh Hnow Hparse.
  apply (get_new_failures_returns fromisoformat w events); try done.
  apply Forall_forall. intros e He run. by apply Hparse.
Qed.

Lemma new_failures_succeeds_witness :
  ∃ res, get_new_failures IsoBasic.iso_basic
           (sample_world (Some failures_2_1_2) None) 24 = Py.Ok (Result res).
Proof.
  apply (new_failures_succeeds IsoBasic.iso_basic
           (sample_world (Some failures_2_1_2) None) failures_2_1_2 24);
    [reflexivity|lia|vm_compute; split; discriminate|].
  intros e run He _. simpl in He.
  repeat (apply elem_of_cons in He as [->|He];
          [eexists; split; [vm_compute; reflexivity|reflexivity]|]).
  by apply not_elem_of_nil in He.
Defined.

(** ** suggest_team_notification without a configuration file *)

(** X21: with no configuration file the router never suggests a
    repository owner: it suggests the built-in lead of the failure type,
    then the two on-call engineers.  A failure type outside the five
    built-in categories gets no expert, not even the ["general"] one. *)
Theorem router_without_config (server_dir : string) (w : world)
    (repository workflow_name failure_type : string) :
  TEAM_CONFIG_FILE w = None →
  let result := suggest_team_notification server_dir w repository
                  workflow_name failure_type in
  Notification.config_exists result = false
  ∧ map (λ s, (Suggestion.type s, Suggestion.person s))
      (Notification.notification_suggestions result)
    = (if bool_decide (failure_type = "frontend")
       then [("expertise", "frontend-lead")]
       else if bool_decide (failure_type = "backend")
       then [("expertise", "backend-lead")]
       else if bool_decide (failure_type = "deployment")
       then [("expertise", "devops-lead")]
       else if bool_decide (failure_type = "security")
       then [("expertise", "security-lead")]
       else if bool_decide (failure_type = "general")
       then [("expertise", "tech-lead")]
       else [])
      ++ [("on_call_primary", "on-call-primary");
          ("on_call_secondary", "on-call-secondary")].
Proof.
  intros Hfile result. subst result. unfold suggest_team_notification.
  rewrite Hfile. cbn [Notification.config_exists
                        Notification.notification_suggestions].
  split; [done|].
  change (merge_config default_config (default empty_config None))
    with default_config.
  rewrite default_expertise_lookup.
  change (default ∅ (TeamConfig.repositories default_config) !! repository)
    with ((∅ : gmap string (list string)) !! repository).
  rewrite lookup_empty.
  repeat case_bool_decide; reflexivity.
Qed.

Lemma router_without_config_witness :
  map (λ s, (Suggestion.type s, Suggestion.person s))
    (Notification.notification_suggestions
       (suggest_team_notification "/srv" (world_with_config None None)
          "a/b" "CI" "flaky"))
  = [("on_call_primary", "on-call-primary");
     ("on_call_secondary", "on-call-secondary")].
Proof.
  apply (router_without_config "/srv" (world_with_config None None)
           "a/b" "CI" "flaky"). reflexivity.
Defined.

(** ** The template tools *)

Lemma same_letter_lower a b :
  same_letter a b = true → lower_char a = lower_char b.
Proof.
  unfold same_letter, lower_char.
  pose proof (ascii_nat_embedding a) as Ha.
  pose proof (ascii_nat_embedding b) as Hb.
  intros [[Heq|Hup]%orb_true_iff|Hup]%orb_true_iff.
  - by apply Ascii.eqb_eq in Heq as ->.
  - apply andb_true_iff in Hup as [[Hlo Hhi]%andb_true_iff Hy].
    apply Nat.eqb_eq in Hy. rewrite Hlo, Hhi. simpl.
    apply Nat.leb_le in Hlo.
    replace (nat_of_ascii b <=? 90)%nat with false
      by (symmetry; apply Nat.leb_gt; lia).
    rewrite andb_false_r. by rewrite <- Hy, Hb.
  - apply andb_true_iff in Hup as [[Hlo Hhi]%andb_true_iff Hx].
    apply Nat.eqb_eq in Hx. rewrite Hlo, Hhi. simpl.
    apply Nat.leb_le in Hlo.
    replace (nat_of_ascii a <=? 90)%nat with false
      by (symmetry; apply Nat.leb_gt; lia).
    rewrite andb_false_r. by rewrite <- Hx, Ha.
Qed.

Lemma same_up_to_case_lower s1 : ∀ s2,
  same_up_to_case s1 s2 = true → lower s1 = lower s2.
Proof.
  induction s1 as [|a s1 IH]; intros [|b s2]; simpl; try done.
  intros [Hab Hrest]%andb_true_iff.
  by rewrite (same_letter_lower a b Hab), (IH s2 Hrest).
Qed.

Lemma get_pr_templates_spec read_text :
  get_pr_templates read_text
  = bug ← read_text "bug.md"; feature ← read_text "feature.md";
    refactor ← read_text "refactor.md"; security ← read_text "security.md";
    Some [ {| Template.filename := "bug.md"; Template.type := "Bug Fix";
              Template.content := bug |};
           {| Template.filename := "feature.md"; Template.type := "Feature";
              Template.content := feature |};
           {| Template.filename := "refactor.md"; Template.type := "Refactor";
              Template.content := refactor |};
           {| Template.filename := "security.md"; Template.type := "Security";
              Template.content := security |} ].
Proof.
  unfold get_pr_templates. simpl.
  destruct (read_text "bug.md"); simpl; [|done].
  destruct (read_text "feature.md"); simpl; [|done].
  destruct (read_text "refactor.md"); simpl; [|done].
  destruct (read_text "security.md"); simpl; done.
Qed.

Lemma type_mapping_files (change_type : string) :
  default "feature.md" (Dict.get change_type TYPE_MAPPING)
  ∈ ["bug.md"; "feature.md"; "refactor.md"; "security.md"].
Proof.
  unfold TYPE_MAPPING. cbn [Dict.get].
  repeat (destruct (String.eqb change_type _);
          [cbn [default from_option]; set_solver|]).
  cbn [default from_option]. set_solver.
Qed.

(** X22: when the four template files can be read, [suggest_template]
    recommends the file [TYPE_MAPPING] gives for the lower-cased change
    type, and [feature.md] for a type it does not list; the content
    returned is that file's.  The fallback to the first template is never
    taken. *)
Theorem suggest_template_follows_mapping (read_text : string → option string)
    (changes_summary change_type : string) :
  Forall (λ item : string * string, is_Some (read_text item.1))
    DEFAULT_TEMPLATES →
  ∃ s,
    suggest_template read_text changes_summary change_type = Some s
    ∧ Template.filename (TemplateSuggestion.recommended_template s)
      = default "feature.md" (Dict.get (lower change_type) TYPE_MAPPING)
    ∧ Dict.get (Template.filename (TemplateSuggestion.recommended_template s))
        DEFAULT_TEMPLATES
      = Some (Template.type (TemplateSuggestion.recommended_template s))
    ∧ read_text (Template.filename (TemplateSuggestion.recommended_template s))
      = Some (TemplateSuggestion.template_content s).
Proof.
  intros Hfiles. unfold suggest_template. rewrite get_pr_templates_spec.
  apply Forall_cons in Hfiles as [[bug Hbug] Hfiles].
  apply Forall_cons in Hfiles as [[feature Hfeature] Hfiles].
  apply Forall_cons in Hfiles as [[refactor Hrefactor] Hfiles].
  apply Forall_cons in Hfiles as [[security Hsecurity] _].
  cbn [fst] in *. rewrite Hbug, Hfeature, Hrefactor, Hsecurity.
  pose proof (type_mapping_files (lower change_type)) as Hcases.
  revert Hcases.
  generalize (default "feature.md" (Dict.get (lower change_type) TYPE_MAPPING)).
  intros template_file Hcases.
  repeat (apply elem_of_cons in Hcases as [->|Hcases];
          [eexists; split; [reflexivity|]; by repeat split|]).
  by apply not_elem_of_nil in Hcases.
Qed.

Lemma suggest_template_follows_mapping_witness :
  ∃ s,
    suggest_template all_templates "Patches the login check" "Fix" = Some s
    ∧ Template.filename (TemplateSuggestion.recommended_template s) = "bug.md".
Proof.
  destruct (suggest_template_follows_mapping all_templates
              "Patches the login check" "Fix")
    as (s & Hs & Hname & _).
  - repeat constructor; by eexists.
  - exists s. split; [exact Hs|]. rewrite Hname. reflexivity.
Defined.

(** X23: the choice of template ignores the letter case of the change
    type and does not depend on the summary: two change types that differ
    only in the case of their ASCII letters get the same recommended
    template, whatever the two summaries are. *)
Theorem suggest_template_ignores_case (read_text : string → option string)
    (summary1 summary2 change_type1 change_type2 : string) :
  same_up_to_case change_type1 change_type2 = true →
  TemplateSuggestion.recommended_template
    <$> suggest_template read_text summary1 change_type1
  = TemplateSuggestion.recommended_template
      <$> suggest_template read_text summary2 change_type2.
Proof.
  intros Hsame%same_up_to_case_lower.
  unfold suggest_template. rewrite Hsame.
  destruct (get_pr_templates read_text) as [templates|]; simpl; [|done].
  by destruct (head templates).
Qed.

Lemma suggest_template_ignores_case_witness :
  Template.filename ∘ TemplateSuggestion.recommended_template
    <$> suggest_template all_templates "Patches the login check" "FiX"
  = Some "bug.md"
  ∧ Template.filename ∘ TemplateSuggestion.recommended_template
      <$> suggest_template all_templates "Patches the login check" "fix"
    = Some "bug.md".
Proof.
  split; [|vm_compute; reflexivity].
  rewrite option_fmap_compose.
  rewrite (suggest_template_ignores_case all_templates
             "Patches the login check" "Patches the login check"
             "FiX" "fix" eq_refl).
  vm_compute. reflexivity.
Defined.

(** X24: [get_pr_templates] reads all four files at every call, so one
    unreadable template makes it raise, and [suggest_template] with it,
    whatever the change type and whichever template it would have
    picked. *)
Theorem missing_template_breaks_suggestions
    (read_text : string → option string) (filename : string) :
  filename ∈ map fst DEFAULT_TEMPLATES →
  read_text filename = None →
  get_pr_templates read_text = None
  ∧ ∀ changes_summary change_type,
      suggest_template read_text changes_summary change_type = None.
Proof.
  intros Hin Hmissing.
  assert (get_pr_templates read_text = None) as Hnone.
  { rewrite get_pr_templates_spec. simpl in Hin.
    repeat (apply elem_of_cons in Hin as [->|Hin];
            [rewrite Hmissing; simpl;
             repeat (match goal with
                     | |- context [read_text ?f] => destruct (read_text f)
                     end; simpl); done|]).
    by apply not_elem_of_nil in Hin. }
  split; [done|]. intros changes_summary change_type.
  unfold suggest_template. by rewrite Hnone.
Qed.

Lemma missing_template_breaks_suggestions_witness :
  suggest_template no_security_template "Adds a button" "feature" = None.
Proof.
  apply (missing_template_breaks_suggestions no_security_template
           "security.md"); [|reflexivity].
  apply (bool_decide_unpack _). vm_compute. exact I.
Defined.

(** ** analyze_file_changes *)

Lemma split_lines_cons s : ∃ line lines, PyStr.split_lines s = line :: lines.
Proof.
  induction s as [|c s (line & lines & IH)]; simpl; [by eexists _, _|].
  destruct (Ascii.eqb c PyStr.nl); [by eexists _, _|].
  rewrite IH. by eexists _, _.
Qed.

Lemma join_lines_cons line line' lines :
  PyStr.join_lines (line :: line' :: lines)
  = line +:+ String PyStr.nl (PyStr.join_lines (line' :: lines)).
Proof. reflexivity. Qed.

Lemma join_lines_push c line lines :
  PyStr.join_lines (String c line :: lines)
  = String c (PyStr.join_lines (line :: lines)).
Proof. by destruct lines. Qed.

(** Splitting at the newlines and joining again gives the text back. *)
Lemma join_split_lines s : PyStr.join_lines (PyStr.split_lines s) = s.
Proof.
  induction s as [|c s IH]; [done|]. simpl.
  destruct (split_lines_cons s) as (line & lines & Hs). rewrite Hs in *.
  destruct (Ascii.eqb c PyStr.nl) eqn:Hc.
  - apply Ascii.eqb_eq in Hc as ->. rewrite join_lines_cons, IH. done.
  - by rewrite join_lines_push, IH.
Qed.






Section AnalyzeProperties.
Variable list_roots : string + list Root.t.
Variable getcwd server_dir : string.
Variable run : list string → string → Proc.t.


(** X26: only the first git command is run with [check=True].  If it exits
    with a non-zero code the reply is the error ["Git error: "] followed by
    its standard error; if it exits with zero and the other commands
    complete, their exit codes are ignored and their output is reported
    as it is. *)
Theorem analysis_exit_codes (base_branch : string) (include_diff : bool)
    (max_diff_lines : Z) (working_directory : option string)
    (returncode : Z) (files stderr : string) :
  (∀ cwd, run ["git"; "diff"; "--name-status"; base_branch +:+ "...HEAD"] cwd
          = Proc.Completed returncode files stderr) →
  (returncode ≠ 0 →
   analyze_file_changes list_roots getcwd server_dir run
        base_branch include_diff max_diff_lines working_directory
   = Error ("Git error: " +:+ stderr))
  ∧ (returncode = 0 →
     ∀ rc2 statistics err2 rc3 stdout err3 rc4 commits err4,
       (∀ cwd, run ["git"; "diff"; "--stat"; base_branch +:+ "...HEAD"] cwd
               = Proc.Completed rc2 statistics err2) →
       (∀ cwd, run ["git"; "diff"; base_branch +:+ "...HEAD"] cwd
               = Proc.Completed rc3 stdout err3) →
       (∀ cwd, run ["git"; "log"; "--oneline"; base_branch +:+ "..HEAD"] cwd
               = Proc.Completed rc4 commits err4) →
       ∃ a,
         analyze_file_changes list_roots getcwd server_dir run
        base_branch include_diff max_diff_lines working_directory
         = Result a
         ∧ Analysis.base_branch a = base_branch
         ∧ Analysis.files_changed a = files
         ∧ Analysis.statistics a = statistics
         ∧ Analysis.commits a = commits).
Proof.
  intros Hfirst. split.
  - intros Hrc. unfold analyze_file_changes. rewrite Hfirst.
    by destruct (Z.eqb_spec returncode 0).
  - intros -> rc2 statistics err2 rc3 stdout err3 rc4 commits err4
      Hstat Hdiff Hlog.
    unfold analyze_file_changes. rewrite Hfirst, Hstat, Hdiff, Hlog.
    change (negb (0 =? 0)) with false. cbv iota.
    destruct include_diff.
    + destruct (truncate_diff stdout max_diff_lines) as [[content cut] total].
      by eexists.
    + by eexists.
Qed.

(** X27: with [include_diff = false] the diff command is not consulted:
    the reply is the same whatever [git diff] would have done, a failure
    included, and it carries the placeholder text and zero lines. *)
Theorem analysis_without_diff (run' : list string → string → Proc.t)
    (base_branch : string) (max_diff_lines : Z)
    (working_directory : option string) :
  (∀ args cwd, args ≠ ["git"; "diff"; base_branch +:+ "...HEAD"] →
               run' args cwd = run args cwd) →
  analyze_file_changes list_roots getcwd server_dir run'
    base_branch false max_diff_lines working_directory
  = analyze_file_changes list_roots getcwd server_dir run
        base_branch false max_diff_lines working_directory
  ∧ ∀ a, analyze_file_changes list_roots getcwd server_dir run
        base_branch false max_diff_lines working_directory
         = Result a →
         Analysis.truncated a = false
         ∧ Analysis.total_diff_lines a = 0%nat
         ∧ Analysis.diff a
           = "Diff not included (set include_diff=true to see full diff)".
Proof.
  intros Hsame. split.
  - unfold analyze_file_changes. by rewrite !Hsame.
  - unfold analyze_file_changes. intros a.
    match goal with
    | |- context [run _ ?c] => generalize c; intros cwd
    end.
    destruct (run ["git"; "diff"; "--name-status"; _] cwd); [|done].
    destruct (negb _); [done|].
    destruct (run ["git"; "diff"; "--stat"; _] cwd); [|done].
    destruct (run ["git"; "log"; _; _] cwd); [|done].
    by intros [= <-].
Qed.

End AnalyzeProperties.


Lemma analysis_exit_codes_witness :
  analyze_file_changes (inl "no session") "/work" "/srv" no_repository
    "main" true 500 None
  = Error "Git error: fatal: not a git repository".
Proof.
  apply (analysis_exit_codes (inl "no session") "/work" "/srv" no_repository
           "main" true 500 None 128 EmptyString
           "fatal: not a git repository"); done.
Defined.

Lemma analysis_without_diff_witness :
  analyze_file_changes (inl "no session") "/work" "/srv"
    (λ args cwd, if decide (args = ["git"; "diff"; "main...HEAD"])
                 then Proc.Failed "killed" else sample_git args cwd)
    "main" false 500 None
  = analyze_file_changes (inl "no session") "/work" "/srv" sample_git
      "main" false 500 None.
Proof.
  apply (analysis_without_diff (inl "no session") "/work" "/srv" sample_git).
  intros args cwd Hargs. by rewrite decide_False.
Defined.
